(** * Stk_Dash: the dashboard's client-side rendering logic

    A shallow embedding of [static/js/main.js] and [static/js/charts.js]:
    the value formatter [formatSignedValue], the card text updater
    [updateChartCardTextOnly], the performance controller
    [loadPerformanceDataAndRenderCharts], the chart renderer [renderChart],
    the article card builder [loadFmpArticles] and the news list builder
    [loadTickerNews], together with the part of the JavaScript runtime and
    of the DOM that these functions call into.

    Conventions of the model.
    - A JavaScript string is a Rocq [string] holding its UTF-8 bytes.  Every
      pattern the program searches for is ASCII, so a prefix cut at a byte
      offset found by [indexOf] is the prefix JavaScript cuts at the
      corresponding code-unit offset.
    - A JavaScript number is a [number]: NaN, the two infinities, or a
      rational.  IEEE doubles are rationals, so a statement over every
      rational covers every finite double; text is converted with the
      rounding to the nearest double written out ([to_double]).  Minus zero
      is identified with zero: the program only compares numbers with [>=]
      and prints them with [toFixed], and neither tells the two apart.
    - Functions that touch the page run in the monad [M]: a state
      transformer over [Page] whose result is a JavaScript completion
      (a value, or a thrown error).  An [await] is sequential composition;
      the outcome of the awaited fetch is an argument of the function, and
      a run of a function is the whole call, from its start to the end of
      its last continuation, with nothing else running in between.  Where
      a statement is about calls that overlap, the call is split at its
      [await] ([loadTickerNews_start], [loadTickerNews_resume]).
    - The body of a response is typed by what the function reads of it
      ([FmpPayload], [TickerPayload]): an array of records whose fields are
      texts or absent, or a value that is not an array.  A body of another
      shape (an array holding [null], a record whose content is a number)
      is not a value of these types; [loadFmpArticles] throws on such a
      body, outside its [try], and no statement here covers it.
    - What the host supplies and the program treats as a black box (Chart.js's
      constructor, locale date formatting, coercions of non-primitive values)
      is a field of the record [Host]; theorems hold for every host.
    - Chart.js is loaded before [charts.js], as in the template, so the name
      [Chart] is bound.  The calls into the library are recorded in a trace,
      and a chart instance is named by the position of its construction in
      that trace.
    - Markup assigned through [innerHTML] is kept as text and not parsed:
      elements that such markup would create are not found by
      [getElementById].  The program itself writes no id as markup, but
      the texts of a response that it inserts (an article's content, a
      headline) may declare one; a browser would then find the inserted
      element when it precedes the element of the template.  The
      statements are about lookups that no inserted markup can shadow:
      those made before any text of a response is written, those of an
      element that precedes the place of insertion, and the container's
      lookup of itself. *)

From Stdlib Require Import ZArith QArith Qabs String Ascii List Lia Bool.
From stdpp Require Import base option list gmap strings.

Set Warnings "-register-all".

Local Open Scope string_scope.
Local Open Scope Z_scope.

(** ** Strings *)

Module JsString.

(** The double-quote character, for markup literals. *)
Definition dq : string := String (ascii_of_nat 34) EmptyString.

(** The line feed, for multi-line template literals. *)
Definition nl : string := String (ascii_of_nat 10) EmptyString.

Fixpoint spaces (n : nat) : string :=
  match n with
  | O => EmptyString
  | S n' => String " "%char (spaces n')
  end.

Fixpoint drop (n : nat) (s : string) : string :=
  match n, s with
  | O, _ => s
  | S _, EmptyString => EmptyString
  | S n', String _ s' => drop n' s'
  end.

Fixpoint take (n : nat) (s : string) : string :=
  match n, s with
  | O, _ => EmptyString
  | S _, EmptyString => EmptyString
  | S n', String c s' => String c (take n' s')
  end.

(** [s.startsWith(p)] *)
Fixpoint startsWith (p s : string) : bool :=
  match p, s with
  | EmptyString, _ => true
  | String _ _, EmptyString => false
  | String a p', String b s' => if Ascii.eqb a b then startsWith p' s' else false
  end.

(** [s.indexOf(p)]: the offset of the first occurrence of [p], or [-1]. *)
Fixpoint indexOf (p s : string) : Z :=
  if startsWith p s then 0
  else match s with
       | EmptyString => -1
       | String _ s' =>
           let i := indexOf p s' in
           if i <? 0 then -1 else i + 1
       end.

(** [s.slice(0, k)] for an offset [k]; a negative end counts from the end
    of the string. *)
Definition slice0 (k : Z) (s : string) : string :=
  if k <? 0
  then take (Z.to_nat (Z.max 0 (Z.of_nat (String.length s) + k))) s
  else take (Z.to_nat k) s.

(** [s.replace(p, r)] with a string pattern: the first occurrence only.
    The replacement texts of this program hold no [$]. *)
Fixpoint replace (p r s : string) : string :=
  if startsWith p s then r +:+ drop (String.length p) s
  else match s with
       | EmptyString => EmptyString
       | String c s' => String c (replace p r s')
       end.

(** White space and line terminators, as [trim] and [parseFloat] skip
    them: the six ASCII ones and the UTF-8 encodings of U+00A0, U+1680,
    U+2000..U+200A, U+2028, U+2029, U+202F, U+205F, U+3000 and U+FEFF.
    The result is the number of bytes of the white-space character that
    starts [s], or 0. *)
Definition ws_width (s : string) : nat :=
  match s with
  | String c r =>
      let n := nat_of_ascii c in
      if ((9 <=? n) && (n <=? 13))%nat || (n =? 32)%nat then 1%nat
      else match r with
           | String c1 r1 =>
               let n1 := nat_of_ascii c1 in
               if ((n =? 194) && (n1 =? 160))%nat then 2%nat
               else match r1 with
                    | String c2 _ =>
                        let n2 := nat_of_ascii c2 in
                        if ((n =? 225) && (n1 =? 154) && (n2 =? 128))%nat then 3%nat
                        else if ((n =? 226) && (n1 =? 128) &&
                                 (((128 <=? n2) && (n2 <=? 138)) || (n2 =? 168)
                                  || (n2 =? 169) || (n2 =? 175)))%nat then 3%nat
                        else if ((n =? 226) && (n1 =? 129) && (n2 =? 159))%nat then 3%nat
                        else if ((n =? 227) && (n1 =? 128) && (n2 =? 128))%nat then 3%nat
                        else if ((n =? 239) && (n1 =? 187) && (n2 =? 191))%nat then 3%nat
                        else 0%nat
                    | EmptyString => 0%nat
                    end
           | EmptyString => 0%nat
           end
  | EmptyString => 0%nat
  end.

Fixpoint trimStart_fuel (fuel : nat) (s : string) : string :=
  match fuel with
  | O => s
  | S fuel' =>
      match ws_width s with
      | O => s
      | w => trimStart_fuel fuel' (drop w s)
      end
  end.

Definition trimStart (s : string) : string :=
  trimStart_fuel (String.length s) s.

(** The length of [s] once its trailing white space is removed. *)
Fixpoint trimmed_length (s : string) : nat :=
  match s with
  | EmptyString => O
  | String _ r =>
      if String.eqb (trimStart s) EmptyString then O
      else S (trimmed_length r)
  end.

Definition trimEnd (s : string) : string := take (trimmed_length s) s.

(** [s.trim()] *)
Definition trim (s : string) : string := trimEnd (trimStart s).

Definition is_digit (c : ascii) : bool :=
  let n := nat_of_ascii c in ((48 <=? n) && (n <=? 57))%nat.

Definition digit_value (c : ascii) : Z := Z.of_nat (nat_of_ascii c) - 48.

Definition digit_char (d : Z) : ascii := ascii_of_nat (Z.to_nat (48 + d mod 10)).

Fixpoint all_digits (s : string) : bool :=
  match s with
  | EmptyString => true
  | String c r => is_digit c && all_digits r
  end.

(** The last character of a string, if any. *)
Fixpoint last_char (s : string) : option ascii :=
  match s with
  | EmptyString => None
  | String c EmptyString => Some c
  | String _ r => last_char r
  end.

(** The first character of a string, if any. *)
Definition first_char (s : string) : option ascii :=
  match s with
  | EmptyString => None
  | String c _ => Some c
  end.

(** [s] ends with ['%']. *)
Definition ends_with_percent (s : string) : bool :=
  match last_char s with
  | Some c => Ascii.eqb c "%"%char
  | None => false
  end.

End JsString.

(** ** Numbers *)

Inductive number : Type :=
| NaN
| PosInf
| NegInf
| Fin (q : Q).

Module JsNumber.
Import JsString.

Definition of_Z (z : Z) : number := Fin (inject_Z z).

Definition is_finite (x : number) : bool :=
  match x with Fin _ => true | _ => false end.

(** [x >= 0] on numbers; false for NaN. *)
Definition ge_zero (x : number) : bool :=
  match x with
  | NaN => false
  | PosInf => true
  | NegInf => false
  | Fin q => 0 <=? Qnum q
  end.

(** [x < k] for an integer [k]; false for NaN. *)
Definition lt_Z (x : number) (k : Z) : bool :=
  match x with
  | NaN => false
  | PosInf => false
  | NegInf => true
  | Fin q => Qnum q <? k * Zpos (Qden q)
  end.

(** Equality of values (NaN differs from itself). *)
Definition eq_value (x y : number) : bool :=
  match x, y with
  | PosInf, PosInf => true
  | NegInf, NegInf => true
  | Fin p, Fin q => Qeq_bool p q
  | _, _ => false
  end.

(** *** Rounding to the nearest double *)

(** [n / d] rounded to the nearest integer, ties to even ([0 <= n], [0 < d]). *)
Definition round_half_even (n d : Z) : Z :=
  let f := n / d in
  let r := n mod d in
  if 2 * r <? d then f
  else if d <? 2 * r then f + 1
  else if Z.even f then f else f + 1.

(** The double nearest to the rational [q] (round to nearest, ties to even,
    53-bit significand, least exponent -1074, overflow to infinity). *)
Definition to_double (q : Q) : number :=
  let n := Qnum q in
  let d := Zpos (Qden q) in
  if n =? 0 then Fin 0
  else
    let a := Z.abs n in
    let t := Z.log2 a - Z.log2 d in
    let above := if 0 <=? t then d * 2 ^ t <=? a else d <=? a * 2 ^ (- t) in
    let b := if above then t else t - 1 in
    let e := Z.max (b - 52) (-1074) in
    let m := if 0 <=? e then round_half_even a (d * 2 ^ e)
             else round_half_even (a * 2 ^ (- e)) d in
    let overflow := if 0 <=? e then 2 ^ 1024 <=? m * 2 ^ e else false in
    if overflow then (if n <? 0 then NegInf else PosInf)
    else
      let v := if 0 <=? e then inject_Z (m * 2 ^ e)
               else Qmake m (Z.to_pos (2 ^ (- e))) in
      Fin (Qred (if n <? 0 then Qopp v else v)).

(** *** Decimal digits *)

(** [w] decimal digits of [n], most significant first. *)
Fixpoint fixed_digits (w : nat) (n : Z) : string :=
  match w with
  | O => EmptyString
  | S w' => fixed_digits w' (n / 10) +:+ String (digit_char n) EmptyString
  end.

Fixpoint ndigits_fuel (fuel : nat) (n : Z) : nat :=
  match fuel with
  | O => O
  | S fuel' => if n <=? 0 then O else S (ndigits_fuel fuel' (n / 10))
  end.

(** The number of decimal digits of [n] (0 for [n <= 0]). *)
Definition ndigits (n : Z) : nat := ndigits_fuel (S (Z.to_nat (Z.log2 n))) n.

(** The decimal representation of [n >= 0], without leading zeros. *)
Definition decimal (n : Z) : string :=
  if n <=? 0 then "0" else fixed_digits (ndigits n) n.

Fixpoint zeros (n : nat) : string :=
  match n with
  | O => EmptyString
  | S n' => String "0"%char (zeros n')
  end.

(** *** Number::toString for doubles of magnitude at least [10^21] *)

(** The candidates with [k] digits for the integer double [X] of [n0]
    decimal digits: the significands [s] with [10^(k-1) <= s < 10^k] such
    that [s * 10^(n0-k)] rounds to [X]. *)
Definition digit_candidates (X : Z) (n0 k : nat) : list Z :=
  let p := 10 ^ Z.of_nat (n0 - k) in
  let lo := X / p in
  let ok s := andb (s <? 10 ^ Z.of_nat k)
                   (eq_value (to_double (inject_Z (s * p))) (Fin (inject_Z X))) in
  List.filter ok [lo; lo + 1].

(** Of the candidates the one nearest to [X]; on a tie the even one. *)
Definition nearest_candidate (X p : Z) (cs : list Z) : option Z :=
  match cs with
  | [] => None
  | [s] => Some s
  | s1 :: s2 :: _ =>
      let d1 := Z.abs (s1 * p - X) in
      let d2 := Z.abs (s2 * p - X) in
      if d1 <? d2 then Some s1
      else if d2 <? d1 then Some s2
      else if Z.even s1 then Some s1 else Some s2
  end.

(** The shortest significand: the least [k >= k0] that has a candidate,
    searched up to [k0 + fuel]. *)
Fixpoint shortest_from (fuel : nat) (X : Z) (n0 k : nat) : option (Z * nat) :=
  match fuel with
  | O => None
  | S fuel' =>
      match nearest_candidate X (10 ^ Z.of_nat (n0 - k)) (digit_candidates X n0 k) with
      | Some s => Some (s, k)
      | None => shortest_from fuel' X n0 (S k)
      end
  end.

(** Exponent notation: [d.ddd] followed by [e+] and the exponent. *)
Definition exponent_form (s : Z) (k : nat) (e : Z) : string :=
  let ds := fixed_digits k s in
  match ds with
  | String c EmptyString => String c EmptyString +:+ "e+" +:+ decimal e
  | String c r => String c EmptyString +:+ "." +:+ r +:+ "e+" +:+ decimal e
  | EmptyString => "0"
  end.

(** [Number::toString(x)] for a finite [x >= 10^21]: the shortest digits
    that read back as the same double, in exponent notation.  The argument
    is first rounded to a double. *)
Definition toString_large (q : Q) : string :=
  match to_double q with
  | Fin v =>
      let X := Qnum v / Zpos (Qden v) in
      let n0 := ndigits X in
      if eq_value (to_double (inject_Z (10 ^ Z.of_nat n0))) (Fin (inject_Z X))
      then exponent_form 1 1 (Z.of_nat n0)
      else match shortest_from 17 X n0 1 with
           | Some (s, k) => exponent_form s k (Z.of_nat n0 - 1)
           | None => exponent_form X n0 (Z.of_nat n0 - 1)
           end
  | PosInf => "Infinity"
  | NegInf => "-Infinity"
  | NaN => "NaN"
  end.

End JsNumber.

(** ** Values, errors and completions *)

(** The values the program handles: what [JSON.parse] produces, [undefined],
    and the one built-in function object a payload can make the program
    read ([Array.prototype.values], as the property [values] of an array). *)
Inductive jsval : Type :=
| VUndef
| VNull
| VBool (b : bool)
| VNum (x : number)
| VStr (s : string)
| VArr (items : list jsval)
| VObj (fields : list (string * jsval))
| VArrayValues.

Inductive jserror : Type :=
| TypeError
| RangeError
| HttpError (status : Z)
| NetworkError
| SyntaxError
| LibraryError.

(** The completion of an evaluation: a value, or a thrown error. *)
Inductive completion (A : Type) : Type :=
| Normal (a : A)
| Throw (e : jserror).

Arguments Normal {A} a.
Arguments Throw {A} e.

Definition cbind {A B : Type} (c : completion A) (k : A -> completion B) : completion B :=
  match c with
  | Normal a => k a
  | Throw e => Throw e
  end.

Declare Scope completion_scope.
Delimit Scope completion_scope with completion.
Notation "'let!' x ':=' c 'in' k" := (cbind c (fun x => k))
  (at level 10, x name, c at level 100, k at level 200) : completion_scope.

(** What the host provides. *)
Record ChartConfig : Type := mkChartConfig {
  cfg_type : string;
  cfg_labels : list jsval;
  cfg_label : string;
  cfg_data : list jsval;
  cfg_borderColor : string;
  cfg_pointRadius : Z;
  cfg_title : string;
  cfg_animation : bool
}.

(** The calls made into Chart.js, oldest first.  A chart instance is named
    by a number, given at its construction. *)
Inductive LibEvent : Type :=
| Constructed (inst : nat) (canvasId : string) (cfg : ChartConfig)
| ConstructFailed (canvasId : string) (cfg : ChartConfig)
| Destroyed (inst : nat).

Record Host : Type := mkHost {
  (** [ToNumber] of a value that is not undefined, null, a boolean or a
      number. *)
  host_ToNumber : jsval -> completion number;
  (** [new Date(d).toLocaleString('en-US', options)] with the options of
      [loadFmpArticles]. *)
  host_formatDate : string -> string;
  (** [c.toUpperCase()] of a string that starts with a non-ASCII character,
      applied to that first character only. *)
  host_upperFirst : string -> string;
  (** Whether [new Chart(ctx, cfg)] throws, given the calls made into the
      library so far, the canvas and the configuration. *)
  host_Chart_throws : list LibEvent -> string -> ChartConfig -> bool
}.

Module JsValue.
Import JsString JsNumber.

(** [ToBoolean] *)
Definition truthy (v : jsval) : bool :=
  match v with
  | VUndef | VNull => false
  | VBool b => b
  | VNum NaN => false
  | VNum (Fin q) => negb (Qnum q =? 0)
  | VNum _ => true
  | VStr s => negb (String.eqb s EmptyString)
  | VArr _ | VObj _ | VArrayValues => true
  end.

(** [a || b] *)
Definition or_else (a b : jsval) : jsval := if truthy a then a else b.

Definition isArray (v : jsval) : bool :=
  match v with VArr _ => true | _ => false end.

Fixpoint assoc (k : string) (fields : list (string * jsval)) : jsval :=
  match fields with
  | [] => VUndef
  | (k', v) :: rest => if String.eqb k k' then v else assoc k rest
  end.

(** The property names the program reads from payload values. *)
Inductive PropName : Type :=
| p_error
| p_relative_performance
| p_moving_z_score
| p_alpha
| p_cumulative_alpha
| p_value
| p_change
| p_dates
| p_values.

Definition prop_name (p : PropName) : string :=
  match p with
  | p_error => "error"
  | p_relative_performance => "relative_performance"
  | p_moving_z_score => "moving_z_score"
  | p_alpha => "alpha"
  | p_cumulative_alpha => "cumulative_alpha"
  | p_value => "value"
  | p_change => "change"
  | p_dates => "dates"
  | p_values => "values"
  end.

(** [v.p]: a TypeError on undefined and null; an own property of an
    object; on an array the inherited method [values] and nothing else of
    that list; undefined on the other primitives and on functions. *)
Definition get (v : jsval) (p : PropName) : completion jsval :=
  match v with
  | VUndef | VNull => Throw TypeError
  | VObj fields => Normal (assoc (prop_name p) fields)
  | VArr _ => match p with
              | p_values => Normal VArrayValues
              | _ => Normal VUndef
              end
  | _ => Normal VUndef
  end.

(** [v?.p] *)
Definition get_opt (v : jsval) (p : PropName) : completion jsval :=
  match v with
  | VUndef | VNull => Normal VUndef
  | _ => get v p
  end.

(** The number of UTF-16 code units of a string given by its UTF-8 bytes:
    one per character, two for a character of four bytes. *)
Fixpoint utf16_length (s : string) : Z :=
  match s with
  | EmptyString => 0
  | String c r =>
      let n := nat_of_ascii c in
      (if (n <? 128)%nat then 1
       else if (n <? 192)%nat then 0
       else if (n <? 240)%nat then 1
       else 2) + utf16_length r
  end.

(** [v.length] for a truthy [v]. *)
Definition get_length (v : jsval) : jsval :=
  match v with
  | VArr items => VNum (of_Z (Z.of_nat (List.length items)))
  | VStr s => VNum (of_Z (utf16_length s))
  | VObj fields => assoc "length" fields
  | VArrayValues => VNum (of_Z 0)
  | _ => VUndef
  end.

(** [ToNumber] *)
Definition ToNumber (host : Host) (v : jsval) : completion number :=
  match v with
  | VUndef => Normal NaN
  | VNull => Normal (of_Z 0)
  | VBool b => Normal (of_Z (if b then 1 else 0))
  | VNum x => Normal x
  | _ => host_ToNumber host v
  end.

(** [isNaN(v)] *)
Definition isNaN (host : Host) (v : jsval) : completion bool :=
  (let! x := ToNumber host v in
   Normal (match x with NaN => true | _ => false end))%completion.

(** [v >= 0] *)
Definition ge0 (host : Host) (v : jsval) : completion bool :=
  (let! x := ToNumber host v in Normal (ge_zero x))%completion.

(** [v < k] against an integer literal [k] *)
Definition less_than (host : Host) (v : jsval) (k : Z) : completion bool :=
  (let! x := ToNumber host v in Normal (lt_Z x k))%completion.

(** *** Number.prototype.toFixed *)

(** [x.toFixed(digits)] for a number [x] and an integer [digits]. *)
Definition toFixed (x : number) (digits : Z) : completion string :=
  if (digits <? 0) || (100 <? digits) then Throw RangeError
  else
    match x with
    | NaN => Normal "NaN"
    | PosInf => Normal "Infinity"
    | NegInf => Normal "-Infinity"
    | Fin q =>
        let a := Z.abs (Qnum q) in
        let d := Zpos (Qden q) in
        let s := if Qnum q <? 0 then "-" else "" in
        if 10 ^ 21 * d <=? a
        then Normal (s +:+ toString_large (Qmake a (Qden q)))
        else
          let f := Z.to_nat digits in
          let n := (2 * a * 10 ^ digits + d) / (2 * d) in
          let m := decimal n in
          if (f =? 0)%nat then Normal (s +:+ m)
          else
            let k := String.length m in
            let m := if (k <=? f)%nat then zeros (f + 1 - k) +:+ m else m in
            let k := String.length m in
            Normal (s +:+ take (k - f) m +:+ "." +:+ drop (k - f) m)
    end.

(** [v.toFixed(digits)]: only a number has the method. *)
Definition call_toFixed (v : jsval) (digits : Z) : completion string :=
  match v with
  | VNum x => toFixed x digits
  | _ => Throw TypeError
  end.

(** *** parseFloat *)

Fixpoint span_digits (s : string) : string * string :=
  match s with
  | String c r =>
      if is_digit c then let '(ds, rest) := span_digits r in (String c ds, rest)
      else (EmptyString, s)
  | EmptyString => (EmptyString, EmptyString)
  end.

Fixpoint digits_value (acc : Z) (s : string) : Z :=
  match s with
  | EmptyString => acc
  | String c r => digits_value (10 * acc + digit_value c) r
  end.

(** An optional sign: whether it is a minus, and the rest. *)
Definition take_sign (s : string) : bool * string :=
  match s with
  | String "-"%char r => (true, r)
  | String "+"%char r => (false, r)
  | _ => (false, s)
  end.

(** An exponent part [e], [e+] or [e-] followed by digits, if [s] starts
    with one: its value. *)
Definition exponent_part (s : string) : Z :=
  match s with
  | String c r =>
      if Ascii.eqb c "e"%char || Ascii.eqb c "E"%char then
        let '(neg, r') := take_sign r in
        let '(ds, _) := span_digits r' in
        if String.eqb ds EmptyString then 0
        else if neg then - digits_value 0 ds else digits_value 0 ds
      else 0
  | EmptyString => 0
  end.

(** The rational [m * 10^e]. *)
Definition scale10 (m e : Z) : Q :=
  if 0 <=? e then inject_Z (m * 10 ^ e) else Qmake m (Z.to_pos (10 ^ (- e))).

(** [parseFloat(s)]: leading white space is skipped, then the longest
    prefix that is a decimal literal is read and rounded to a double; NaN
    when there is none. *)
Definition parseFloat (s : string) : number :=
  let '(neg, r) := take_sign (trimStart s) in
  if startsWith "Infinity" r then (if neg then NegInf else PosInf)
  else
    let '(ip, r1) := span_digits r in
    let '(fp, r2) :=
      match r1 with
      | String "."%char r1' => span_digits r1'
      | _ => (EmptyString, r1)
      end in
    if String.eqb ip EmptyString && String.eqb fp EmptyString then NaN
    else
      let m := digits_value 0 (ip +:+ fp) in
      let e := exponent_part r2 - Z.of_nat (String.length fp) in
      to_double (scale10 (if neg then - m else m) e).

End JsValue.

(** ** The value formatter *)

Import JsString JsNumber JsValue.

(** [formatSignedValue(val, digits, isPercent)], main.js lines 409-413. *)
Definition formatSignedValue (host : Host) (val : jsval) (digits : Z) (isPercent : bool)
  : completion string :=
  let num := match val with
             | VStr s => VNum (parseFloat (replace "%" "" s))
             | _ => val
             end in
  (let! nan := isNaN host num in
   if nan then Normal (if isPercent then "+0.00%" else "+0.00")
   else
     let! nonneg := ge0 host num in
     let! body := call_toFixed num digits in
     Normal ((if nonneg then "+" else "") +:+ body +:+ (if isPercent then "%" else "")))%completion.

(** ** The page *)

(** Content that is not looked up again: text, markup assigned through
    [innerHTML] (kept unparsed), and elements built with [createElement]. *)
Inductive Node : Type :=
| TextNode (text : string)
| Markup (html : string)
| ElemNode (tag className : string) (attrs : list (string * string)) (children : list Node).

Inductive ElKind : Type :=
| Canvas (has2d : bool)
| OtherElement.

(** An element of the document: its [id] attribute, whether it is a canvas
    (and whether that canvas yields a 2D context), its parent element, its
    class list and its content. *)
Record Element : Type := mkElement {
  el_id : option string;
  el_kind : ElKind;
  el_parent : option nat;
  el_classes : list string;
  el_content : list Node
}.

(** The document: its elements in document order.  The position of an
    element is its handle; [None] marks an element removed from the
    document. *)
Abbreviation Document := (list (option Element)).

(** An entry of the chart registry [window.charts]. *)
Inductive Slot : Type :=
| SChart (inst : nat)
| SNull.

Inductive LogEntry : Type :=
| Log (msg : string)
| LogValue (msg : string) (v : jsval)
| LogError (msg : string)
| LogErrorValue (msg : string) (v : jsval)
| LogException (msg : string) (e : jserror).

Record Page : Type := mkPage {
  document : Document;
  (** [window.charts]; [None] while it is undefined *)
  charts : option (gmap string Slot);
  (** [window.currentTicker]; [None] while it is undefined *)
  currentTicker : option string;
  console : list LogEntry;
  (** the calls made into Chart.js, oldest first *)
  library : list LibEvent
}.

Definition with_document (f : Document -> Document) (pg : Page) : Page :=
  mkPage (f (document pg)) (charts pg) (currentTicker pg) (console pg) (library pg).

Definition with_charts (c : option (gmap string Slot)) (pg : Page) : Page :=
  mkPage (document pg) c (currentTicker pg) (console pg) (library pg).

Definition with_ticker (t : option string) (pg : Page) : Page :=
  mkPage (document pg) (charts pg) t (console pg) (library pg).

Definition with_console (l : list LogEntry) (pg : Page) : Page :=
  mkPage (document pg) (charts pg) (currentTicker pg) l (library pg).

Definition with_library (l : list LibEvent) (pg : Page) : Page :=
  mkPage (document pg) (charts pg) (currentTicker pg) (console pg) l.

Module Dom.

Definition has_id (id : string) (e : Element) : bool :=
  match el_id e with
  | Some i => String.eqb i id
  | None => false
  end.

Fixpoint find_id (id : string) (doc : Document) (i : nat) : option nat :=
  match doc with
  | [] => None
  | Some e :: rest => if has_id id e then Some i else find_id id rest (S i)
  | None :: rest => find_id id rest (S i)
  end.

(** [document.getElementById(id)]: the first element in document order
    with that id. *)
Definition getElementById (id : string) (doc : Document) : option nat :=
  find_id id doc O.

Definition element (doc : Document) (h : nat) : option Element :=
  match doc !! h with
  | Some (Some e) => Some e
  | _ => None
  end.

(** [el.parentElement] *)
Definition parentElement (doc : Document) (h : nat) : option nat :=
  match element doc h with
  | Some e =>
      match el_parent e with
      | Some p => match element doc p with Some _ => Some p | None => None end
      | None => None
      end
  | None => None
  end.

(** Whether [a] is a proper ancestor of [x]. *)
Fixpoint has_ancestor (fuel : nat) (doc : Document) (a x : nat) : bool :=
  match fuel with
  | O => false
  | S fuel' =>
      match element doc x with
      | Some e =>
          match el_parent e with
          | Some p => (p =? a)%nat || has_ancestor fuel' doc a p
          | None => false
          end
      | None => false
      end
  end.

(** The document without the elements below [a] ([a] itself stays). *)
Definition remove_descendants (a : nat) (doc : Document) : Document :=
  imap (fun i oe => if negb (i =? a)%nat && has_ancestor (List.length doc) doc a i
                    then None else oe) doc.

Definition update (h : nat) (f : Element -> Element) (doc : Document) : Document :=
  match element doc h with
  | Some e => <[h := Some (f e)]> doc
  | None => doc
  end.

Definition set_content_of (c : list Node) (e : Element) : Element :=
  mkElement (el_id e) (el_kind e) (el_parent e) (el_classes e) c.

Definition set_classes_of (cs : list string) (e : Element) : Element :=
  mkElement (el_id e) (el_kind e) (el_parent e) cs (el_content e).

(** Replacing all the children of [h]: the elements below [h] leave the
    document. *)
Definition replace_children (h : nat) (c : list Node) (doc : Document) : Document :=
  match element doc h with
  | Some _ => update h (set_content_of c) (remove_descendants h doc)
  | None => doc
  end.

(** The nodes that a markup string assigned to [innerHTML] yields. *)
Definition markup (html : string) : list Node :=
  if String.eqb html EmptyString then [] else [Markup html].

(** The text nodes that assigning [s] to [textContent] yields. *)
Definition text_nodes (s : string) : list Node :=
  if String.eqb s EmptyString then [] else [TextNode s].

(** [el.textContent = s] *)
Definition set_textContent (h : nat) (s : string) (doc : Document) : Document :=
  replace_children h (text_nodes s) doc.

(** [el.innerHTML = html] *)
Definition set_innerHTML (h : nat) (html : string) (doc : Document) : Document :=
  replace_children h (markup html) doc.

(** [el.appendChild(node)] for a node built with [createElement]. *)
Definition appendChild (h : nat) (n : Node) (doc : Document) : Document :=
  update h (fun e => set_content_of (el_content e ++ [n]) e) doc.

Definition token_eqb (a b : string) : bool := String.eqb a b.

(** A class list without the given tokens, and with one more token. *)
Definition remove_classes (tokens cls : list string) : list string :=
  List.filter (fun c => negb (List.existsb (token_eqb c) tokens)) cls.

Definition add_class (token : string) (cls : list string) : list string :=
  if List.existsb (token_eqb token) cls then cls else (cls ++ [token])%list.

Definition remove_tokens (tokens : list string) (e : Element) : Element :=
  set_classes_of (remove_classes tokens (el_classes e)) e.

Definition add_token (token : string) (e : Element) : Element :=
  set_classes_of (add_class token (el_classes e)) e.

(** [el.classList.remove(t1, t2, ...)] *)
Definition classList_remove (h : nat) (tokens : list string) (doc : Document) : Document :=
  update h (remove_tokens tokens) doc.

(** [el.classList.add(t)] *)
Definition classList_add (h : nat) (token : string) (doc : Document) : Document :=
  update h (add_token token) doc.

(** The text an element shows: the concatenation of its text nodes, when
    its content is text only. *)
Fixpoint plain_text (c : list Node) : option string :=
  match c with
  | [] => Some EmptyString
  | TextNode s :: rest =>
      match plain_text rest with
      | Some r => Some (s +:+ r)
      | None => None
      end
  | _ :: _ => None
  end.

(** The text shown by the element with the given id. *)
Definition text_of (doc : Document) (id : string) : option string :=
  match getElementById id doc with
  | Some h =>
      match element doc h with
      | Some e => plain_text (el_content e)
      | None => None
      end
  | None => None
  end.

(** The class list of the parent of the element with the given id. *)
Definition container_classes (doc : Document) (id : string) : option (list string) :=
  match getElementById id doc with
  | Some h =>
      match parentElement doc h with
      | Some p =>
          match element doc p with
          | Some e => Some (el_classes e)
          | None => None
          end
      | None => None
      end
  | None => None
  end.

(** The children of the element with the given id. *)
Definition children_of (doc : Document) (id : string) : option (list Node) :=
  match getElementById id doc with
  | Some h =>
      match element doc h with
      | Some e => Some (el_content e)
      | None => None
      end
  | None => None
  end.

(** The content and the class list of the element at a handle. *)
Definition content (doc : Document) (h : nat) : option (list Node) :=
  el_content <$> element doc h.

Definition classes (doc : Document) (h : nat) : option (list string) :=
  el_classes <$> element doc h.

(** An update of an element that keeps its id, its parent and its kind. *)
Definition keeps_skeleton (f : Element -> Element) : Prop :=
  forall e, el_id (f e) = el_id e /\ el_parent (f e) = el_parent e
            /\ el_kind (f e) = el_kind e.

(** An element without element children in the document. *)
Definition is_leaf (doc : Document) (h : nat) : Prop :=
  forall x e, element doc x = Some e -> el_parent e <> Some h.

End Dom.

(** ** The monad of page effects *)

Definition M (A : Type) : Type := Page -> completion A * Page.

Definition ret {A : Type} (a : A) : M A := fun pg => (Normal a, pg).

Definition throw {A : Type} (e : jserror) : M A := fun pg => (Throw e, pg).

Definition bind {A B : Type} (m : M A) (k : A -> M B) : M B :=
  fun pg =>
    match m pg with
    | (Normal a, pg') => k a pg'
    | (Throw e, pg') => (Throw e, pg')
    end.

(** [try { m } catch (e) { handler e }] *)
Definition try_catch {A : Type} (m : M A) (handler : jserror -> M A) : M A :=
  fun pg =>
    match m pg with
    | (Normal a, pg') => (Normal a, pg')
    | (Throw e, pg') => handler e pg'
    end.

Definition lift {A : Type} (c : completion A) : M A := fun pg => (c, pg).

Definition gets {A : Type} (f : Page -> A) : M A := fun pg => (Normal (f pg), pg).

Definition modify (f : Page -> Page) : M unit := fun pg => (Normal tt, f pg).

Declare Scope page_scope.
Delimit Scope page_scope with page.
Notation "'let*' x ':=' m 'in' k" := (bind m (fun x => k))
  (at level 10, x name, m at level 100, k at level 200) : page_scope.
Notation "m1 ';;' m2" := (bind m1 (fun _ => m2))
  (at level 100, m2 at level 200, right associativity) : page_scope.

Local Open Scope page_scope.

Definition console_log (entry : LogEntry) : M unit :=
  modify (fun pg => with_console (console pg ++ [entry]) pg).

Definition getElementById (id : string) : M (option nat) :=
  gets (fun pg => Dom.getElementById id (document pg)).

Definition parentElement (h : nat) : M (option nat) :=
  gets (fun pg => Dom.parentElement (document pg) h).

Definition set_textContent (h : nat) (s : string) : M unit :=
  modify (with_document (Dom.set_textContent h s)).

Definition set_innerHTML (h : nat) (html : string) : M unit :=
  modify (with_document (Dom.set_innerHTML h html)).

Definition appendChild (h : nat) (n : Node) : M unit :=
  modify (with_document (Dom.appendChild h n)).

Definition classList_remove (h : nat) (tokens : list string) : M unit :=
  modify (with_document (Dom.classList_remove h tokens)).

Definition classList_add (h : nat) (token : string) : M unit :=
  modify (with_document (Dom.classList_add h token)).

(** [canvasEl.getContext('2d')]: the context (named by the canvas), [null]
    when the canvas yields none; an element that is not a canvas has no
    such method. *)
Definition getContext2d (h : nat) : M (option nat) :=
  fun pg =>
    match Dom.element (document pg) h with
    | Some e =>
        match el_kind e with
        | Canvas true => (Normal (Some h), pg)
        | Canvas false => (Normal None, pg)
        | OtherElement => (Throw TypeError, pg)
        end
    | None => (Throw TypeError, pg)
    end.

(** The outcome of an awaited [fetch] followed by [response.json()]: the
    request is rejected, or a response arrives with its [ok] flag, its
    status, and its body ([None] when the body is not JSON). *)
Inductive FetchOutcome (B : Type) : Type :=
| FetchRejected
| FetchResponse (ok : bool) (status : Z) (body : option B).

Arguments FetchRejected {B}.
Arguments FetchResponse {B} ok status body.

(** [response = await fetch(url); if (!response.ok) throw ...;
     data = await response.json()] *)
Definition fetch_json {B : Type} (r : FetchOutcome B) : M B :=
  match r with
  | FetchRejected => throw NetworkError
  | FetchResponse ok status body =>
      if negb ok then throw (HttpError status)
      else match body with
           | Some b => ret b
           | None => throw SyntaxError
           end
  end.

(** ** charts.js: the chart renderer *)

Module Charts.

Definition is_upper (c : ascii) : bool :=
  let n := nat_of_ascii c in ((65 <=? n) && (n <=? 90))%nat.

(** [s.replace(/([A-Z])/g, ' $1')] *)
Fixpoint space_capitals (s : string) : string :=
  match s with
  | EmptyString => EmptyString
  | String c r =>
      if is_upper c then String " "%char (String c (space_capitals r))
      else String c (space_capitals r)
  end.

(** [s.charAt(0).toUpperCase() + s.slice(1)] *)
Definition upperFirst (host : Host) (s : string) : string :=
  match s with
  | EmptyString => EmptyString
  | String c r =>
      let n := nat_of_ascii c in
      if (n <? 128)%nat
      then String (if ((97 <=? n) && (n <=? 122))%nat then ascii_of_nat (n - 32) else c) r
      else host_upperFirst host s
  end.

(** Step (c) of [renderChart]: the chart title. *)
Definition chartTitle (host : Host) (canvasId ticker : string) : string :=
  let metricName := trim (space_capitals (replace "Chart" "" canvasId)) in
  let prettyName := upperFirst host metricName in
  if negb (String.eqb ticker EmptyString) then ticker +:+ " " +:+ prettyName
  else prettyName.

(** [Array.isArray(v) ? v : []] *)
Definition array_or_empty (v : jsval) : list jsval :=
  match v with
  | VArr items => items
  | _ => []
  end.

(** [(data && data.length < 10) ? 2 : 0] *)
Definition pointRadius (host : Host) (data : jsval) : completion Z :=
  if truthy data
  then (let! small := less_than host (get_length data) 10 in
        Normal (if small then 2 else 0))%completion
  else Normal 0.

(** Step (d) of [renderChart]: the configuration.  Of the object literal
    the fields that depend on the arguments are kept, with the chart type
    and the animation flag; the other options are constants. *)
Definition buildConfig (host : Host) (title : string) (data labels : jsval)
    (lineColor : string) : completion ChartConfig :=
  (let! radius := pointRadius host data in
   Normal (mkChartConfig "line" (array_or_empty labels) title (array_or_empty data)
                         lineColor radius title false))%completion.

(** [window.charts[canvasId]] *)
Definition registry_get (canvasId : string) : M (option Slot) :=
  fun pg =>
    match charts pg with
    | Some reg => (Normal (reg !! canvasId), pg)
    | None => (Throw TypeError, pg)
    end.

(** [window.charts[canvasId] = s] *)
Definition registry_set (canvasId : string) (s : Slot) : M unit :=
  fun pg =>
    match charts pg with
    | Some reg => (Normal tt, with_charts (Some (<[canvasId := s]> reg)) pg)
    | None => (Throw TypeError, pg)
    end.

(** [chart.destroy()] *)
Definition chart_destroy (inst : nat) : M unit :=
  modify (fun pg => with_library (library pg ++ [Destroyed inst]) pg).

(** [new Chart(ctx, cfg)]: the new instance is named by the position of
    its construction in the trace of library calls. *)
Definition new_Chart (host : Host) (canvasId : string) (cfg : ChartConfig) : M nat :=
  fun pg =>
    if host_Chart_throws host (library pg) canvasId cfg
    then (Throw LibraryError, with_library (library pg ++ [ConstructFailed canvasId cfg]) pg)
    else
      let inst := List.length (library pg) in
      (Normal inst, with_library (library pg ++ [Constructed inst canvasId cfg]) pg).

(** [renderChart(canvasId, data, labels, lineColor)], charts.js. *)
Definition renderChart (host : Host) (canvasId : string) (data labels : jsval)
    (lineColor : string) : M unit :=
  let* canvasEl := getElementById canvasId in
  match canvasEl with
  | None =>
      console_log (LogError ("[charts.js] renderChart: Canvas '" +:+ canvasId +:+ "' not found."))
  | Some el =>
      let* ctx := getContext2d el in
      match ctx with
      | None =>
          console_log (LogError ("[charts.js] renderChart: 2D context for '" +:+ canvasId
                                 +:+ "' missing."))
      | Some _ =>
          let* reg := gets charts in
          (match reg with
           | None => modify (with_charts (Some ∅))
           | Some _ => ret tt
           end) ;;
          let* slot := registry_get canvasId in
          (match slot with
           | Some (SChart inst) => chart_destroy inst ;; registry_set canvasId SNull
           | _ => ret tt
           end) ;;
          let* current := gets currentTicker in
          let ticker := default EmptyString current in
          let title := chartTitle host canvasId ticker in
          let* cfg := lift (buildConfig host title data labels lineColor) in
          try_catch
            (let* inst := new_Chart host canvasId cfg in
             registry_set canvasId (SChart inst) ;;
             console_log (Log ("[charts.js] renderChart: Created '" +:+ canvasId
                               +:+ "' titled '" +:+ title +:+ "'")))
            (fun e =>
               console_log (LogException ("[charts.js] renderChart: Chart.js instantiation failed for '"
                                          +:+ canvasId +:+ "':") e))
      end
  end.

End Charts.

(** ** main.js: card text, the performance controller, the article cards *)

Import Charts.

(** [updateChartCardTextOnly(valueElementId, changeElementId, valueStr,
    changeStr)], main.js lines 344-369. *)
Definition updateChartCardTextOnly (valueElementId changeElementId : string)
    (valueStr changeStr : jsval) : M unit :=
  let* valueEl := getElementById valueElementId in
  let* changeEl := getElementById changeElementId in
  (match valueEl, valueStr with
   | Some el, VStr s => set_textContent el (trim s)
   | _, _ => ret tt
   end) ;;
  match changeEl, changeStr with
  | Some el, VStr s =>
      let* changeOuterSpan := parentElement el in
      set_textContent el (trim s) ;;
      match changeOuterSpan with
      | Some outer =>
          classList_remove outer ["positive"; "negative"] ;;
          if startsWith "-" s then classList_add outer "negative"
          else classList_add outer "positive"
      | None => ret tt
      end
  | _, _ => ret tt
  end.

(** [{ value: 0, change: 0, dates: [], values: [] }] *)
Definition fallback : jsval :=
  VObj [("value", VNum (of_Z 0)); ("change", VNum (of_Z 0));
        ("dates", VArr []); ("values", VArr [])].

(** [apiData?.p || fallback], main.js lines 400-403. *)
Definition metricOrFallback (apiData : jsval) (p : PropName) : completion jsval :=
  (let! v := get_opt apiData p in Normal (or_else v fallback))%completion.

(** The [try]/[catch] of main.js lines 386-397: the value left in
    [apiData]. *)
Definition fetchApiData (resp : FetchOutcome jsval) : M jsval :=
  try_catch
    (let* apiData := fetch_json resp in
     let* err := lift (get apiData p_error) in
     if truthy err
     then console_log (LogErrorValue "[loadPerformanceDataAndRenderCharts] API returns error:" err) ;;
          ret VNull
     else ret apiData)
    (fun e =>
       console_log (LogException "[loadPerformanceDataAndRenderCharts] Fetch error:" e) ;;
       ret VNull).

(** [formatSignedValue(series.p, digits, isPercent)] *)
Definition formatField (host : Host) (series : jsval) (p : PropName) (digits : Z)
    (isPercent : bool) : M string :=
  lift (let! v := get series p in formatSignedValue host v digits isPercent)%completion.

(** [renderChart(canvasId, series.values, series.dates, color)] *)
Definition renderSeries (host : Host) (canvasId : string) (series : jsval) (color : string)
  : M unit :=
  let* values := lift (get series p_values) in
  let* dates := lift (get series p_dates) in
  renderChart host canvasId values dates color.

(** [loadPerformanceDataAndRenderCharts(ticker)], main.js lines 382-442,
    for the given outcome of its fetch. *)
Definition loadPerformanceDataAndRenderCharts (host : Host) (resp : FetchOutcome jsval)
    (ticker : string) : M unit :=
  console_log (Log ("[loadPerformanceDataAndRenderCharts] For ticker='" +:+ ticker +:+ "'")) ;;
  let* apiData := fetchApiData resp in
  let* rpData := lift (metricOrFallback apiData p_relative_performance) in
  let* zData := lift (metricOrFallback apiData p_moving_z_score) in
  let* aData := lift (metricOrFallback apiData p_alpha) in
  let* caData := lift (metricOrFallback apiData p_cumulative_alpha) in
  let* zv := lift (get zData p_value) in
  console_log (LogValue "zData.value (raw):" zv) ;;
  let* zc := lift (get zData p_change) in
  console_log (LogValue "zData.change (raw):" zc) ;;
  let* rpVal := formatField host rpData p_value 2 true in
  let* rpChg := formatField host rpData p_change 2 true in
  let* zVal := formatField host zData p_value 2 false in
  let* zChg := formatField host zData p_change 2 false in
  let* aVal := formatField host aData p_value 3 false in
  let* aChg := formatField host aData p_change 3 false in
  let* caVal := formatField host caData p_value 2 false in
  let* caChg := formatField host caData p_change 2 false in
  updateChartCardTextOnly "rp-value" "rp-change" (VStr rpVal) (VStr rpChg) ;;
  updateChartCardTextOnly "zscore-value" "zscore-change" (VStr zVal) (VStr zChg) ;;
  updateChartCardTextOnly "alpha-value" "alpha-change" (VStr aVal) (VStr aChg) ;;
  updateChartCardTextOnly "cumulative-alpha-value" "cumulative-alpha-change"
                          (VStr caVal) (VStr caChg) ;;
  modify (with_ticker (Some ticker)) ;;
  renderSeries host "relativePerformanceChart" rpData "#1E90FF" ;;
  renderSeries host "movingZScoreChart" zData "#FFA500" ;;
  renderSeries host "alphaChart" aData "#32CD32" ;;
  renderSeries host "cumulativeAlphaChart" caData "#9370DB".

(** *** Article cards *)

(** An article of the feed (spec, data model): text fields; an optional
    field is [None] when absent or null. *)
Record Article : Type := mkArticle {
  art_title : string;
  art_date : option string;
  art_content : option string;
  art_image : option string;
  art_link : string;
  art_author : option string;
  art_site : option string
}.

(** The body of a successful response of [/api/fmp_articles]: an array of
    articles, or a JSON value that is not an array. *)
Inductive FmpPayload : Type :=
| FmpArray (articles : list Article)
| FmpNotArray.

(** [field || dflt] for an optional text field. *)
Definition text_or (field : option string) (dflt : string) : string :=
  match field with
  | Some s => if String.eqb s EmptyString then dflt else s
  | None => dflt
  end.

Definition field_truthy (field : option string) : bool :=
  match field with
  | Some s => negb (String.eqb s EmptyString)
  | None => false
  end.

(** Step 3c of the card, main.js lines 264-270: the snippet. *)
Definition snippet (content : option string) : string :=
  let rawHtml := text_or content EmptyString in
  let closingP := indexOf "</p>" rawHtml in
  if 0 <? closingP then slice0 (closingP + 4) rawHtml else rawHtml.

Definition placeholder : string := "/static/images/placeholder.png".

Definition link_open (href : string) : string :=
  "<a href=" +:+ dq +:+ href +:+ dq +:+ " target=" +:+ dq +:+ "_blank" +:+ dq
  +:+ " rel=" +:+ dq +:+ "noopener" +:+ dq +:+ ">".

(** The card built for one article, main.js lines 218-284. *)
Definition articleCard (host : Host) (article : Article) : Node :=
  let img := ElemNode "img" EmptyString
               [("src", text_or (art_image article) placeholder);
                ("alt", text_or (art_site article) "FMP" +:+ " logo")] [] in
  let leftDiv := ElemNode "div" "fmp-article-image" [] [img] in
  let formattedDate :=
    match art_date article with
    | Some d => if String.eqb d EmptyString then EmptyString else host_formatDate host d
    | None => EmptyString
    end in
  let authorPart :=
    if field_truthy (art_author article)
    then "&nbsp;—&nbsp;<span class=" +:+ dq +:+ "author" +:+ dq +:+ ">"
         +:+ text_or (art_author article) EmptyString +:+ "</span>"
    else EmptyString in
  let metaDiv := ElemNode "div" "fmp-article-meta" []
    (Dom.markup (nl +:+ spaces 16 +:+ "<span class=" +:+ dq +:+ "date" +:+ dq +:+ ">"
                 +:+ formattedDate +:+ "</span>" +:+ nl +:+ spaces 16 +:+ authorPart
                 +:+ nl +:+ spaces 12)) in
  let headline := ElemNode "h3" "fmp-article-headline" []
    (Dom.markup (nl +:+ spaces 16 +:+ link_open (art_link article) +:+ nl +:+ spaces 20
                 +:+ art_title article +:+ nl +:+ spaces 16 +:+ "</a>")) in
  let snippetDiv := ElemNode "div" "fmp-article-snippet" []
    (Dom.markup (snippet (art_content article))) in
  let readMoreDiv := ElemNode "div" "fmp-article-readmore" []
    (Dom.markup (nl +:+ spaces 16 +:+ link_open (art_link article) +:+ "Read More →</a>"
                 +:+ nl +:+ spaces 12)) in
  let rightDiv := ElemNode "div" "fmp-article-content" []
    [metaDiv; headline; snippetDiv; readMoreDiv] in
  ElemNode "div" "fmp-article-card" [] [leftDiv; rightDiv].

(** [items.forEach(f)] *)
Fixpoint forEach {A : Type} (items : list A) (f : A -> M unit) : M unit :=
  match items with
  | [] => ret tt
  | x :: rest => f x ;; forEach rest f
  end.

(** [loadFmpArticles()], main.js lines 180-289, for the given outcome of
    its fetch. *)
Definition loadFmpArticles (host : Host) (resp : FetchOutcome FmpPayload) : M unit :=
  console_log (Log "[loadFmpArticles] Fetching general FMP articles...") ;;
  let* found := getElementById "fmp-articles-container" in
  match found with
  | None => console_log (LogError "[loadFmpArticles] Container not found: #fmp-articles-container")
  | Some container =>
      set_innerHTML container "<p>Loading latest market articles...</p>" ;;
      let* fetched :=
        try_catch
          (let* articles := fetch_json resp in ret (Some articles))
          (fun e =>
             console_log (LogException "[loadFmpArticles] Error fetching FMP articles:" e) ;;
             set_innerHTML container "<p>Failed to load FMP articles.</p>" ;;
             ret None) in
      match fetched with
      | None => ret tt
      | Some (FmpArray (first :: others)) =>
          set_innerHTML container EmptyString ;;
          forEach (first :: others) (fun article => appendChild container (articleCard host article))
      | Some _ =>
          set_innerHTML container "<p>No FMP articles available.</p>"
      end
  end.

(** The element nodes of a container's content that are article cards. *)
Definition is_card (n : Node) : bool :=
  match n with
  | ElemNode tag cls _ _ => String.eqb tag "div" && String.eqb cls "fmp-article-card"
  | _ => false
  end.

Definition card_count (c : list Node) : nat := List.length (List.filter is_card c).

(** The [src] of the image of a card. *)
Definition card_image (n : Node) : option string :=
  match n with
  | ElemNode _ _ _ (ElemNode _ _ _ (ElemNode "img" _ (("src", src) :: _) _ :: _) :: _) => Some src
  | _ => None
  end.

(** The markup of the snippet of a card. *)
Definition card_snippet (n : Node) : option (list Node) :=
  match n with
  | ElemNode _ _ _ [_; ElemNode _ _ _ [_; _; ElemNode _ "fmp-article-snippet" _ c; _]] => Some c
  | _ => None
  end.

(** *** Ticker news *)

(** An optional text field of a payload object as a template literal prints
    it: an absent field prints as "undefined", a null one as "null". *)
Inductive TextField : Type :=
| Absent
| NullText
| TextOf (s : string).

Definition interpolate (f : TextField) : string :=
  match f with
  | Absent => "undefined"
  | NullText => "null"
  | TextOf s => s
  end.

(** The fields of an article that [loadTickerNews] reads: link and title
    are text, the site is optional (spec, data model). *)
Record TickerArticle : Type := mkTickerArticle {
  ta_link : string;
  ta_title : string;
  ta_site : TextField
}.

(** The body of a successful response of [/api/fmp_articles?ticker=T]. *)
Inductive TickerPayload : Type :=
| TickerArray (articles : list TickerArticle)
| TickerNotArray.

(** The list item built for the article at position [index], main.js lines
    318-326. *)
Definition newsItem (index : nat) (article : TickerArticle) : Node :=
  ElemNode "li" EmptyString []
    (Dom.markup (nl +:+ spaces 18 +:+ "<strong>" +:+ decimal (Z.of_nat index + 1) +:+ ". "
                 +:+ nl +:+ spaces 20 +:+ link_open (ta_link article)
                 +:+ nl +:+ spaces 22 +:+ ta_title article
                 +:+ nl +:+ spaces 20 +:+ "</a>"
                 +:+ nl +:+ spaces 18 +:+ "</strong>"
                 +:+ nl +:+ spaces 18 +:+ "<em>(" +:+ interpolate (ta_site article) +:+ ")</em>"
                 +:+ nl +:+ spaces 16)).

(** The [forEach] of main.js lines 317-328: each item is appended to the
    children of the list built so far; [index] is the position of the
    first of the remaining articles. *)
Fixpoint appendItems (ul : list Node) (index : nat) (articles : list TickerArticle)
  : list Node :=
  match articles with
  | [] => ul
  | article :: rest => appendItems (ul ++ [newsItem index article])%list (S index) rest
  end.

(** [loadTickerNews(ticker)], main.js lines 295-338, for the given outcome
    of its fetch. *)
Definition loadTickerNews (ticker : string) (resp : FetchOutcome TickerPayload) : M unit :=
  console_log (Log ("[loadTickerNews] Fetching news for ticker='" +:+ ticker +:+ "'...")) ;;
  let* container := getElementById "ticker-news-container" in
  let* titleElement := getElementById "ticker-news-section-title" in
  match container, titleElement with
  | Some c, Some t =>
      set_textContent t ("News for " +:+ ticker +:+ " (last 30 days):") ;;
      try_catch
        (set_innerHTML c "<p>Loading...</p>" ;;
         let* articles := fetch_json resp in
         set_innerHTML c EmptyString ;;
         match articles with
         | TickerArray (first :: others) =>
             appendChild c (ElemNode "ul" "text-news-list" []
                                     (appendItems [] 0 (first :: others)))
         | _ => set_innerHTML c ("<p>No news found for " +:+ ticker +:+ ".</p>")
         end)
        (fun e =>
           console_log (LogException "[loadTickerNews] Error:" e) ;;
           set_innerHTML c ("<p>Failed to load news for " +:+ ticker +:+ ".</p>"))
  | _, _ => console_log (LogError "[loadTickerNews] Required elements not found")
  end.

(** The two parts of a call of [loadTickerNews]: what runs when the function
    is called, up to its first [await] (main.js lines 296-307), and what
    runs once the awaited response has arrived (lines 308-337), with the
    container the first part has looked up.  Between the two the call is
    suspended, and other code may run. *)
Definition loadTickerNews_start (ticker : string) : M (option nat) :=
  console_log (Log ("[loadTickerNews] Fetching news for ticker='" +:+ ticker +:+ "'...")) ;;
  let* container := getElementById "ticker-news-container" in
  let* titleElement := getElementById "ticker-news-section-title" in
  match container, titleElement with
  | Some c, Some t =>
      set_textContent t ("News for " +:+ ticker +:+ " (last 30 days):") ;;
      set_innerHTML c "<p>Loading...</p>" ;;
      ret (Some c)
  | _, _ =>
      console_log (LogError "[loadTickerNews] Required elements not found") ;;
      ret None
  end.

Definition loadTickerNews_resume (ticker : string) (resp : FetchOutcome TickerPayload)
    (c : nat) : M unit :=
  try_catch
    (let* articles := fetch_json resp in
     set_innerHTML c EmptyString ;;
     match articles with
     | TickerArray (first :: others) =>
         appendChild c (ElemNode "ul" "text-news-list" []
                                 (appendItems [] 0 (first :: others)))
     | _ => set_innerHTML c ("<p>No news found for " +:+ ticker +:+ ".</p>")
     end)
    (fun e =>
       console_log (LogException "[loadTickerNews] Error:" e) ;;
       set_innerHTML c ("<p>Failed to load news for " +:+ ticker +:+ ".</p>")).

(** The relative-performance series of the sample payload of the spec:
    [{value: "-5.00%", change: "+1.00%", dates: ["Jan"], values: [-5]}]. *)
Definition sample_relative_performance : jsval :=
  VObj [("value", VStr "-5.00%"); ("change", VStr "+1.00%");
        ("dates", VArr [VStr "Jan"]); ("values", VArr [VNum (of_Z (-5))])].

(** ** The page of the template *)

Module Template.

Definition plain (id : option string) (parent : option nat) (classes : list string)
    (content : list Node) : option Element :=
  Some (mkElement id OtherElement parent classes content).

(** One chart card of the template, laid out from position [base]: the
    card, the value line and its slot, the change line and its slot, the
    canvas container and its canvas. *)
Definition chart_card (base : nat) (classes : list string) (valueId changeId canvasId : string)
  : Document :=
  [ plain None None classes [];
    plain None (Some base) ["chart-value"] [];
    plain (Some valueId) (Some (base + 1)%nat) [] [];
    plain None (Some base) ["chart-change"] [TextNode "1Y "];
    plain (Some changeId) (Some (base + 3)%nat) [] [];
    plain None (Some base) ["canvas-container"] [];
    Some (mkElement (Some canvasId) (Canvas true) (Some (base + 5)%nat) [] []) ].

(** The identified elements of the template (src/unnamed/part_000) with
    their parents, in document order. *)
Definition doc : Document :=
  ([ plain (Some "fmp-articles-title") None ["section-title"] [TextNode "Latest FMP Articles:"];
    plain (Some "fmp-articles-container") None ["text-news-container"] [];
    plain (Some "ticker-news-section-title") None ["section-title"]
          [TextNode "Stock‐Specific News"];
    plain None None ["stock-input-section"] [];
    plain (Some "stock-ticker-input") (Some 3%nat) [] [];
    plain (Some "fetch-stock-news-btn") (Some 3%nat) [] [TextNode "Fetch News"];
    plain (Some "ticker-news-container") None ["text-news-container"] [] ]
  ++ chart_card 7 ["chart-card"] "rp-value" "rp-change" "relativePerformanceChart"
  ++ chart_card 14 ["chart-card"] "zscore-value" "zscore-change" "movingZScoreChart"
  ++ chart_card 21 ["chart-card"] "alpha-value" "alpha-change" "alphaChart"
  ++ chart_card 28 ["chart-card"; "large-card"] "cumulative-alpha-value"
                "cumulative-alpha-change" "cumulativeAlphaChart")%list.

(** The page when the scripts start. *)
Definition page : Page := mkPage doc None None [] [].

(** A host whose chart constructor never throws. *)
Definition host : Host :=
  mkHost (fun _ => Normal NaN) (fun d => d) (fun s => s) (fun _ _ _ => false).

(** A host whose chart constructor always throws. *)
Definition failing_host : Host :=
  mkHost (fun _ => Normal NaN) (fun d => d) (fun s => s) (fun _ _ _ => true).

(** The page once the alpha chart has been rendered. *)
Definition page_with_chart : Page :=
  snd (renderChart host "alphaChart" (VArr [VNum (of_Z 1)]) (VArr [VStr "Jan"]) "#32CD32" page).

(** Sample articles: one without an image, one whose content starts with a
    closing paragraph tag. *)
Definition article_plain : Article :=
  mkArticle "Markets rally" (Some "2025-05-30 14:00:00") (Some "<p>First.</p><p>Second.</p>")
            None "https://example.com/a" (Some "Ann") (Some "Example").

Definition article_odd : Article :=
  mkArticle "Odd" None (Some "</p>abc") (Some "https://example.com/i.png")
            "https://example.com/b" None None.

(** A payload with the sample relative-performance series only, and one with
    an alpha series only. *)
Definition payload_sample : jsval :=
  VObj [("relative_performance", sample_relative_performance)].

Definition payload_alpha : jsval :=
  VObj [("alpha", VObj [("value", VNum (Fin (3 # 2))); ("change", VStr "-0.2");
                        ("dates", VArr [VStr "Jan"; VStr "Feb"]);
                        ("values", VArr [VNum (of_Z 1); VNum (of_Z 2)])])].

(** The texts formatted for [payload_alpha]. *)
Definition texts_alpha (metric field : PropName) : string :=
  match metric, field with
  | p_alpha, p_value => "+1.500"
  | p_alpha, _ => "-0.200"
  | p_relative_performance, _ => "+0.00%"
  | _, _ => "+0.00"
  end.

(** A payload with an empty error text and an alpha series. *)
Definition payload_empty_error : jsval :=
  VObj [("error", VStr EmptyString);
        ("alpha", VObj [("value", VNum (of_Z 1)); ("change", VNum (of_Z 1))])].

(** A payload whose alpha value is [null]. *)
Definition payload_null : jsval :=
  VObj [("alpha", VObj [("value", VNull); ("change", VNum (of_Z 0))])].

(** Sample ticker news: one article with a site, one without. *)
Definition news_first : TickerArticle :=
  mkTickerArticle "https://example.com/n1" "Earnings beat" (TextOf "Example").

Definition news_second : TickerArticle :=
  mkTickerArticle "https://example.com/n2" "Guidance cut" Absent.

Definition news_sample : FetchOutcome TickerPayload :=
  FetchResponse true 200 (Some (TickerArray [news_first; news_second])).

Definition articles_sample : FetchOutcome FmpPayload :=
  FetchResponse true 200 (Some (FmpArray [article_plain; article_odd])).

End Template.

(** ** Notions used in the statements *)

(** A number printed with exactly [d] decimal places: digits, and when
    [d > 0] a point followed by [d] digits. *)
Definition is_fixed (d : nat) (body : string) : bool :=
  let '(ip, rest) := span_digits body in
  negb (String.eqb ip EmptyString) &&
  match d, rest with
  | O, EmptyString => true
  | S _, String "."%char fp => all_digits fp && (String.length fp =? d)%nat
  | _, _ => false
  end.

(** The integer that the digits of a printed number spell, the point left
    out. *)
Definition digits_of (body : string) : Z :=
  let '(ip, rest) := span_digits body in
  match rest with
  | String "."%char fp => digits_value 0 (ip +:+ fp)
  | _ => digits_value 0 ip
  end.

(** Exponent notation: a digit, when more digits follow a point and these
    digits, then "e+" and the exponent in decimal. *)
Definition exponent_notation (body : string) : Prop :=
  exists (c : ascii) (more : string) (e : Z),
    is_digit c = true /\ all_digits more = true
    /\ body = String c (match more with
                        | EmptyString => EmptyString
                        | String _ _ => "." +:+ more
                        end) +:+ "e+" +:+ decimal e.

(** The document that [updateChartCardTextOnly] leaves when both texts
    are strings. *)
Definition cardText (valueElementId changeElementId valueStr changeStr : string)
    (doc : Document) : Document :=
  let doc1 := match Dom.getElementById valueElementId doc with
              | Some el => Dom.set_textContent el (trim valueStr) doc
              | None => doc
              end in
  match Dom.getElementById changeElementId doc with
  | Some el =>
      let doc2 := Dom.set_textContent el (trim changeStr) doc1 in
      match Dom.parentElement doc1 el with
      | Some outer =>
          Dom.classList_add outer (if startsWith "-" changeStr then "negative" else "positive")
            (Dom.classList_remove outer ["positive"; "negative"] doc2)
      | None => doc2
      end
  | None => doc1
  end.

(** One call of [updateChartCardTextOnly]: the two slots and their texts. *)
Record CardUpdate : Type := mkCardUpdate {
  cu_value_id : string;
  cu_change_id : string;
  cu_value : string;
  cu_change : string
}.

Definition apply_update (doc : Document) (u : CardUpdate) : Document :=
  cardText (cu_value_id u) (cu_change_id u) (cu_value u) (cu_change u) doc.

Definition apply_updates (us : list CardUpdate) (doc : Document) : Document :=
  fold_left apply_update us doc.

Definition update_ids (us : list CardUpdate) : list string :=
  flat_map (fun u => [cu_value_id u; cu_change_id u]) us.

(** The four calls of the performance controller, main.js lines 429-432. *)
Definition performance_updates (rpVal rpChg zVal zChg aVal aChg caVal caChg : string)
  : list CardUpdate :=
  [ mkCardUpdate "rp-value" "rp-change" rpVal rpChg;
    mkCardUpdate "zscore-value" "zscore-change" zVal zChg;
    mkCardUpdate "alpha-value" "alpha-change" aVal aChg;
    mkCardUpdate "cumulative-alpha-value" "cumulative-alpha-change" caVal caChg ].

(** The value that the [try]/[catch] of the controller leaves in
    [apiData]. *)
Definition api_result (resp : FetchOutcome jsval) : jsval :=
  match resp with
  | FetchResponse true _ (Some apiData) =>
      match get apiData p_error with
      | Normal err => if truthy err then VNull else apiData
      | Throw _ => VNull
      end
  | _ => VNull
  end.

(** [v?.p] as a value: the read never throws. *)
Definition field_of (v : jsval) (p : PropName) : jsval :=
  match get_opt v p with
  | Normal w => w
  | Throw _ => VUndef
  end.

(** The series the controller uses for a metric: the payload's, when it is
    truthy, and the zero-valued fallback otherwise. *)
Definition series (apiData : jsval) (metric : PropName) : jsval :=
  or_else (field_of apiData metric) fallback.

(** A series whose [values] pass the length test of the renderer. *)
Definition renderable (host : Host) (s : jsval) : Prop :=
  exists radius, pointRadius host (field_of s p_values) = Normal radius.

(** The four metrics of the payload. *)
Definition metrics : list PropName :=
  [p_relative_performance; p_moving_z_score; p_alpha; p_cumulative_alpha].

(** The four calls of the renderer that end the controller, main.js lines
    438-441. *)
Definition renderAll (host : Host) (apiData : jsval) : M unit :=
  (renderSeries host "relativePerformanceChart" (series apiData p_relative_performance)
                "#1E90FF" ;;
   renderSeries host "movingZScoreChart" (series apiData p_moving_z_score) "#FFA500" ;;
   renderSeries host "alphaChart" (series apiData p_alpha) "#32CD32" ;;
   renderSeries host "cumulativeAlphaChart" (series apiData p_cumulative_alpha) "#9370DB")%page.

(** The constants of the controller for one metric, main.js lines 417-441:
    the payload field, the two slots, the canvas, the digits and the percent
    flag of the formatter, and the colour of the line. *)
Record MetricRow : Type := mkMetricRow {
  row_metric : PropName;
  row_value_id : string;
  row_change_id : string;
  row_canvas : string;
  row_digits : Z;
  row_percent : bool;
  row_color : string
}.

Definition row_rp : MetricRow :=
  mkMetricRow p_relative_performance "rp-value" "rp-change" "relativePerformanceChart"
              2 true "#1E90FF".

Definition row_zscore : MetricRow :=
  mkMetricRow p_moving_z_score "zscore-value" "zscore-change" "movingZScoreChart"
              2 false "#FFA500".

Definition row_alpha : MetricRow :=
  mkMetricRow p_alpha "alpha-value" "alpha-change" "alphaChart" 3 false "#32CD32".

Definition row_cumulative : MetricRow :=
  mkMetricRow p_cumulative_alpha "cumulative-alpha-value" "cumulative-alpha-change"
              "cumulativeAlphaChart" 2 false "#9370DB".

Definition metric_table : list MetricRow := [row_rp; row_zscore; row_alpha; row_cumulative].

(** The text of a zero value for a row. *)
Definition zero_text (row : MetricRow) : string :=
  if row_percent row then "+0.00%"
  else if row_digits row =? 3 then "+0.000" else "+0.00".

(** The entry that [new Chart(ctx, cfg)] adds to a trace: the construction
    of the next instance, or the failed construction when the constructor
    throws on that trace. *)
Definition construction (host : Host) (before : list LibEvent) (canvasId : string)
    (cfg : ChartConfig) : LibEvent :=
  if host_Chart_throws host before canvasId cfg
  then ConstructFailed canvasId cfg
  else Constructed (List.length before) canvasId cfg.

(** The chart of the canvas was built from the [values] and [dates] of the
    series: the constructor was called on the canvas with a configuration
    that holds them. *)
Definition built_from (host : Host) (pg : Page) (canvasId : string) (s : jsval) : Prop :=
  exists before cfg after,
    library pg = (before ++ construction host before canvasId cfg :: after)%list
    /\ cfg_data cfg = array_or_empty (field_of s p_values)
    /\ cfg_labels cfg = array_or_empty (field_of s p_dates).

(** The document that [loadFmpArticles] leaves after a successful response,
    for the container [h]. *)
Definition articles_document (host : Host) (payload : FmpPayload) (h : nat) (doc : Document)
  : Document :=
  let loading := Dom.set_innerHTML h "<p>Loading latest market articles...</p>" doc in
  match payload with
  | FmpArray (first :: others) =>
      fold_left (fun d article => Dom.appendChild h (articleCard host article) d)
                (first :: others) (Dom.set_innerHTML h EmptyString loading)
  | _ => Dom.set_innerHTML h "<p>No FMP articles available.</p>" loading
  end.

(** A document with some elements taken out. *)
Definition erase (gone : nat -> bool) (doc : Document) : Document :=
  imap (fun i oe => if gone i then None else oe) doc.

(** A computation that leaves the document as it is. *)
Definition keeps_document {A : Type} (m : M A) : Prop :=
  forall pg, document (snd (m pg)) = document pg.

(** The text the controller computes for one field of one metric:
    [formatSignedValue((apiData?.metric || fallback).field, digits,
    isPercent)]. *)
Definition formatted (host : Host) (apiData : jsval) (metric field : PropName)
    (digits : Z) (isPercent : bool) : completion string :=
  (let! series := metricOrFallback apiData metric in
   let! v := get series field in
   formatSignedValue host v digits isPercent)%completion.

(** The series the controller passes to the renderer for one metric:
    [(apiData?.metric || fallback).field] *)
Definition series_field (apiData : jsval) (metric field : PropName) : completion jsval :=
  (let! series := metricOrFallback apiData metric in get series field)%completion.

(** The id names the element [h], which has no element children. *)
Definition slot (doc : Document) (id : string) (h : nat) : Prop :=
  Dom.getElementById id doc = Some h /\ Dom.is_leaf doc h.

(** Two documents with the same elements under the same ids, the same
    parents, the same kinds and the same leaves. *)
Definition same_frame (doc doc' : Document) : Prop :=
  (forall id, Dom.getElementById id doc' = Dom.getElementById id doc)
  /\ (forall x, Dom.parentElement doc' x = Dom.parentElement doc x)
  /\ (forall x, Dom.is_leaf doc x -> Dom.is_leaf doc' x)
  /\ (forall x, el_kind <$> Dom.element doc' x = el_kind <$> Dom.element doc x).

(** Every id of the list names a leaf. *)
Definition slots_of (doc : Document) (ids : list string) : Prop :=
  forall id, In id ids -> exists h, slot doc id h.

(** The registry with which a call of [renderChart] starts. *)
Definition registry_of (pg : Page) : gmap string Slot := default ∅ (charts pg).

(** The chart registered under an id, if any. *)
Definition registered (pg : Page) (canvasId : string) : option nat :=
  match registry_of pg !! canvasId with
  | Some (SChart inst) => Some inst
  | _ => None
  end.

(** The configuration [renderChart] builds on a page, for a point radius. *)
Definition config_on (host : Host) (pg : Page) (canvasId : string) (data labels : jsval)
    (lineColor : string) (radius : Z) : ChartConfig :=
  let title := chartTitle host canvasId (default EmptyString (currentTicker pg)) in
  mkChartConfig "line" (array_or_empty labels) title (array_or_empty data) lineColor radius
                title false.

(** The library trace and the registry once [renderChart] has disposed of
    the chart registered under the id. *)
Definition library_disposed (pg : Page) (canvasId : string) : list LibEvent :=
  (library pg ++ match registered pg canvasId with
                 | Some inst => [Destroyed inst]
                 | None => []
                 end)%list.

Definition registry_disposed (pg : Page) (canvasId : string) : gmap string Slot :=
  match registered pg canvasId with
  | Some _ => <[canvasId := SNull]> (registry_of pg)
  | None => registry_of pg
  end.

(** The page contract of the template, as checks on a document. *)

Definition parent_is (h : nat) (oe : option Element) : bool :=
  match oe with
  | Some e => match el_parent e with
              | Some p => (p =? h)%nat
              | None => false
              end
  | None => false
  end.

(** No element of the document has [h] as its parent. *)
Definition leafb (doc : Document) (h : nat) : bool :=
  forallb (fun oe => negb (parent_is h oe)) doc.

(** The id names an element without element children. *)
Definition slot_ok (doc : Document) (id : string) : bool :=
  match Dom.getElementById id doc with
  | Some h => leafb doc h
  | None => false
  end.

Definition value_ids : list string :=
  ["rp-value"; "zscore-value"; "alpha-value"; "cumulative-alpha-value"].

Definition change_ids : list string :=
  ["rp-change"; "zscore-change"; "alpha-change"; "cumulative-alpha-change"].

Definition canvas_ids : list string :=
  ["relativePerformanceChart"; "movingZScoreChart"; "alphaChart"; "cumulativeAlphaChart"].

(** The eight text slots exist and are leaves. *)
Definition slots_ok (doc : Document) : bool :=
  forallb (slot_ok doc) (value_ids ++ change_ids)%list.

(** The container of a change slot. *)
Definition container_of (doc : Document) (id : string) : option nat :=
  match Dom.getElementById id doc with
  | Some h => Dom.parentElement doc h
  | None => None
  end.

(** The class list of the container of the element with the given id, read
    through the handles. *)
Definition classes_of_container (doc : Document) (id : string) : option (list string) :=
  match container_of doc id with
  | Some outer => Dom.classes doc outer
  | None => None
  end.

(** The four change slots have containers, no two the same. *)
Definition containers_ok (doc : Document) : bool :=
  forallb (fun id => match container_of doc id with Some _ => true | None => false end)
          change_ids
  && bool_decide (NoDup (List.map (container_of doc) change_ids)).

(** The id names a canvas, or nothing. *)
Definition surface_ok (doc : Document) (id : string) : bool :=
  match Dom.getElementById id doc with
  | Some h =>
      match Dom.element doc h with
      | Some e => match el_kind e with Canvas _ => true | OtherElement => false end
      | None => true
      end
  | None => true
  end.

Definition canvases_ok (doc : Document) : bool := forallb (surface_ok doc) canvas_ids.

(** The id names a canvas that yields a 2D context. *)
Definition drawable (doc : Document) (id : string) : bool :=
  match Dom.getElementById id doc with
  | Some h =>
      match Dom.element doc h with
      | Some e => match el_kind e with Canvas b => b | OtherElement => false end
      | None => false
      end
  | None => false
  end.

(** Chart instances are named by their position in the library trace, so on
    a page that the scripts have produced every instance that the trace or
    the registry mentions was constructed earlier in the trace. *)
Definition names_below (n : nat) (ev : LibEvent) : bool :=
  match ev with
  | Constructed inst _ _ => (inst <? n)%nat
  | Destroyed inst => (inst <? n)%nat
  | ConstructFailed _ _ => true
  end.

Definition slot_below (n : nat) (s : Slot) : bool :=
  match s with
  | SChart inst => (inst <? n)%nat
  | SNull => true
  end.

Definition instances_ok (pg : Page) : bool :=
  let n := List.length (library pg) in
  forallb (names_below n) (library pg)
  && bool_decide (map_Forall (fun _ s => slot_below n s = true) (registry_of pg)).

(** How often [destroy] was called on an instance. *)
Fixpoint destroy_count (inst : nat) (lib : list LibEvent) : nat :=
  match lib with
  | [] => 0
  | Destroyed i :: rest => ((if (i =? inst)%nat then 1 else 0) + destroy_count inst rest)%nat
  | _ :: rest => destroy_count inst rest
  end.

(** The pattern occurs in the text at offset [i] and at no smaller offset. *)
Definition first_occurrence (p s : string) (i : nat) : Prop :=
  startsWith p (JsString.drop i s) = true
  /\ forall j, (j < i)%nat -> startsWith p (JsString.drop j s) = false.

(** The pattern occurs nowhere in the text. *)
Definition no_occurrence (p s : string) : Prop :=
  forall j, startsWith p (JsString.drop j s) = false.

(** A printable ASCII character other than the space. *)
Definition visible (c : ascii) : bool :=
  let n := nat_of_ascii c in ((33 <=? n) && (n <=? 126))%nat.

Fixpoint all_visible (s : string) : bool :=
  match s with
  | EmptyString => true
  | String c r => visible c && all_visible r
  end.

(** The text the formatter returns for a value that is not a number. *)
Definition fallback_text (isPercent : bool) : string :=
  if isPercent then "+0.00%" else "+0.00".

(** Zero printed with [d] decimal places. *)
Definition zero_digits (d : nat) : string :=
  match d with
  | O => "0"
  | S _ => "0." +:+ zeros d
  end.

(** The instances constructed on a canvas, and all the instances
    constructed, oldest first. *)
Fixpoint constructed_on (canvasId : string) (lib : list LibEvent) : list nat :=
  match lib with
  | [] => []
  | Constructed inst id _ :: rest =>
      if String.eqb id canvasId then inst :: constructed_on canvasId rest
      else constructed_on canvasId rest
  | _ :: rest => constructed_on canvasId rest
  end.

Fixpoint constructed (lib : list LibEvent) : list nat :=
  match lib with
  | [] => []
  | Constructed inst _ _ :: rest => inst :: constructed rest
  | _ :: rest => constructed rest
  end.

(** The charts on a canvas that were constructed and not destroyed since. *)
Definition live_on (lib : list LibEvent) (canvasId : string) : list nat :=
  List.filter (fun inst => (destroy_count inst lib =? 0)%nat) (constructed_on canvasId lib).

(** A host whose chart constructor refuses a canvas that still carries a
    live chart, as Chart.js does ("Canvas is already in use"), and accepts
    every other. *)
Definition strict_host : Host :=
  mkHost (fun _ => Normal NaN) (fun d => d) (fun s => s)
         (fun lib canvasId _ => match live_on lib canvasId with
                                | [] => false
                                | _ :: _ => true
                                end).

(** The chart a registry holds under an id, as a list. *)
Definition registry_list (reg : gmap string Slot) (canvasId : string) : list nat :=
  match reg !! canvasId with
  | Some (SChart inst) => [inst]
  | _ => []
  end.

(** The registry and the library agree: every instance is named by the
    position of its construction, no instance is constructed twice, and on
    every canvas the live charts are the one registered under its id, if
    any. *)
Definition charts_ok (pg : Page) : Prop :=
  instances_ok pg = true
  /\ List.NoDup (constructed (library pg))
  /\ forall id, live_on (library pg) id = registry_list (registry_of pg) id.

(** A call into the library that passes a configuration passes one titled
    for the ticker. *)
Definition titled (host : Host) (ticker : string) (ev : LibEvent) : Prop :=
  match ev with
  | Constructed _ id cfg | ConstructFailed id cfg =>
      cfg_title cfg = chartTitle host id ticker /\ cfg_label cfg = chartTitle host id ticker
  | Destroyed _ => True
  end.

(** A call into the library made by [renderChart] for a canvas: it
    constructs on that canvas, or destroys the chart registered there. *)
Definition concerns (pg : Page) (canvasId : string) (ev : LibEvent) : Prop :=
  match ev with
  | Constructed _ id _ | ConstructFailed id _ => id = canvasId
  | Destroyed inst => registered pg canvasId = Some inst
  end.

(** The card update the controller makes for a row, given the texts it has
    formatted for the metrics. *)
Definition row_update (out : PropName -> PropName -> string) (row : MetricRow) : CardUpdate :=
  mkCardUpdate (row_value_id row) (row_change_id row)
               (out (row_metric row) p_value) (out (row_metric row) p_change).

(** The list of the ticker news: one item per article, numbered by
    position. *)
Definition newsList (articles : list TickerArticle) : Node :=
  ElemNode "ul" "text-news-list" [] (imap newsItem articles).

(** The document that [loadTickerNews] leaves, for the container [c] and
    the title element [t]. *)
Definition news_document (ticker : string) (resp : FetchOutcome TickerPayload) (c t : nat)
    (doc : Document) : Document :=
  let titled := Dom.set_textContent t ("News for " +:+ ticker +:+ " (last 30 days):") doc in
  let loading := Dom.set_innerHTML c "<p>Loading...</p>" titled in
  match resp with
  | FetchResponse true _ (Some (TickerArray (first :: others))) =>
      Dom.appendChild c (ElemNode "ul" "text-news-list" [] (appendItems [] 0 (first :: others)))
                      (Dom.set_innerHTML c EmptyString loading)
  | FetchResponse true _ (Some _) =>
      Dom.set_innerHTML c ("<p>No news found for " +:+ ticker +:+ ".</p>")
                        (Dom.set_innerHTML c EmptyString loading)
  | _ => Dom.set_innerHTML c ("<p>Failed to load news for " +:+ ticker +:+ ".</p>") loading
  end.

(** The children of the articles container after a run of
    [loadFmpArticles], and of the news container after a run of
    [loadTickerNews]. *)
Definition fmp_children (host : Host) (resp : FetchOutcome FmpPayload) : list Node :=
  match resp with
  | FetchResponse true _ (Some (FmpArray (first :: others))) =>
      List.map (articleCard host) (first :: others)
  | FetchResponse true _ (Some _) => [Markup "<p>No FMP articles available.</p>"]
  | _ => [Markup "<p>Failed to load FMP articles.</p>"]
  end.

Definition news_children (ticker : string) (resp : FetchOutcome TickerPayload) : list Node :=
  match resp with
  | FetchResponse true _ (Some (TickerArray (first :: others))) =>
      [newsList (first :: others)]
  | FetchResponse true _ (Some _) => [Markup ("<p>No news found for " +:+ ticker +:+ ".</p>")]
  | _ => [Markup ("<p>Failed to load news for " +:+ ticker +:+ ".</p>")]
  end.

(** The element of the first id comes before the element of the second in
    the document, so that nothing inserted below the second can be found in
    place of the first. *)
Definition precedes (doc : Document) (first second : string) : bool :=
  match Dom.getElementById first doc, Dom.getElementById second doc with
  | Some a, Some b => (a <? b)%nat
  | _, _ => false
  end.

(** Two pages that differ in their consoles at most. *)
Definition same_but_console (p q : Page) : Prop :=
  document p = document q /\ charts p = charts q
  /\ currentTicker p = currentTicker q /\ library p = library q.

(** A fetch that does not deliver a JSON body: the request is rejected, the
    status is not a success, or the body does not parse. *)
Definition fetch_fails {B : Type} (r : FetchOutcome B) : bool :=
  match r with
  | FetchResponse true _ (Some _) => false
  | _ => true
  end.

(** A value that is not a JSON object. *)
Definition not_object (v : jsval) : bool :=
  match v with
  | VObj _ => false
  | _ => true
  end.

(** A non-empty text whose last character is not the percent sign. *)
Definition plain_end (s : string) : Prop :=
  s <> EmptyString /\ ends_with_percent s = false.

(** * Properties *)

#[local] Arguments String.append !s1 s2 : simpl nomatch.

(** ** Strings *)

Section StringFacts.

Lemma append_nil_r (s : string) : s +:+ EmptyString = s.
Proof. induction s as [|c s IH]; simpl; [reflexivity | now rewrite IH]. Qed.

Lemma append_assoc (a b c : string) : (a +:+ b) +:+ c = a +:+ (b +:+ c).
Proof. induction a as [|x a IH]; simpl; [reflexivity | now rewrite IH]. Qed.

Lemma length_append (a b : string) :
  String.length (a +:+ b) = (String.length a + String.length b)%nat.
Proof. induction a as [|x a IH]; simpl; [reflexivity | now rewrite IH]. Qed.

Lemma length_take (n : nat) (s : string) :
  String.length (take n s) = Nat.min n (String.length s).
Proof.
  revert s; induction n as [|n IH]; intros [|c s]; simpl; try reflexivity.
  now rewrite IH.
Qed.

Lemma length_drop (n : nat) (s : string) :
  String.length (JsString.drop n s) = (String.length s - n)%nat.
Proof.
  revert s; induction n as [|n IH]; intros [|c s]; simpl; try reflexivity.
  apply IH.
Qed.

Lemma take_drop_append (n : nat) (s : string) : take n s +:+ JsString.drop n s = s.
Proof.
  revert s; induction n as [|n IH]; intros [|c s]; simpl; try reflexivity.
  now rewrite IH.
Qed.

Lemma all_digits_append (a b : string) :
  all_digits (a +:+ b) = all_digits a && all_digits b.
Proof.
  induction a as [|x a IH]; simpl; [reflexivity |].
  now rewrite IH, andb_assoc.
Qed.

Lemma all_digits_take (n : nat) (s : string) :
  all_digits s = true -> all_digits (take n s) = true.
Proof.
  revert s; induction n as [|n IH]; intros [|c s]; simpl; try reflexivity.
  intros [Hc Hs]%andb_true_iff. rewrite Hc; simpl. now apply IH.
Qed.

Lemma all_digits_drop (n : nat) (s : string) :
  all_digits s = true -> all_digits (JsString.drop n s) = true.
Proof.
  revert s; induction n as [|n IH]; intros [|c s]; simpl; try easy.
  intros [_ Hs]%andb_true_iff. now apply IH.
Qed.

Lemma last_char_append (a b : string) :
  b <> EmptyString -> last_char (a +:+ b) = last_char b.
Proof.
  intros Hb. induction a as [|x a IH]; simpl; [reflexivity |].
  rewrite IH. destruct (a +:+ b) eqn:E; [|reflexivity].
  destruct a; simpl in E; [contradiction | discriminate].
Qed.

Lemma last_char_snoc (a : string) (c : ascii) :
  last_char (a +:+ String c EmptyString) = Some c.
Proof. rewrite last_char_append; [reflexivity | discriminate]. Qed.

Lemma span_digits_all (s : string) :
  all_digits s = true -> span_digits s = (s, EmptyString).
Proof.
  induction s as [|c s IH]; simpl; [reflexivity |].
  intros [Hc Hs]%andb_true_iff. now rewrite Hc, IH.
Qed.

Lemma span_digits_point (ip fp : string) :
  all_digits ip = true ->
  span_digits (ip +:+ String "."%char fp) = (ip, String "."%char fp).
Proof.
  induction ip as [|c s IH]; simpl; [reflexivity |].
  intros [Hc Hs]%andb_true_iff. now rewrite Hc, IH.
Qed.

End StringFacts.

(** ** Decimal digits *)

Section DecimalFacts.

Lemma is_digit_digit_char (d : Z) : is_digit (digit_char d) = true.
Proof.
  unfold is_digit, digit_char.
  pose proof (Z.mod_pos_bound d 10 ltac:(lia)) as Hm.
  rewrite nat_ascii_embedding by lia.
  apply andb_true_intro; split; apply Nat.leb_le; lia.
Qed.

Lemma length_fixed_digits (w : nat) (n : Z) : String.length (fixed_digits w n) = w.
Proof.
  revert n; induction w as [|w IH]; intros n; simpl; [reflexivity |].
  rewrite length_append, IH; simpl; lia.
Qed.

Lemma all_digits_fixed_digits (w : nat) (n : Z) : all_digits (fixed_digits w n) = true.
Proof.
  revert n; induction w as [|w IH]; intros n; simpl; [reflexivity |].
  rewrite all_digits_append, IH; simpl. now rewrite is_digit_digit_char.
Qed.

Lemma ndigits_pos (n : Z) : 0 < n -> (1 <= ndigits n)%nat.
Proof.
  intros Hn. unfold ndigits; simpl.
  destruct (n <=? 0) eqn:E; [apply Z.leb_le in E; lia | lia].
Qed.

Lemma all_digits_decimal (n : Z) : all_digits (decimal n) = true.
Proof.
  unfold decimal. destruct (n <=? 0); [reflexivity | apply all_digits_fixed_digits].
Qed.

Lemma length_decimal_pos (n : Z) : (1 <= String.length (decimal n))%nat.
Proof.
  unfold decimal. destruct (n <=? 0) eqn:E; [simpl; lia |].
  rewrite length_fixed_digits. apply ndigits_pos. apply Z.leb_gt in E; lia.
Qed.

Lemma last_char_decimal (n : Z) : exists c, last_char (decimal n) = Some c /\ is_digit c = true.
Proof.
  unfold decimal. destruct (n <=? 0) eqn:E.
  - exists "0"%char; split; reflexivity.
  - apply Z.leb_gt in E. pose proof (ndigits_pos n E) as Hk.
    destruct (ndigits n) as [|k]; [lia |]. simpl.
    exists (digit_char n). split; [apply last_char_snoc | apply is_digit_digit_char].
Qed.

Lemma all_digits_zeros (k : nat) : all_digits (zeros k) = true.
Proof. induction k as [|k IH]; simpl; [reflexivity | exact IH]. Qed.

Lemma length_zeros (k : nat) : String.length (zeros k) = k.
Proof. induction k as [|k IH]; simpl; [reflexivity | now rewrite IH]. Qed.

Lemma all_digits_last (s : string) :
  all_digits s = true -> s <> EmptyString ->
  exists c, last_char s = Some c /\ is_digit c = true.
Proof.
  induction s as [|c s IH]; [easy |].
  simpl. intros [Hc Hs]%andb_true_iff _.
  destruct s as [|c' s']; [exists c; auto |].
  apply IH; [exact Hs | discriminate].
Qed.

Lemma digit_not_percent (c : ascii) : is_digit c = true -> Ascii.eqb c "%"%char = false.
Proof.
  intros H. destruct (Ascii.eqb c "%"%char) eqn:E; [|reflexivity].
  apply Ascii.eqb_eq in E; subst c. discriminate H.
Qed.

Lemma digit_value_digit_char (d : Z) : digit_value (digit_char d) = d mod 10.
Proof.
  unfold digit_value, digit_char.
  pose proof (Z.mod_pos_bound d 10 ltac:(lia)) as Hm.
  rewrite nat_ascii_embedding by lia. lia.
Qed.

Lemma digits_value_append (acc : Z) (a b : string) :
  digits_value acc (a +:+ b) = digits_value (digits_value acc a) b.
Proof. revert acc. induction a as [|c a IH]; intros acc; simpl; [reflexivity | apply IH]. Qed.

Lemma digits_value_fixed_digits (w : nat) (n acc : Z) :
  0 <= n ->
  digits_value acc (fixed_digits w n) = acc * 10 ^ Z.of_nat w + n mod 10 ^ Z.of_nat w.
Proof.
  revert n. induction w as [|w IH]; intros n Hn.
  - simpl. rewrite Z.mod_1_r. lia.
  - cbn [fixed_digits]. rewrite digits_value_append, IH by (apply Z.div_pos; lia).
    cbn [digits_value]. rewrite digit_value_digit_char.
    rewrite Nat2Z.inj_succ, Z.pow_succ_r by lia.
    rewrite (Z.rem_mul_r n 10 (10 ^ Z.of_nat w)) by lia. lia.
Qed.

Lemma ndigits_fuel_bound (fuel : nat) (n : Z) :
  0 <= n < 2 ^ Z.of_nat fuel -> n < 10 ^ Z.of_nat (ndigits_fuel fuel n).
Proof.
  revert n. induction fuel as [|fuel IH]; intros n Hn.
  - simpl in *. lia.
  - cbn [ndigits_fuel]. destruct (n <=? 0) eqn:E.
    + apply Z.leb_le in E. simpl. lia.
    + apply Z.leb_gt in E.
      rewrite Nat2Z.inj_succ, Z.pow_succ_r in Hn by lia.
      assert (Hq : 0 <= n / 10 < 2 ^ Z.of_nat fuel).
      { split; [apply Z.div_pos; lia |]. apply Z.div_lt_upper_bound; lia. }
      specialize (IH _ Hq).
      rewrite Nat2Z.inj_succ, Z.pow_succ_r by lia.
      pose proof (Z.div_mod n 10 ltac:(lia)). pose proof (Z.mod_pos_bound n 10 ltac:(lia)).
      lia.
Qed.

Lemma ndigits_bound (n : Z) : 0 < n -> n < 10 ^ Z.of_nat (ndigits n).
Proof.
  intros Hn. unfold ndigits. apply ndigits_fuel_bound.
  rewrite Nat2Z.inj_succ, Z2Nat.id by apply Z.log2_nonneg.
  split; [lia | apply Z.log2_spec; lia].
Qed.

(** The digits of [decimal n] spell [n]. *)
Lemma digits_value_decimal (n : Z) : 0 <= n -> digits_value 0 (decimal n) = n.
Proof.
  intros Hn. unfold decimal. destruct (n <=? 0) eqn:E.
  - apply Z.leb_le in E. assert (n = 0) as -> by lia. reflexivity.
  - apply Z.leb_gt in E. rewrite digits_value_fixed_digits by lia.
    rewrite Z.mod_small; [lia | split; [lia | now apply ndigits_bound]].
Qed.

Lemma digits_value_zeros (k : nat) : digits_value 0 (zeros k) = 0.
Proof. induction k as [|k IH]; simpl; [reflexivity | exact IH]. Qed.

End DecimalFacts.

(** ** The value formatter *)

Section FormatterFacts.

Lemma plain_end_digit (s : string) (c : ascii) :
  last_char s = Some c -> is_digit c = true -> plain_end s.
Proof.
  intros Hl Hc. split.
  - intros ->. discriminate Hl.
  - unfold ends_with_percent. rewrite Hl. now apply digit_not_percent.
Qed.

Lemma plain_end_append (a b : string) : plain_end b -> plain_end (a +:+ b).
Proof.
  intros [Hne Hp]. split.
  - destruct a; simpl; [exact Hne | discriminate].
  - unfold ends_with_percent in *. now rewrite last_char_append.
Qed.

Lemma exponent_form_plain_end (s : Z) (k : nat) (e : Z) : plain_end (exponent_form s k e).
Proof.
  unfold exponent_form.
  destruct (last_char_decimal e) as (c & Hc & Hd).
  destruct (fixed_digits k s) as [|c0 [|c1 r]].
  - now apply (plain_end_digit _ "0"%char).
  - do 2 apply plain_end_append. now apply (plain_end_digit _ c).
  - do 4 apply plain_end_append. now apply (plain_end_digit _ c).
Qed.

Lemma toString_large_plain_end (q : Q) : plain_end (toString_large q).
Proof.
  unfold toString_large.
  destruct (to_double q) as [| | |v]; try (split; [discriminate | reflexivity]).
  destruct (eq_value _ _); [apply exponent_form_plain_end |].
  destruct (shortest_from _ _ _ _) as [[s k]|]; apply exponent_form_plain_end.
Qed.

(** The digits [toFixed] prints for a magnitude below [10^21]. *)
Lemma toFixed_small (q : Q) (d : Z) :
  0 <= d <= 100 ->
  Z.abs (Qnum q) < 10 ^ 21 * Zpos (Qden q) ->
  exists body,
    toFixed (Fin q) d = Normal ((if Qnum q <? 0 then "-" else "") +:+ body)
    /\ is_fixed (Z.to_nat d) body = true
    /\ plain_end body
    /\ digits_of body
       = (2 * Z.abs (Qnum q) * 10 ^ d + Zpos (Qden q)) / (2 * Zpos (Qden q)).
Proof.
  intros Hd Hsmall. unfold toFixed.
  replace ((d <? 0) || (100 <? d)) with false
    by (symmetry; apply orb_false_intro; [apply Z.ltb_ge | apply Z.ltb_ge]; lia).
  replace (10 ^ 21 * Z.pos (Qden q) <=? Z.abs (Qnum q)) with false
    by (symmetry; apply Z.leb_gt; lia).
  set (n := (2 * Z.abs (Qnum q) * 10 ^ d + Z.pos (Qden q)) / (2 * Z.pos (Qden q))).
  pose proof (all_digits_decimal n) as Hdig.
  pose proof (length_decimal_pos n) as Hlen.
  assert (Hn : 0 <= n).
  { apply Z.div_pos; [|lia].
    pose proof (Z.abs_nonneg (Qnum q)). pose proof (Z.pow_nonneg 10 d ltac:(lia)). nia. }
  pose proof (digits_value_decimal n Hn) as Hval.
  destruct (Z.to_nat d =? 0)%nat eqn:Hf.
  - apply Nat.eqb_eq in Hf. exists (decimal n). split; [reflexivity |]. split; [|split].
    + unfold is_fixed. rewrite (span_digits_all _ Hdig), Hf.
      destruct (decimal n); [simpl in Hlen; lia | reflexivity].
    + destruct (all_digits_last (decimal n) Hdig) as (c & Hc & Hcd).
      { intros E; rewrite E in Hlen; simpl in Hlen; lia. }
      now apply (plain_end_digit _ c).
    + unfold digits_of. now rewrite (span_digits_all _ Hdig).
  - apply Nat.eqb_neq in Hf.
    set (f := Z.to_nat d) in *.
    set (m := if (String.length (decimal n) <=? f)%nat
              then zeros (f + 1 - String.length (decimal n)) +:+ decimal n
              else decimal n).
    assert (Hm : all_digits m = true).
    { unfold m. destruct (_ <=? _)%nat; [|exact Hdig].
      now rewrite all_digits_append, all_digits_zeros, Hdig. }
    assert (Hk : (f < String.length m)%nat).
    { unfold m. destruct (String.length (decimal n) <=? f)%nat eqn:E.
      - apply Nat.leb_le in E. rewrite length_append, length_zeros. lia.
      - apply Nat.leb_gt in E. lia. }
    set (k := String.length m) in *.
    exists (take (k - f) m +:+ "." +:+ JsString.drop (k - f) m).
    split; [reflexivity |].
    assert (Hfp : String.length (JsString.drop (k - f) m) = f).
    { rewrite length_drop. fold k. lia. }
    assert (Hmv : digits_value 0 m = n).
    { unfold m. destruct (_ <=? _)%nat; [|exact Hval].
      now rewrite digits_value_append, digits_value_zeros. }
    split; [|split].
    + unfold is_fixed.
      change ("." +:+ JsString.drop (k - f) m)
        with (String "."%char (JsString.drop (k - f) m)).
      rewrite (span_digits_point _ _ (all_digits_take (k - f) m Hm)).
      assert (Hip : take (k - f) m <> EmptyString).
      { intros E. pose proof (length_take (k - f) m) as L. rewrite E in L.
        simpl in L. fold k in L. lia. }
      destruct (take (k - f) m) eqn:Et; [contradiction |]. simpl.
      destruct f as [|f']; [lia |].
      rewrite (all_digits_drop _ _ Hm), Hfp. simpl. apply Nat.eqb_refl.
    + do 2 apply plain_end_append.
      destruct (all_digits_last _ (all_digits_drop (k - f) m Hm)) as (c & Hc & Hcd).
      { intros E. rewrite E in Hfp. simpl in Hfp. lia. }
      now apply (plain_end_digit _ c).
    + unfold digits_of.
      change ("." +:+ JsString.drop (k - f) m)
        with (String "."%char (JsString.drop (k - f) m)).
      rewrite (span_digits_point _ _ (all_digits_take (k - f) m Hm)).
      now rewrite take_drop_append.
Qed.

(** Whatever the magnitude, [toFixed] returns normally for [0 <= d <= 100]:
    an optional minus sign and a text that does not end in a percent
    sign. *)
Lemma toFixed_finite (q : Q) (d : Z) :
  0 <= d <= 100 ->
  exists body,
    toFixed (Fin q) d = Normal ((if Qnum q <? 0 then "-" else "") +:+ body)
    /\ plain_end body.
Proof.
  intros Hd.
  destruct (Z.lt_ge_cases (Z.abs (Qnum q)) (10 ^ 21 * Zpos (Qden q))) as [Hs | Hl].
  - destruct (toFixed_small q d Hd Hs) as (body & E & _ & Hp & _). now exists body.
  - unfold toFixed.
    replace ((d <? 0) || (100 <? d)) with false
      by (symmetry; apply orb_false_intro; [apply Z.ltb_ge | apply Z.ltb_ge]; lia).
    replace (10 ^ 21 * Z.pos (Qden q) <=? Z.abs (Qnum q)) with true
      by (symmetry; apply Z.leb_le; lia).
    eexists; split; [reflexivity | apply toString_large_plain_end].
Qed.

Lemma Qle_bool_num (q : Q) : Qle_bool 0 q = (0 <=? Qnum q).
Proof. unfold Qle_bool. simpl. now rewrite Z.mul_1_r. Qed.

Lemma Qabs_small (q : Q) :
  Qlt (Qabs q) (inject_Z (10 ^ 21)) -> Z.abs (Qnum q) < 10 ^ 21 * Zpos (Qden q).
Proof. destruct q as [n d]. unfold Qlt, Qabs. simpl. lia. Qed.

(** [n = floor(|v| * 10^d + 1/2)] lies within one half of [|v| * 10^d]. *)
Lemma rounded_half_up (v : Q) (d : Z) :
  0 <= d <= 100 ->
  let n := (2 * Z.abs (Qnum v) * 10 ^ d + Zpos (Qden v)) / (2 * Zpos (Qden v)) in
  Qlt (Qabs v * inject_Z (10 ^ d) - (1 # 2)) (inject_Z n)
  /\ Qle (inject_Z n) (Qabs v * inject_Z (10 ^ d) + (1 # 2)).
Proof.
  intros Hd. destruct v as [a b]. cbn [Qnum Qden].
  set (P := 10 ^ d). assert (0 < P) by (apply Z.pow_pos_nonneg; lia).
  set (A := Z.abs a). assert (0 <= A) by apply Z.abs_nonneg.
  pose proof (Z.div_mod (2 * A * P + Z.pos b) (2 * Z.pos b) ltac:(lia)) as E.
  pose proof (Z.mod_pos_bound (2 * A * P + Z.pos b) (2 * Z.pos b) ltac:(lia)) as B.
  set (n := (2 * A * P + Z.pos b) / (2 * Z.pos b)) in *.
  set (r := (2 * A * P + Z.pos b) mod (2 * Z.pos b)) in *.
  cbv zeta.
  unfold Qlt, Qle, Qminus, Qplus, Qmult, Qopp, Qabs, inject_Z. cbn [Qnum Qden].
  fold A. rewrite ?Pos2Z.inj_mul, ?Pos.mul_1_r.
  split; nia.
Qed.

Lemma formatSignedValue_number (host : Host) (v : Q) (d : Z) (p : bool) :
  0 <= d <= 100 ->
  exists body,
    formatSignedValue host (VNum (Fin v)) d p
      = Normal ((if Qle_bool 0 v then "+" else "-") +:+ body +:+ (if p then "%" else ""))
    /\ plain_end body
    /\ (Qlt (Qabs v) (inject_Z (10 ^ 21)) ->
        is_fixed (Z.to_nat d) body = true
        /\ Qlt (Qabs v * inject_Z (10 ^ d) - (1 # 2)) (inject_Z (digits_of body))
        /\ Qle (inject_Z (digits_of body)) (Qabs v * inject_Z (10 ^ d) + (1 # 2))).
Proof.
  intros Hd. rewrite Qle_bool_num.
  destruct (toFixed_finite v d Hd) as (body & E & Hp).
  exists body. split; [|split; [exact Hp |]].
  - unfold formatSignedValue, isNaN, ge0, call_toFixed. simpl. rewrite E. simpl.
    destruct (0 <=? Qnum v) eqn:E1, (Qnum v <? 0) eqn:E2; simpl; try reflexivity.
    + apply Z.leb_le in E1. apply Z.ltb_lt in E2. lia.
    + apply Z.leb_gt in E1. apply Z.ltb_ge in E2. lia.
  - intros Hs%Qabs_small.
    destruct (toFixed_small v d Hd Hs) as (body' & E' & Hf & _ & Hn).
    rewrite E in E'. injection E' as E'.
    assert (Hb : body = body')
      by (destruct (Qnum v <? 0); cbn in E'; inversion E'; reflexivity).
    subst body'. split; [exact Hf |]. rewrite Hn.
    now apply rounded_half_up.
Qed.

Lemma ends_with_percent_format (pre body : string) (p : bool) :
  plain_end body ->
  ends_with_percent (pre +:+ body +:+ (if p then "%" else "")) = p.
Proof.
  intros Hp. destruct p.
  - unfold ends_with_percent. rewrite <- append_assoc.
    now rewrite (last_char_snoc (pre +:+ body) "%"%char).
  - rewrite append_nil_r. now apply plain_end_append.
Qed.

Lemma formatSignedValue_text_nan (host : Host) (s : string) (d : Z) (p : bool) :
  parseFloat (replace "%" "" s) = NaN ->
  formatSignedValue host (VStr s) d p = Normal (if p then "+0.00%" else "+0.00").
Proof. intros H. unfold formatSignedValue, isNaN. simpl. now rewrite H. Qed.

End FormatterFacts.

(** ** The document *)

Section DomFacts.

Implicit Types (doc : Document) (h x : nat) (f : Element -> Element).

Lemma element_lookup doc h e : Dom.element doc h = Some e <-> doc !! h = Some (Some e).
Proof.
  unfold Dom.element. destruct (doc !! h) as [[e'|]|]; split; intros E;
    inversion E; reflexivity.
Qed.

Lemma element_update doc h f x :
  Dom.element (Dom.update h f doc) x
  = if decide (x = h) then f <$> Dom.element doc x else Dom.element doc x.
Proof.
  unfold Dom.update. destruct (Dom.element doc h) as [e|] eqn:E.
  - destruct (decide (x = h)) as [->|Hne].
    + rewrite E. unfold Dom.element. apply element_lookup in E.
      rewrite list_lookup_insert_eq; [reflexivity |].
      apply lookup_lt_is_Some. eauto.
    + unfold Dom.element. rewrite list_lookup_insert_ne by congruence. reflexivity.
  - destruct (decide (x = h)) as [->|Hne]; [now rewrite E | reflexivity].
Qed.

Lemma find_id_insert id doc h e e' i :
  doc !! h = Some (Some e) -> el_id e' = el_id e ->
  Dom.find_id id (<[h := Some e']> doc) i = Dom.find_id id doc i.
Proof.
  revert h i. induction doc as [|a doc IH]; intros h i Hl Hid; [discriminate |].
  destruct h as [|h]; simpl in *.
  - inversion Hl; subst a. unfold Dom.has_id. now rewrite Hid.
  - destruct a as [a|]; [destruct (Dom.has_id id a) |]; try reflexivity; now apply IH.
Qed.

Lemma getElementById_update id doc h f :
  Dom.keeps_skeleton f ->
  Dom.getElementById id (Dom.update h f doc) = Dom.getElementById id doc.
Proof.
  intros Hf. unfold Dom.update, Dom.getElementById.
  destruct (Dom.element doc h) as [e|] eqn:E; [|reflexivity].
  apply element_lookup in E. apply (find_id_insert _ _ _ e); [exact E | apply Hf].
Qed.

Lemma find_id_bounds id doc i h : Dom.find_id id doc i = Some h -> (i <= h)%nat.
Proof.
  revert i. induction doc as [|a doc IH]; intros i; simpl; [discriminate |].
  destruct a as [a|]; [destruct (Dom.has_id id a) |].
  - intros [= ->]; lia.
  - intros H%IH; lia.
  - intros H%IH; lia.
Qed.

Lemma find_id_element id doc i h :
  Dom.find_id id doc i = Some h ->
  exists e, doc !! (h - i)%nat = Some (Some e) /\ el_id e = Some id.
Proof.
  revert i. induction doc as [|a doc IH]; intros i; simpl; [discriminate |].
  destruct a as [a|]; [destruct (Dom.has_id id a) eqn:Hid |].
  - intros [= ->]. rewrite Nat.sub_diag. exists a. split; [reflexivity |].
    unfold Dom.has_id in Hid. destruct (el_id a) as [j|]; [|discriminate].
    apply String.eqb_eq in Hid. now subst.
  - intros H. pose proof (find_id_bounds _ _ _ _ H) as Hb.
    destruct (IH _ H) as (e & Hl & He). exists e. split; [|exact He].
    replace (h - i)%nat with (S (h - S i)) by lia. exact Hl.
  - intros H. pose proof (find_id_bounds _ _ _ _ H) as Hb.
    destruct (IH _ H) as (e & Hl & He). exists e. split; [|exact He].
    replace (h - i)%nat with (S (h - S i)) by lia. exact Hl.
Qed.

(** The element found under an id is in the document and carries the id. *)
Lemma getElementById_element id doc h :
  Dom.getElementById id doc = Some h ->
  exists e, Dom.element doc h = Some e /\ el_id e = Some id.
Proof.
  intros H. destruct (find_id_element _ _ _ _ H) as (e & Hl & He).
  rewrite Nat.sub_0_r in Hl. exists e. split; [now apply element_lookup | exact He].
Qed.

(** Two ids that name the same element are the same id. *)
Lemma getElementById_inj a b doc h :
  Dom.getElementById a doc = Some h -> Dom.getElementById b doc = Some h -> a = b.
Proof.
  intros (e & He & Ha)%getElementById_element (e' & He' & Hb)%getElementById_element.
  congruence.
Qed.

Lemma has_ancestor_leaf fuel doc h x :
  Dom.is_leaf doc h -> Dom.has_ancestor fuel doc h x = false.
Proof.
  intros Hleaf. revert x. induction fuel as [|fuel IH]; intros x; simpl; [reflexivity |].
  destruct (Dom.element doc x) as [e|] eqn:E; [|reflexivity].
  destruct (el_parent e) as [p|] eqn:P; [|reflexivity].
  rewrite IH, orb_false_r. apply Nat.eqb_neq. intros ->. exact (Hleaf _ _ E P).
Qed.

Lemma remove_descendants_leaf doc h :
  Dom.is_leaf doc h -> Dom.remove_descendants h doc = doc.
Proof.
  intros Hleaf. unfold Dom.remove_descendants. apply list_eq. intros i.
  rewrite list_lookup_imap. rewrite (has_ancestor_leaf _ _ _ _ Hleaf), andb_false_r.
  now destruct (doc !! i).
Qed.

Lemma replace_children_leaf doc h c :
  Dom.is_leaf doc h ->
  Dom.replace_children h c doc = Dom.update h (Dom.set_content_of c) doc.
Proof.
  intros Hleaf. unfold Dom.replace_children.
  rewrite (remove_descendants_leaf _ _ Hleaf).
  destruct (Dom.element doc h) eqn:E; [reflexivity |].
  unfold Dom.update. now rewrite E.
Qed.

Lemma leafb_is_leaf doc h : leafb doc h = true -> Dom.is_leaf doc h.
Proof.
  unfold leafb, Dom.is_leaf. rewrite forallb_forall. intros H x e Hx Hp.
  apply element_lookup in Hx.
  assert (Hin : In (Some e) doc).
  { apply list_elem_of_In. eapply list_elem_of_lookup_2. exact Hx. }
  specialize (H _ Hin). simpl in H. rewrite Hp, Nat.eqb_refl in H. discriminate H.
Qed.

Lemma keeps_skeleton_content c : Dom.keeps_skeleton (Dom.set_content_of c).
Proof. intros e. repeat split. Qed.

Lemma keeps_skeleton_remove tokens : Dom.keeps_skeleton (Dom.remove_tokens tokens).
Proof. intros e. repeat split. Qed.

Lemma keeps_skeleton_add token : Dom.keeps_skeleton (Dom.add_token token).
Proof. intros e. repeat split. Qed.

Lemma parentElement_update doc h f x :
  Dom.keeps_skeleton f ->
  Dom.parentElement (Dom.update h f doc) x = Dom.parentElement doc x.
Proof.
  intros Hf. unfold Dom.parentElement. rewrite element_update.
  assert (Hex : forall y, match Dom.element (Dom.update h f doc) y with
                          | Some _ => true | None => false end
                          = match Dom.element doc y with
                            | Some _ => true | None => false end).
  { intros y. rewrite element_update. destruct (decide (y = h)); [|reflexivity].
    now destruct (Dom.element doc y). }
  assert (Hp : forall e, el_parent (f e) = el_parent e) by (intros e; apply Hf).
  destruct (decide (x = h)) as [->|Hne].
  - destruct (Dom.element doc h) as [e|]; simpl; [|reflexivity].
    rewrite Hp. destruct (el_parent e) as [p|]; [|reflexivity].
    specialize (Hex p).
    destruct (Dom.element (Dom.update h f doc) p), (Dom.element doc p);
      try reflexivity; discriminate.
  - destruct (Dom.element doc x) as [e|]; [|reflexivity].
    destruct (el_parent e) as [p|]; [|reflexivity].
    specialize (Hex p).
    destruct (Dom.element (Dom.update h f doc) p), (Dom.element doc p);
      try reflexivity; discriminate.
Qed.

Lemma is_leaf_update doc h f x :
  Dom.keeps_skeleton f -> Dom.is_leaf doc x -> Dom.is_leaf (Dom.update h f doc) x.
Proof.
  intros Hf Hleaf y e. rewrite element_update.
  destruct (decide (y = h)) as [->|Hne].
  - destruct (Dom.element doc h) as [e0|] eqn:E; [|discriminate].
    intros [= <-]. destruct (Hf e0) as (_ & -> & _). exact (Hleaf _ _ E).
  - apply Hleaf.
Qed.

Lemma content_update doc h f x :
  Dom.content (Dom.update h f doc) x
  = if decide (x = h) then (fun e => el_content (f e)) <$> Dom.element doc x
    else Dom.content doc x.
Proof.
  unfold Dom.content. rewrite element_update.
  destruct (decide (x = h)); [|reflexivity]. now destruct (Dom.element doc x).
Qed.

Lemma classes_update doc h f x :
  Dom.classes (Dom.update h f doc) x
  = if decide (x = h) then (fun e => el_classes (f e)) <$> Dom.element doc x
    else Dom.classes doc x.
Proof.
  unfold Dom.classes. rewrite element_update.
  destruct (decide (x = h)); [|reflexivity]. now destruct (Dom.element doc x).
Qed.

Lemma kind_update doc h f x :
  Dom.keeps_skeleton f ->
  el_kind <$> Dom.element (Dom.update h f doc) x = el_kind <$> Dom.element doc x.
Proof.
  intros Hf. rewrite element_update. destruct (decide (x = h)) as [_|_]; [|reflexivity].
  destruct (Dom.element doc x) as [e|]; [|reflexivity]. simpl.
  now destruct (Hf e) as (_ & _ & ->).
Qed.

End DomFacts.

(** ** The text of the chart cards *)

Section CardFacts.

Implicit Types (doc : Document) (h x : nat) (f : Element -> Element).

Lemma same_frame_refl doc : same_frame doc doc.
Proof. repeat split; auto. Qed.

Lemma same_frame_trans doc1 doc2 doc3 :
  same_frame doc1 doc2 -> same_frame doc2 doc3 -> same_frame doc1 doc3.
Proof.
  intros (A1 & A2 & A3 & A4) (B1 & B2 & B3 & B4). repeat split.
  - intros id. now rewrite B1.
  - intros x. now rewrite B2.
  - auto.
  - intros x. now rewrite B4.
Qed.

Lemma same_frame_update doc h f :
  Dom.keeps_skeleton f -> same_frame doc (Dom.update h f doc).
Proof.
  intros Hf. repeat split.
  - intros id. now apply getElementById_update.
  - intros x. now apply parentElement_update.
  - intros x. now apply is_leaf_update.
  - intros x. now apply kind_update.
Qed.

Lemma slot_same_frame doc doc' id h : same_frame doc doc' -> slot doc id h -> slot doc' id h.
Proof. intros (A1 & _ & A3 & _) [Hg Hl]. split; [now rewrite A1 | now apply A3]. Qed.

Lemma content_update_same doc h f x :
  (forall e, el_content (f e) = el_content e) ->
  Dom.content (Dom.update h f doc) x = Dom.content doc x.
Proof.
  intros Hf. rewrite content_update. destruct (decide (x = h)); [|reflexivity].
  unfold Dom.content. destruct (Dom.element doc x); simpl; [now rewrite Hf | reflexivity].
Qed.

Lemma classes_update_same doc h f x :
  (forall e, el_classes (f e) = el_classes e) ->
  Dom.classes (Dom.update h f doc) x = Dom.classes doc x.
Proof.
  intros Hf. rewrite classes_update. destruct (decide (x = h)); [|reflexivity].
  unfold Dom.classes. destruct (Dom.element doc x); simpl; [now rewrite Hf | reflexivity].
Qed.

Lemma set_textContent_slot doc id h s :
  slot doc id h ->
  Dom.set_textContent h s doc = Dom.update h (Dom.set_content_of (Dom.text_nodes s)) doc.
Proof. intros [_ Hl]. unfold Dom.set_textContent. now apply replace_children_leaf. Qed.

(** What one call of [updateChartCardTextOnly] does to a document whose
    two slots are distinct leaves. *)
Lemma apply_update_slots doc u hv hc :
  slot doc (cu_value_id u) hv -> slot doc (cu_change_id u) hc ->
  cu_value_id u <> cu_change_id u ->
  let doc' := apply_update doc u in
  same_frame doc doc'
  /\ Dom.content doc' hv = Some (Dom.text_nodes (trim (cu_value u)))
  /\ Dom.content doc' hc = Some (Dom.text_nodes (trim (cu_change u)))
  /\ (forall x, x <> hv -> x <> hc -> Dom.content doc' x = Dom.content doc x)
  /\ (forall x, Dom.parentElement doc hc <> Some x -> Dom.classes doc' x = Dom.classes doc x)
  /\ (forall o cls, Dom.parentElement doc hc = Some o -> Dom.classes doc o = Some cls ->
        Dom.classes doc' o
        = Some (Dom.add_class (if startsWith "-" (cu_change u) then "negative" else "positive")
                              (Dom.remove_classes ["positive"; "negative"] cls))).
Proof.
  intros Hv Hc Hne doc'.
  assert (Hvc : hv <> hc).
  { intros ->. apply Hne. destruct Hv as [Hv _], Hc as [Hc _].
    exact (getElementById_inj _ _ _ _ Hv Hc). }
  destruct (getElementById_element _ _ _ (proj1 Hv)) as (ev & Eev & _).
  destruct (getElementById_element _ _ _ (proj1 Hc)) as (ec & Eec & _).
  set (f1 := Dom.set_content_of (Dom.text_nodes (trim (cu_value u)))).
  set (f2 := Dom.set_content_of (Dom.text_nodes (trim (cu_change u)))).
  set (doc1 := Dom.update hv f1 doc).
  set (doc2 := Dom.update hc f2 doc1).
  assert (F1 : same_frame doc doc1) by apply same_frame_update, keeps_skeleton_content.
  assert (F2 : same_frame doc1 doc2) by apply same_frame_update, keeps_skeleton_content.
  assert (Hc1 : slot doc1 (cu_change_id u) hc) by exact (slot_same_frame _ _ _ _ F1 Hc).
  assert (Hp1 : Dom.parentElement doc1 hc = Dom.parentElement doc hc) by apply F1.
  assert (C2v : Dom.content doc2 hv = Some (Dom.text_nodes (trim (cu_value u)))).
  { unfold doc2, doc1. rewrite content_update.
    destruct (decide (hv = hc)); [contradiction |].
    rewrite content_update. destruct (decide (hv = hv)); [|contradiction].
    now rewrite Eev. }
  assert (C2c : Dom.content doc2 hc = Some (Dom.text_nodes (trim (cu_change u)))).
  { unfold doc2. rewrite content_update. destruct (decide (hc = hc)); [|contradiction].
    unfold doc1. rewrite element_update. destruct (decide (hc = hv)); [congruence |].
    now rewrite Eec. }
  assert (C2x : forall x, x <> hv -> x <> hc -> Dom.content doc2 x = Dom.content doc x).
  { intros x Hxv Hxc. unfold doc2, doc1. rewrite content_update.
    destruct (decide (x = hc)); [contradiction |].
    rewrite content_update. now destruct (decide (x = hv)). }
  assert (K2 : forall x, Dom.classes doc2 x = Dom.classes doc x).
  { intros x. unfold doc2, doc1. now rewrite !classes_update_same. }
  assert (E : doc' =
              match Dom.parentElement doc hc with
              | Some outer =>
                  Dom.update outer
                    (Dom.add_token (if startsWith "-" (cu_change u) then "negative"
                                    else "positive"))
                    (Dom.update outer (Dom.remove_tokens ["positive"; "negative"]) doc2)
              | None => doc2
              end).
  { unfold doc', apply_update, cardText. rewrite (proj1 Hv), (proj1 Hc).
    rewrite (set_textContent_slot _ _ _ _ Hv). fold f1. fold doc1.
    rewrite (set_textContent_slot _ _ _ _ Hc1). fold f2. fold doc2.
    rewrite Hp1. reflexivity. }
  rewrite E. clear E doc'.
  destruct (Dom.parentElement doc hc) as [o|] eqn:Ho.
  - set (g1 := Dom.remove_tokens ["positive"; "negative"]).
    set (g2 := Dom.add_token (if startsWith "-" (cu_change u) then "negative" else "positive")).
    assert (G1 : same_frame doc2 (Dom.update o g1 doc2))
      by apply same_frame_update, keeps_skeleton_remove.
    assert (G2 : same_frame (Dom.update o g1 doc2) (Dom.update o g2 (Dom.update o g1 doc2)))
      by apply same_frame_update, keeps_skeleton_add.
    split; [exact (same_frame_trans _ _ _ (same_frame_trans _ _ _ F1 F2)
                                     (same_frame_trans _ _ _ G1 G2)) |].
    split; [now rewrite !content_update_same |].
    split; [now rewrite !content_update_same |].
    split; [intros x Hxv Hxc; rewrite !content_update_same by reflexivity; now apply C2x |].
    split.
    + intros x Hx. rewrite !classes_update.
      destruct (decide (x = o)) as [->|_]; [congruence | apply K2].
    + intros o' cls [= <-] Hcls. rewrite classes_update.
      destruct (decide (o = o)); [|contradiction].
      rewrite element_update. destruct (decide (o = o)); [|contradiction].
      specialize (K2 o). rewrite Hcls in K2. unfold Dom.classes in K2.
      destruct (Dom.element doc2 o) as [e2|]; [|discriminate]. simpl in *.
      injection K2 as ->. reflexivity.
  - split; [exact (same_frame_trans _ _ _ F1 F2) |].
    split; [exact C2v |]. split; [exact C2c |]. split; [exact C2x |].
    split; [intros x _; apply K2 | intros o cls [=]].
Qed.

End CardFacts.

(** ** The chart renderer *)

Section RendererFacts.

Lemma bind_normal {A B : Type} (m : M A) (k : A -> M B) (pg pg' : Page) (a : A) :
  m pg = (Normal a, pg') -> bind m k pg = k a pg'.
Proof. intros H. unfold bind. now rewrite H. Qed.

Lemma bind_throw {A B : Type} (m : M A) (k : A -> M B) (pg pg' : Page) (e : jserror) :
  m pg = (Throw e, pg') -> bind m k pg = (Throw e, pg').
Proof. intros H. unfold bind. now rewrite H. Qed.

Lemma drawable_element doc id :
  drawable doc id = true ->
  exists h e, Dom.getElementById id doc = Some h /\ Dom.element doc h = Some e
              /\ el_kind e = Canvas true.
Proof.
  unfold drawable. destruct (Dom.getElementById id doc) as [h|]; [|discriminate].
  destruct (Dom.element doc h) as [e|] eqn:E; [|discriminate].
  destruct (el_kind e) as [[|]|] eqn:K; try discriminate.
  intros _. now exists h, e.
Qed.

(** A call of [renderChart] on a canvas that yields a context: the chart
    registered under the id is disposed of and its entry set to null, the
    constructor is called, and the new chart is registered unless the
    constructor throws. *)
Lemma renderChart_drawable (host : Host) (canvasId : string) (data labels : jsval)
    (lineColor : string) (pg : Page) (radius : Z) :
  drawable (document pg) canvasId = true ->
  pointRadius host data = Normal radius ->
  let cfg := config_on host pg canvasId data labels lineColor radius in
  let lib := library_disposed pg canvasId in
  let reg := registry_disposed pg canvasId in
  renderChart host canvasId data labels lineColor pg =
    if host_Chart_throws host lib canvasId cfg
    then (Normal tt,
          mkPage (document pg) (Some reg) (currentTicker pg)
                 (console pg ++
                    [LogException ("[charts.js] renderChart: Chart.js instantiation failed for '"
                                   +:+ canvasId +:+ "':") LibraryError])
                 (lib ++ [ConstructFailed canvasId cfg]))
    else (Normal tt,
          mkPage (document pg) (Some (<[canvasId := SChart (List.length lib)]> reg))
                 (currentTicker pg)
                 (console pg ++
                    [Log ("[charts.js] renderChart: Created '" +:+ canvasId +:+ "' titled '"
                          +:+ cfg_title cfg +:+ "'")])
                 (lib ++ [Constructed (List.length lib) canvasId cfg])).
Proof.
  intros (h & e & Hh & He & Hk)%drawable_element Hr cfg lib reg.
  subst cfg lib reg.
  unfold renderChart, library_disposed, registry_disposed, registered, registry_of, config_on.
  unfold bind, getElementById, gets, getContext2d. rewrite Hh, He, Hk.
  unfold buildConfig, lift. rewrite Hr. cbn [cbind].
  destruct pg as [doc reg tick con lib]. cbn in *.
  destruct reg as [reg|]; cbn.
  - destruct (reg !! canvasId) as [[inst|]|] eqn:Hs; cbn; rewrite ?Hs; cbn;
      rewrite ?app_nil_r; unfold try_catch, new_Chart; cbn;
      destruct (host_Chart_throws host _ canvasId _); reflexivity.
  - rewrite lookup_empty. cbn. rewrite app_nil_r.
    unfold try_catch, new_Chart; cbn.
    destruct (host_Chart_throws host _ canvasId _); reflexivity.
Qed.

(** A call of [renderChart] on an id without a drawable surface. *)
Lemma renderChart_no_surface (host : Host) (canvasId : string) (data labels : jsval)
    (lineColor : string) (pg : Page) :
  surface_ok (document pg) canvasId = true ->
  drawable (document pg) canvasId = false ->
  exists msg,
    renderChart host canvasId data labels lineColor pg
    = (Normal tt, with_console (console pg ++ [LogError msg]) pg).
Proof.
  unfold surface_ok, drawable, renderChart, bind, getElementById, gets, getContext2d.
  destruct (Dom.getElementById canvasId (document pg)) as [h|] eqn:Hh.
  - destruct (getElementById_element _ _ _ Hh) as (e & He & _). rewrite He.
    destruct (el_kind e) as [[|]|]; try discriminate.
    intros _ _. eexists. reflexivity.
  - intros _ _. eexists. reflexivity.
Qed.

Lemma destroy_count_app (inst : nat) (a b : list LibEvent) :
  destroy_count inst (a ++ b) = (destroy_count inst a + destroy_count inst b)%nat.
Proof.
  induction a as [|ev a IH]; [reflexivity |].
  destruct ev; cbn [app destroy_count]; rewrite IH; lia.
Qed.

Lemma names_below_mono (n m : nat) (ev : LibEvent) :
  (n <= m)%nat -> names_below n ev = true -> names_below m ev = true.
Proof.
  intros Hle. destruct ev; cbn; try reflexivity;
    intros H%Nat.ltb_lt; apply Nat.ltb_lt; lia.
Qed.

Lemma slot_below_mono (n m : nat) (s : Slot) :
  (n <= m)%nat -> slot_below n s = true -> slot_below m s = true.
Proof.
  intros Hle. destruct s; cbn; try reflexivity.
  intros H%Nat.ltb_lt; apply Nat.ltb_lt; lia.
Qed.

(** An instance that the trace does not know yet has not been destroyed. *)
Lemma destroy_count_fresh (n inst : nat) (lib : list LibEvent) :
  forallb (names_below n) lib = true -> (n <= inst)%nat -> destroy_count inst lib = 0%nat.
Proof.
  intros H Hle. induction lib as [|ev lib IH]; [reflexivity |].
  cbn [forallb] in H. apply andb_true_iff in H as [Hev Hrest].
  destruct ev as [i c cfg | c cfg | i]; cbn [destroy_count]; try (now apply IH).
  cbn in Hev. apply Nat.ltb_lt in Hev.
  destruct (Nat.eqb_spec i inst); [lia |]. now rewrite IH.
Qed.

Lemma instances_ok_spec (pg : Page) :
  instances_ok pg = true <->
  forallb (names_below (List.length (library pg))) (library pg) = true
  /\ map_Forall (fun _ s => slot_below (List.length (library pg)) s = true) (registry_of pg).
Proof.
  unfold instances_ok. cbv zeta. rewrite andb_true_iff, bool_decide_eq_true. reflexivity.
Qed.

Lemma instances_ok_registered (pg : Page) (id : string) (inst : nat) :
  instances_ok pg = true -> registered pg id = Some inst ->
  (inst < List.length (library pg))%nat.
Proof.
  intros [_ Hreg]%instances_ok_spec. unfold registered.
  destruct (registry_of pg !! id) as [[i|]|] eqn:E; try discriminate.
  intros [= <-]. specialize (Hreg _ _ E). cbn in Hreg. now apply Nat.ltb_lt.
Qed.

(** The trace once the registered chart is disposed of names constructed
    instances only. *)
Lemma library_disposed_below (pg : Page) (canvasId : string) :
  instances_ok pg = true ->
  forallb (names_below (List.length (library_disposed pg canvasId)))
          (library_disposed pg canvasId) = true.
Proof.
  intros Hok. pose proof (proj1 (instances_ok_spec pg) Hok) as [Hlib _].
  unfold library_disposed.
  destruct (registered pg canvasId) as [inst|] eqn:Hreg.
  - pose proof (instances_ok_registered pg canvasId inst Hok Hreg) as Hlt.
    rewrite forallb_app, length_app. cbn. apply andb_true_iff. split.
    + apply forallb_forall. intros ev Hin.
      apply (names_below_mono (List.length (library pg))); [lia |].
      now apply (proj1 (forallb_forall _ _) Hlib).
    + rewrite andb_true_r. apply Nat.ltb_lt. lia.
  - now rewrite app_nil_r.
Qed.

Lemma registry_disposed_below (pg : Page) (canvasId : string) (n : nat) :
  instances_ok pg = true -> (List.length (library pg) <= n)%nat ->
  map_Forall (fun _ s => slot_below n s = true) (registry_disposed pg canvasId).
Proof.
  intros [_ Hreg]%instances_ok_spec Hle.
  assert (H : map_Forall (fun _ s => slot_below n s = true) (registry_of pg)).
  { intros id s E. apply (slot_below_mono (List.length (library pg))); [exact Hle |].
    exact (Hreg id s E). }
  unfold registry_disposed. destruct (registered pg canvasId); [|exact H].
  apply map_Forall_insert_2; [reflexivity | exact H].
Qed.

(** When the length test of the data throws, the chart registered under the
    id is already disposed of. *)
Lemma renderChart_drawable_throw (host : Host) (canvasId : string) (data labels : jsval)
    (lineColor : string) (pg : Page) (e : jserror) :
  drawable (document pg) canvasId = true ->
  pointRadius host data = Throw e ->
  renderChart host canvasId data labels lineColor pg
  = (Throw e,
     mkPage (document pg) (Some (registry_disposed pg canvasId)) (currentTicker pg)
            (console pg) (library_disposed pg canvasId)).
Proof.
  intros (h & el & Hh & He & Hk)%drawable_element Hr.
  unfold renderChart, library_disposed, registry_disposed, registered, registry_of.
  unfold bind, getElementById, gets, getContext2d. rewrite Hh, He, Hk.
  unfold buildConfig, lift. rewrite Hr. cbn [cbind].
  destruct pg as [doc reg tick con lib]. cbn in *.
  destruct reg as [reg|]; cbn.
  - destruct (reg !! canvasId) as [[inst|]|] eqn:Hs; cbn; rewrite ?Hs; cbn;
      rewrite ?app_nil_r; reflexivity.
  - rewrite lookup_empty. cbn. now rewrite app_nil_r.
Qed.

(** Without a drawable surface, a call changes the console at most. *)
Lemma renderChart_not_drawable (host : Host) (canvasId : string) (data labels : jsval)
    (lineColor : string) (pg : Page) :
  drawable (document pg) canvasId = false ->
  exists con, snd (renderChart host canvasId data labels lineColor pg) = with_console con pg.
Proof.
  unfold drawable, renderChart, bind, getElementById, gets, getContext2d.
  destruct (Dom.getElementById canvasId (document pg)) as [h|];
    [|intros _; eexists; reflexivity].
  destruct (Dom.element (document pg) h) as [el|].
  - destruct (el_kind el) as [[|]|]; try discriminate; intros _.
    + eexists; reflexivity.
    + exists (console pg). now destruct pg.
  - intros _. exists (console pg). now destruct pg.
Qed.

(** [renderChart] keeps the instances of the page in order. *)
Lemma renderChart_instances_ok (host : Host) (canvasId : string) (data labels : jsval)
    (lineColor : string) (pg : Page) :
  instances_ok pg = true ->
  instances_ok (snd (renderChart host canvasId data labels lineColor pg)) = true.
Proof.
  intros Hok.
  pose proof (library_disposed_below pg canvasId Hok) as Hlib.
  assert (Hlen : (List.length (library pg) <= List.length (library_disposed pg canvasId))%nat).
  { unfold library_disposed. rewrite length_app. lia. }
  destruct (drawable (document pg) canvasId) eqn:Hd.
  - destruct (pointRadius host data) as [radius|e] eqn:Hr.
    + pose proof (renderChart_drawable host canvasId data labels lineColor pg radius Hd Hr) as E.
      cbn zeta in E. rewrite E.
      destruct (host_Chart_throws _ _ _ _); cbn [snd]; apply instances_ok_spec;
        cbn [library]; unfold registry_of; cbn [charts default];
        rewrite length_app, forallb_app; cbn [List.length forallb names_below].
      * split.
        -- rewrite andb_true_r. apply forallb_forall. intros ev Hin.
           apply (names_below_mono (List.length (library_disposed pg canvasId))); [lia |].
           now apply (proj1 (forallb_forall _ _) Hlib).
        -- apply registry_disposed_below; [exact Hok | lia].
      * split.
        -- apply andb_true_iff. split.
           ++ apply forallb_forall. intros ev Hin.
              apply (names_below_mono (List.length (library_disposed pg canvasId))); [lia |].
              now apply (proj1 (forallb_forall _ _) Hlib).
           ++ rewrite andb_true_r. apply Nat.ltb_lt. lia.
        -- apply map_Forall_insert_2.
           ++ cbn. apply Nat.ltb_lt. lia.
           ++ apply registry_disposed_below; [exact Hok | lia].
    + rewrite (renderChart_drawable_throw host canvasId data labels lineColor pg e Hd Hr).
      cbn [snd]. apply instances_ok_spec. cbn [library]. unfold registry_of. cbn [charts default].
      split; [exact Hlib | apply registry_disposed_below; [exact Hok | exact Hlen]].
  - destruct (renderChart_not_drawable host canvasId data labels lineColor pg Hd) as (con & ->).
    destruct pg. exact Hok.
Qed.

(** Whatever the canvas, [renderChart] leaves the document as it is. *)
Lemma renderChart_document (host : Host) (canvasId : string) (data labels : jsval)
    (lineColor : string) (pg : Page) :
  document (snd (renderChart host canvasId data labels lineColor pg)) = document pg.
Proof.
  unfold renderChart, bind, getElementById, gets, getContext2d.
  destruct (Dom.getElementById canvasId (document pg)) as [h|]; [|reflexivity].
  destruct (Dom.element (document pg) h) as [e|]; [|reflexivity].
  destruct (el_kind e) as [[|]|]; try reflexivity.
  destruct pg as [doc reg tick con lib]. cbn.
  unfold lift, buildConfig.
  destruct reg as [reg|]; cbn;
    [destruct (reg !! canvasId) as [[inst|]|]; cbn | rewrite lookup_empty; cbn];
    (destruct (pointRadius host data); cbn; [|reflexivity]);
    unfold try_catch, new_Chart; cbn.
  all: match goal with
       | |- context [host_Chart_throws ?a ?b ?c ?d] => destruct (host_Chart_throws a b c d)
       end; reflexivity.
Qed.

(** On a canvas or on a missing element, with a data argument whose length
    test does not throw, [renderChart] returns normally. *)
Lemma renderChart_completes (host : Host) (canvasId : string) (data labels : jsval)
    (lineColor : string) (pg : Page) (radius : Z) :
  surface_ok (document pg) canvasId = true ->
  pointRadius host data = Normal radius ->
  fst (renderChart host canvasId data labels lineColor pg) = Normal tt.
Proof.
  intros Hs Hr. destruct (drawable (document pg) canvasId) eqn:Hd.
  - pose proof (renderChart_drawable host canvasId data labels lineColor pg radius Hd Hr) as E.
    cbn zeta in E. rewrite E. now destruct (host_Chart_throws _ _ _ _).
  - destruct (renderChart_no_surface host canvasId data labels lineColor pg Hs Hd)
      as (msg & ->). reflexivity.
Qed.

End RendererFacts.

Section RendererClaims.

Lemma pointRadius_array (host : Host) (items : list jsval) :
  pointRadius host (VArr items)
  = Normal (if (List.length items <? 10)%nat then 2 else 0).
Proof.
  unfold pointRadius, less_than. cbn.
  rewrite Z.mul_1_r.
  destruct (Z.ltb_spec (Z.of_nat (List.length items)) 10),
           (Nat.leb_spec (List.length items) 9); try reflexivity; lia.
Qed.

Lemma pointRadius_falsy (host : Host) (data : jsval) :
  truthy data = false -> pointRadius host data = Normal 0.
Proof. intros H. unfold pointRadius. now rewrite H. Qed.

(** C8 (amended): when no element exists under the id, or the element is a
    canvas that yields no 2D context, [renderChart] logs one error and
    returns normally; the registry, the document, the ticker and the
    library trace are as before.  When the id names an element that is not
    a canvas, which has no [getContext] method, a TypeError escapes the
    call, and the page is as before. *)
Theorem renderChart_without_surface (host : Host) (canvasId : string) (data labels : jsval)
    (lineColor : string) (pg : Page) :
  ((Dom.getElementById canvasId (document pg) = None
    \/ exists h e, Dom.getElementById canvasId (document pg) = Some h
                   /\ Dom.element (document pg) h = Some e
                   /\ el_kind e = Canvas false) ->
   exists msg pg',
     renderChart host canvasId data labels lineColor pg = (Normal tt, pg')
     /\ console pg' = (console pg ++ [LogError msg])%list
     /\ charts pg' = charts pg
     /\ document pg' = document pg
     /\ currentTicker pg' = currentTicker pg
     /\ library pg' = library pg)
  /\ ((exists h e, Dom.getElementById canvasId (document pg) = Some h
                   /\ Dom.element (document pg) h = Some e
                   /\ el_kind e = OtherElement) ->
      renderChart host canvasId data labels lineColor pg = (Throw TypeError, pg)).
Proof.
  split.
  - intros H.
    assert (Hs : surface_ok (document pg) canvasId = true
                 /\ drawable (document pg) canvasId = false).
    { unfold surface_ok, drawable.
      destruct H as [-> | (h & e & -> & -> & ->)]; split; reflexivity. }
    destruct Hs as [Hs Hd].
    destruct (renderChart_no_surface host canvasId data labels lineColor pg Hs Hd) as (msg & E).
    exists msg, (with_console (console pg ++ [LogError msg]) pg).
    repeat split. exact E.
  - intros (h & e & Hh & He & Hk).
    unfold renderChart, bind, getElementById, gets, getContext2d. now rewrite Hh, He, Hk.
Qed.

(** C10: when a chart is registered under the id and the constructor throws
    for the replacement, the call returns normally with the prior chart
    destroyed and the registry entry left null. *)
Theorem renderChart_failed_replacement (host : Host) (canvasId : string) (data labels : jsval)
    (lineColor : string) (pg : Page) (inst : nat) (radius : Z) :
  drawable (document pg) canvasId = true ->
  registered pg canvasId = Some inst ->
  pointRadius host data = Normal radius ->
  host_Chart_throws host (library pg ++ [Destroyed inst]) canvasId
                    (config_on host pg canvasId data labels lineColor radius) = true ->
  exists pg' reg',
    renderChart host canvasId data labels lineColor pg = (Normal tt, pg')
    /\ library pg'
       = (library pg ++
          [Destroyed inst;
           ConstructFailed canvasId (config_on host pg canvasId data labels lineColor radius)])%list
    /\ charts pg' = Some reg'
    /\ reg' !! canvasId = Some SNull
    /\ registered pg' canvasId = None.
Proof.
  intros Hd Hreg Hr Hthrow.
  pose proof (renderChart_drawable host canvasId data labels lineColor pg radius Hd Hr) as E.
  cbn zeta in E. unfold library_disposed, registry_disposed in E.
  rewrite Hreg in E. rewrite Hthrow in E.
  eexists. exists (<[canvasId := SNull]> (registry_of pg)).
  split; [exact E |]. cbn.
  split; [now rewrite <- app_assoc |].
  split; [reflexivity |].
  split; [apply lookup_insert_eq |].
  unfold registered, registry_of. cbn. now rewrite lookup_insert_eq.
Qed.

(** C4: two calls of [renderChart] on a drawable canvas, when the two
    constructions that the calls reach do not throw (nothing is asked of
    the constructor on any other trace or configuration): the first call's
    chart is constructed, destroyed, and only then the second chart is
    constructed; over the whole trace the first chart is destroyed exactly
    once and the second never; the registry holds the second chart under
    the id. *)
Theorem renderChart_twice (host : Host) (canvasId : string)
    (data1 labels1 : jsval) (color1 : string) (data2 labels2 : jsval) (color2 : string)
    (pg : Page) (radius1 radius2 : Z) :
  instances_ok pg = true ->
  drawable (document pg) canvasId = true ->
  pointRadius host data1 = Normal radius1 ->
  pointRadius host data2 = Normal radius2 ->
  let lib1 := library_disposed pg canvasId in
  let made1 := config_on host pg canvasId data1 labels1 color1 radius1 in
  let made2 := config_on host pg canvasId data2 labels2 color2 radius2 in
  host_Chart_throws host lib1 canvasId made1 = false ->
  host_Chart_throws host
    (lib1 ++ [Constructed (List.length lib1) canvasId made1; Destroyed (List.length lib1)])
    canvasId made2 = false ->
  exists pg2 reg2 first second cfg1 cfg2,
    (renderChart host canvasId data1 labels1 color1 ;;
     renderChart host canvasId data2 labels2 color2) pg = (Normal tt, pg2)
    /\ library pg2
       = (library_disposed pg canvasId ++
          [Constructed first canvasId cfg1; Destroyed first;
           Constructed second canvasId cfg2])%list
    /\ first <> second
    /\ charts pg2 = Some reg2
    /\ reg2 !! canvasId = Some (SChart second)
    /\ registered pg2 canvasId = Some second
    /\ destroy_count first (library pg2) = 1%nat
    /\ destroy_count second (library pg2) = 0%nat
    /\ cfg_data cfg1 = array_or_empty data1
    /\ cfg_data cfg2 = array_or_empty data2.
Proof.
  intros Hwf Hd Hr1 Hr2 lib1 cfg1 made2 Hok1 Hok2.
  pose proof (library_disposed_below pg canvasId Hwf) as Hbelow.
  pose proof (renderChart_drawable host canvasId data1 labels1 color1 pg radius1 Hd Hr1) as E1.
  cbn zeta in E1. fold lib1 cfg1 in E1. rewrite Hok1 in E1.
  set (pg1 := mkPage (document pg)
                     (Some (<[canvasId := SChart (List.length lib1)]>
                              (registry_disposed pg canvasId)))
                     (currentTicker pg)
                     (console pg ++
                        [Log ("[charts.js] renderChart: Created '" +:+ canvasId
                              +:+ "' titled '" +:+ cfg_title cfg1 +:+ "'")])
                     (lib1 ++ [Constructed (List.length lib1) canvasId cfg1])) in *.
  assert (Hd1 : drawable (document pg1) canvasId = true) by exact Hd.
  assert (Hreg1 : registered pg1 canvasId = Some (List.length lib1)).
  { unfold registered, registry_of. cbn. now rewrite lookup_insert_eq. }
  pose proof (renderChart_drawable host canvasId data2 labels2 color2 pg1 radius2 Hd1 Hr2) as E2.
  cbn zeta in E2.
  set (lib2 := (lib1 ++ [Constructed (List.length lib1) canvasId cfg1;
                         Destroyed (List.length lib1)])%list) in *.
  assert (Hlen : List.length lib2 = (List.length lib1 + 2)%nat)
    by (unfold lib2; rewrite length_app; reflexivity).
  assert (Hl2 : library_disposed pg1 canvasId = lib2).
  { unfold library_disposed. rewrite Hreg1. cbn [library pg1]. unfold lib2.
    now rewrite <- app_assoc. }
  rewrite Hl2 in E2.
  change (config_on host pg1 canvasId data2 labels2 color2 radius2) with made2 in E2.
  rewrite Hok2 in E2.
  unfold registry_disposed in E2. rewrite Hreg1 in E2.
  rewrite (bind_normal _ _ _ _ _ E1). rewrite E2.
  eexists. exists (<[canvasId := SChart (List.length lib2)]>
                     (<[canvasId := SNull]> (registry_of pg1))).
  exists (List.length lib1), (List.length lib2), cfg1, made2.
  split; [reflexivity |]. cbn [library charts].
  split; [unfold lib2; now rewrite <- app_assoc |].
  split; [lia |].
  split; [reflexivity |].
  split; [apply lookup_insert_eq |].
  split; [unfold registered, registry_of; cbn; now rewrite lookup_insert_eq |].
  split.
  { unfold lib2. rewrite !destroy_count_app. cbn [destroy_count].
    rewrite Nat.eqb_refl.
    rewrite (destroy_count_fresh (List.length lib1)) by (exact Hbelow || lia). lia. }
  split.
  { rewrite destroy_count_app. cbn [destroy_count]. unfold lib2 at 2.
    rewrite destroy_count_app. cbn [destroy_count].
    rewrite (destroy_count_fresh (List.length lib1) (List.length lib2))
      by (exact Hbelow || lia).
    replace (List.length lib1 =? List.length lib2)%nat with false; [lia |].
    symmetry. apply Nat.eqb_neq. lia. }
  split; reflexivity.
Qed.

(** C7 (amended): the configuration holds the data array (the empty
    sequence when the data is not an array) and the labels array (the empty
    sequence when the labels are not an array); for a data array the point
    radius is 0 exactly when the array holds 10 items or more and 2
    otherwise; for data that is undefined, null or otherwise falsy the
    point radius is 0; and this configuration is the one [renderChart]
    passes to the constructor. *)
Theorem buildConfig_series (host : Host) (title : string) (data labels : jsval)
    (lineColor : string) :
  (forall cfg, buildConfig host title data labels lineColor = Normal cfg ->
     cfg_type cfg = "line"
     /\ cfg_data cfg = array_or_empty data
     /\ cfg_labels cfg = array_or_empty labels)
  /\ (forall items, data = VArr items ->
        exists cfg, buildConfig host title data labels lineColor = Normal cfg
          /\ cfg_data cfg = items
          /\ cfg_pointRadius cfg = if (10 <=? List.length items)%nat then 0 else 2)
  /\ (truthy data = false ->
        exists cfg, buildConfig host title data labels lineColor = Normal cfg
          /\ cfg_data cfg = []
          /\ cfg_pointRadius cfg = 0)
  /\ (forall pg canvasId cfg,
        drawable (document pg) canvasId = true ->
        buildConfig host (chartTitle host canvasId (default EmptyString (currentTicker pg)))
                    data labels lineColor = Normal cfg ->
        exists ev,
          library (snd (renderChart host canvasId data labels lineColor pg))
          = (library_disposed pg canvasId ++ [ev])%list
          /\ (ev = ConstructFailed canvasId cfg
              \/ ev = Constructed (List.length (library_disposed pg canvasId)) canvasId cfg)).
Proof.
  split; [|split; [|split]].
  - intros cfg. unfold buildConfig.
    destruct (pointRadius host data) as [r|]; cbn; [|discriminate].
    intros [= <-]. repeat split.
  - intros items ->. unfold buildConfig. rewrite pointRadius_array. cbn [cbind].
    eexists; split; [reflexivity |]. split; [reflexivity |]. cbn [cfg_pointRadius].
    destruct (Nat.ltb_spec (List.length items) 10),
             (Nat.leb_spec 10 (List.length items)); try reflexivity; lia.
  - intros Hf. unfold buildConfig. rewrite (pointRadius_falsy _ _ Hf). cbn.
    eexists; split; [reflexivity |]. split; [|reflexivity]. cbn.
    destruct data; try reflexivity; discriminate.
  - intros pg canvasId cfg Hd. unfold buildConfig.
    destruct (pointRadius host data) as [r|] eqn:Hr; cbn [cbind]; [|discriminate].
    intros [= <-].
    pose proof (renderChart_drawable host canvasId data labels lineColor pg r Hd Hr) as E.
    cbn zeta in E. rewrite E. unfold config_on.
    destruct (host_Chart_throws _ _ _ _); cbn; eexists; split; eauto.
Qed.

End RendererClaims.

(** ** The performance controller *)

Section ControllerFacts.

Lemma get_opt_field_of (v : jsval) (p : PropName) : get_opt v p = Normal (field_of v p).
Proof. unfold field_of. destruct v, p; reflexivity. Qed.

Lemma get_truthy (v : jsval) (p : PropName) :
  truthy v = true -> get v p = Normal (field_of v p).
Proof. unfold field_of. destruct v, p; try reflexivity; discriminate. Qed.

Lemma metricOrFallback_series (apiData : jsval) (metric : PropName) :
  metricOrFallback apiData metric = Normal (series apiData metric).
Proof. unfold metricOrFallback, series. now rewrite get_opt_field_of. Qed.

Lemma series_truthy (apiData : jsval) (metric : PropName) :
  truthy (series apiData metric) = true.
Proof.
  unfold series, or_else. destruct (truthy (field_of apiData metric)) eqn:E; [exact E | reflexivity].
Qed.

Lemma formatted_series (host : Host) (apiData : jsval) (metric field : PropName)
    (digits : Z) (isPercent : bool) :
  formatted host apiData metric field digits isPercent
  = formatSignedValue host (field_of (series apiData metric) field) digits isPercent.
Proof.
  unfold formatted. rewrite metricOrFallback_series. cbn [cbind].
  now rewrite (get_truthy _ _ (series_truthy apiData metric)).
Qed.

Lemma series_field_series (apiData : jsval) (metric field : PropName) :
  series_field apiData metric field = Normal (field_of (series apiData metric) field).
Proof.
  unfold series_field. rewrite metricOrFallback_series. cbn [cbind].
  apply get_truthy, series_truthy.
Qed.

(** The fetch and its [catch] return normally, with the value of
    [api_result], and only write to the console. *)
Lemma fetchApiData_result (resp : FetchOutcome jsval) (pg : Page) :
  exists logs,
    fetchApiData resp pg = (Normal (api_result resp), with_console (console pg ++ logs) pg).
Proof.
  assert (Hnil : with_console (console pg ++ []) pg = pg)
    by (destruct pg; unfold with_console; cbn; now rewrite app_nil_r).
  unfold fetchApiData, api_result, try_catch, bind, fetch_json.
  destruct resp as [|ok status body].
  - eexists [_]. reflexivity.
  - destruct ok; cbn; [|eexists [_]; reflexivity].
    destruct body as [apiData|]; cbn; [|eexists [_]; reflexivity].
    unfold lift. destruct (get apiData p_error) as [err|e]; cbn.
    + destruct (truthy err); cbn; [eexists [_]; reflexivity |].
      exists []. now rewrite Hnil.
    + eexists [_]. reflexivity.
Qed.

Lemma updateChartCardTextOnly_text (valueId changeId valueStr changeStr : string) (pg : Page) :
  updateChartCardTextOnly valueId changeId (VStr valueStr) (VStr changeStr) pg
  = (Normal tt, with_document (cardText valueId changeId valueStr changeStr) pg).
Proof.
  unfold updateChartCardTextOnly, cardText, bind, getElementById, parentElement, gets,
    set_textContent, classList_remove, classList_add, modify, ret.
  destruct pg as [doc reg tick con lib]. unfold with_document.
  cbn [document charts currentTicker console library].
  destruct (Dom.getElementById valueId doc) as [hv|];
    destruct (Dom.getElementById changeId doc) as [hc|];
    cbn [document charts currentTicker console library]; try reflexivity;
    repeat match goal with
           | |- context [Dom.parentElement ?d ?h] =>
               destruct (Dom.parentElement d h);
               cbn [document charts currentTicker console library]
           | |- context [startsWith ?a ?b] =>
               destruct (startsWith a b);
               cbn [document charts currentTicker console library]
           end; reflexivity.
Qed.

Lemma bind_run {A B : Type} (m : M A) (k : A -> M B) (pg : Page) :
  bind m k pg = match fst (m pg) with
                | Normal a => k a (snd (m pg))
                | Throw e => (Throw e, snd (m pg))
                end.
Proof. unfold bind. now destruct (m pg) as [[a|e] pg']. Qed.

Lemma keeps_document_bind {A B : Type} (m : M A) (k : A -> M B) :
  keeps_document m -> (forall a, keeps_document (k a)) -> keeps_document (bind m k).
Proof.
  intros Hm Hk pg. rewrite bind_run. destruct (fst (m pg)) as [a|e].
  - now rewrite Hk, Hm.
  - apply Hm.
Qed.

Lemma keeps_document_lift {A : Type} (c : completion A) : keeps_document (lift c).
Proof. intros pg. reflexivity. Qed.

Lemma keeps_document_renderSeries (host : Host) (canvasId : string) (s : jsval)
    (color : string) :
  keeps_document (renderSeries host canvasId s color).
Proof.
  unfold renderSeries.
  apply keeps_document_bind; [apply keeps_document_lift | intros values].
  apply keeps_document_bind; [apply keeps_document_lift | intros dates].
  intros pg. apply renderChart_document.
Qed.

Lemma renderSeries_completes (host : Host) (canvasId : string) (s : jsval) (color : string)
    (pg : Page) :
  truthy s = true -> renderable host s ->
  surface_ok (document pg) canvasId = true ->
  fst (renderSeries host canvasId s color pg) = Normal tt.
Proof.
  intros Ht [radius Hr] Hs. unfold renderSeries.
  rewrite (bind_normal _ _ pg pg (field_of s p_values))
    by (unfold lift; now rewrite (get_truthy _ _ Ht)).
  rewrite (bind_normal _ _ pg pg (field_of s p_dates))
    by (unfold lift; now rewrite (get_truthy _ _ Ht)).
  now apply (renderChart_completes _ _ _ _ _ _ radius).
Qed.

End ControllerFacts.

Section ControllerRun.

Lemma formatField_run (host : Host) (apiData : jsval) (metric field : PropName)
    (digits : Z) (isPercent : bool) (r : string) (pg : Page) :
  formatted host apiData metric field digits isPercent = Normal r ->
  formatField host (series apiData metric) field digits isPercent pg = (Normal r, pg).
Proof.
  rewrite formatted_series. intros H. unfold formatField, lift.
  rewrite (get_truthy _ _ (series_truthy apiData metric)). cbn [cbind]. now rewrite H.
Qed.

(** The run of the controller once the eight texts are formatted: the four
    card updates are made, the ticker is set, and the four charts are
    rendered. *)
Lemma controller_tail (host : Host) (resp : FetchOutcome jsval) (ticker : string) (pg : Page)
    (rpVal rpChg zVal zChg aVal aChg caVal caChg : string) :
  formatted host (api_result resp) p_relative_performance p_value 2 true = Normal rpVal ->
  formatted host (api_result resp) p_relative_performance p_change 2 true = Normal rpChg ->
  formatted host (api_result resp) p_moving_z_score p_value 2 false = Normal zVal ->
  formatted host (api_result resp) p_moving_z_score p_change 2 false = Normal zChg ->
  formatted host (api_result resp) p_alpha p_value 3 false = Normal aVal ->
  formatted host (api_result resp) p_alpha p_change 3 false = Normal aChg ->
  formatted host (api_result resp) p_cumulative_alpha p_value 2 false = Normal caVal ->
  formatted host (api_result resp) p_cumulative_alpha p_change 2 false = Normal caChg ->
  exists P,
    loadPerformanceDataAndRenderCharts host resp ticker pg
    = renderAll host (api_result resp) P
    /\ document P
       = apply_updates (performance_updates rpVal rpChg zVal zChg aVal aChg caVal caChg)
                       (document pg)
    /\ library P = library pg
    /\ charts P = charts pg
    /\ currentTicker P = Some ticker.
Proof.
  intros H1 H2 H3 H4 H5 H6 H7 H8.
  set (api := api_result resp) in *.
  unfold loadPerformanceDataAndRenderCharts.
  erewrite bind_normal by reflexivity. cbv beta.
  match goal with
  | |- context [bind (fetchApiData resp) _ ?p] =>
      destruct (fetchApiData_result resp p) as (logs & E)
  end.
  rewrite (bind_normal _ _ _ _ _ E). cbv beta. fold api. clear E.
  rewrite !metricOrFallback_series.
  do 4 (erewrite bind_normal by reflexivity; cbv beta).
  rewrite !(get_truthy _ _ (series_truthy api p_moving_z_score)).
  do 4 (erewrite bind_normal by reflexivity; cbv beta).
  rewrite (bind_normal _ _ _ _ _ (formatField_run _ _ _ _ _ _ _ _ H1)). cbv beta.
  rewrite (bind_normal _ _ _ _ _ (formatField_run _ _ _ _ _ _ _ _ H2)). cbv beta.
  rewrite (bind_normal _ _ _ _ _ (formatField_run _ _ _ _ _ _ _ _ H3)). cbv beta.
  rewrite (bind_normal _ _ _ _ _ (formatField_run _ _ _ _ _ _ _ _ H4)). cbv beta.
  rewrite (bind_normal _ _ _ _ _ (formatField_run _ _ _ _ _ _ _ _ H5)). cbv beta.
  rewrite (bind_normal _ _ _ _ _ (formatField_run _ _ _ _ _ _ _ _ H6)). cbv beta.
  rewrite (bind_normal _ _ _ _ _ (formatField_run _ _ _ _ _ _ _ _ H7)). cbv beta.
  rewrite (bind_normal _ _ _ _ _ (formatField_run _ _ _ _ _ _ _ _ H8)). cbv beta.
  do 4 (rewrite (bind_normal _ _ _ _ _ (updateChartCardTextOnly_text _ _ _ _ _)); cbv beta).
  erewrite bind_normal by reflexivity. cbv beta.
  eexists. split; [reflexivity |]. repeat split.
Qed.

(** The document the controller leaves is the one the four card updates
    produce, and the call returns normally when the four series can be
    rendered. *)
Lemma controller_run (host : Host) (resp : FetchOutcome jsval) (ticker : string) (pg : Page)
    (rpVal rpChg zVal zChg aVal aChg caVal caChg : string) :
  formatted host (api_result resp) p_relative_performance p_value 2 true = Normal rpVal ->
  formatted host (api_result resp) p_relative_performance p_change 2 true = Normal rpChg ->
  formatted host (api_result resp) p_moving_z_score p_value 2 false = Normal zVal ->
  formatted host (api_result resp) p_moving_z_score p_change 2 false = Normal zChg ->
  formatted host (api_result resp) p_alpha p_value 3 false = Normal aVal ->
  formatted host (api_result resp) p_alpha p_change 3 false = Normal aChg ->
  formatted host (api_result resp) p_cumulative_alpha p_value 2 false = Normal caVal ->
  formatted host (api_result resp) p_cumulative_alpha p_change 2 false = Normal caChg ->
  let us := performance_updates rpVal rpChg zVal zChg aVal aChg caVal caChg in
  let run := loadPerformanceDataAndRenderCharts host resp ticker pg in
  document (snd run) = apply_updates us (document pg)
  /\ ((forall m, In m metrics -> renderable host (series (api_result resp) m)) ->
      canvases_ok (apply_updates us (document pg)) = true ->
      fst run = Normal tt).
Proof.
  intros H1 H2 H3 H4 H5 H6 H7 H8 us run. subst run.
  destruct (controller_tail host resp ticker pg _ _ _ _ _ _ _ _ H1 H2 H3 H4 H5 H6 H7 H8)
    as (P & -> & HP & _).
  fold us in HP. set (api := api_result resp) in *. unfold renderAll.
  pose proof (keeps_document_renderSeries host "relativePerformanceChart"
                (series api p_relative_performance) "#1E90FF") as K1.
  pose proof (keeps_document_renderSeries host "movingZScoreChart"
                (series api p_moving_z_score) "#FFA500") as K2.
  pose proof (keeps_document_renderSeries host "alphaChart"
                (series api p_alpha) "#32CD32") as K3.
  pose proof (keeps_document_renderSeries host "cumulativeAlphaChart"
                (series api p_cumulative_alpha) "#9370DB") as K4.
  split.
  - rewrite <- HP.
    apply (keeps_document_bind _ _ K1); intros _.
    apply (keeps_document_bind _ _ K2); intros _.
    apply (keeps_document_bind _ _ K3); intros _.
    exact K4.
  - intros Hr Hc. rewrite <- HP in Hc.
    unfold canvases_ok, canvas_ids in Hc. cbn [forallb] in Hc.
    apply andb_prop in Hc as [C1 Hc]. apply andb_prop in Hc as [C2 Hc].
    apply andb_prop in Hc as [C3 Hc]. apply andb_prop in Hc as [C4 _].
    assert (R1 := Hr p_relative_performance ltac:(cbn; tauto)).
    assert (R2 := Hr p_moving_z_score ltac:(cbn; tauto)).
    assert (R3 := Hr p_alpha ltac:(cbn; tauto)).
    assert (R4 := Hr p_cumulative_alpha ltac:(cbn; tauto)).
    rewrite bind_run.
    rewrite (renderSeries_completes _ _ _ _ _ (series_truthy _ _) R1 C1).
    rewrite bind_run.
    rewrite (renderSeries_completes _ _ _ _ _ (series_truthy _ _) R2)
      by (now rewrite K1).
    rewrite bind_run.
    rewrite (renderSeries_completes _ _ _ _ _ (series_truthy _ _) R3)
      by (now rewrite K2, K1).
    apply (renderSeries_completes _ _ _ _ _ (series_truthy _ _) R4).
    now rewrite K3, K2, K1.
Qed.

End ControllerRun.

(** ** The card updates in sequence *)

Section UpdatesFacts.

Implicit Types (doc : Document) (us : list CardUpdate) (u : CardUpdate).

Lemma slots_of_same_frame doc doc' ids :
  same_frame doc doc' -> slots_of doc ids -> slots_of doc' ids.
Proof.
  intros F H id Hin. destruct (H id Hin) as [h Hs]. exists h.
  exact (slot_same_frame _ _ _ _ F Hs).
Qed.

Lemma slots_of_incl doc ids ids' :
  (forall id, In id ids' -> In id ids) -> slots_of doc ids -> slots_of doc ids'.
Proof. intros Hi H id Hin. apply H, Hi, Hin. Qed.

Lemma slots_of_tail doc (a b : string) ids :
  slots_of doc (a :: b :: ids) -> slots_of doc ids.
Proof. intros H id Hin. apply H. cbn. tauto. Qed.

Lemma update_ids_cons u us :
  update_ids (u :: us) = cu_value_id u :: cu_change_id u :: update_ids us.
Proof. reflexivity. Qed.

Lemma apply_updates_frame us doc :
  List.NoDup (update_ids us) -> slots_of doc (update_ids us) ->
  same_frame doc (apply_updates us doc).
Proof.
  revert doc. induction us as [|u us IH]; intros doc Hnd Hs; [apply same_frame_refl |].
  rewrite update_ids_cons in *.
  apply List.NoDup_cons_iff in Hnd as [Hv Hnd]. apply List.NoDup_cons_iff in Hnd as [Hc Hnd].
  destruct (Hs (cu_value_id u) ltac:(cbn; tauto)) as [hv Sv].
  destruct (Hs (cu_change_id u) ltac:(cbn; tauto)) as [hc Sc].
  assert (Hne : cu_value_id u <> cu_change_id u) by (intros E; apply Hv; cbn; auto).
  destruct (apply_update_slots doc u hv hc Sv Sc Hne) as (F & _).
  cbn [apply_updates fold_left]. fold (apply_updates us (apply_update doc u)).
  apply (same_frame_trans _ _ _ F). apply IH; [exact Hnd |].
  apply (slots_of_same_frame _ _ _ F).
  exact (slots_of_tail _ _ _ _ Hs).
Qed.

(** Elements that are none of the slots keep their content. *)
Lemma apply_updates_content_other us doc x :
  List.NoDup (update_ids us) -> slots_of doc (update_ids us) ->
  (forall id, In id (update_ids us) -> Dom.getElementById id doc <> Some x) ->
  Dom.content (apply_updates us doc) x = Dom.content doc x.
Proof.
  revert doc. induction us as [|u us IH]; intros doc Hnd Hs Hx; [reflexivity |].
  rewrite update_ids_cons in *.
  apply List.NoDup_cons_iff in Hnd as [Hv Hnd]. apply List.NoDup_cons_iff in Hnd as [Hc Hnd].
  destruct (Hs (cu_value_id u) ltac:(cbn; tauto)) as [hv Sv].
  destruct (Hs (cu_change_id u) ltac:(cbn; tauto)) as [hc Sc].
  assert (Hne : cu_value_id u <> cu_change_id u) by (intros E; apply Hv; cbn; auto).
  destruct (apply_update_slots doc u hv hc Sv Sc Hne) as (F & _ & _ & Co & _).
  cbn [apply_updates fold_left]. fold (apply_updates us (apply_update doc u)).
  rewrite IH.
  - apply Co.
    + intros ->. apply (Hx (cu_value_id u)); [cbn; tauto | apply Sv].
    + intros ->. apply (Hx (cu_change_id u)); [cbn; tauto | apply Sc].
  - exact Hnd.
  - apply (slots_of_same_frame _ _ _ F).
    exact (slots_of_tail _ _ _ _ Hs).
  - intros id Hin. destruct F as (F1 & _). rewrite F1. apply Hx. cbn; tauto.
Qed.

(** Elements that are no container of a change slot keep their classes. *)
Lemma apply_updates_classes_other us doc o :
  List.NoDup (update_ids us) -> slots_of doc (update_ids us) ->
  (forall u, In u us -> container_of doc (cu_change_id u) <> Some o) ->
  Dom.classes (apply_updates us doc) o = Dom.classes doc o.
Proof.
  revert doc. induction us as [|u us IH]; intros doc Hnd Hs Ho; [reflexivity |].
  rewrite update_ids_cons in *.
  apply List.NoDup_cons_iff in Hnd as [Hv Hnd]. apply List.NoDup_cons_iff in Hnd as [Hc Hnd].
  destruct (Hs (cu_value_id u) ltac:(cbn; tauto)) as [hv Sv].
  destruct (Hs (cu_change_id u) ltac:(cbn; tauto)) as [hc Sc].
  assert (Hne : cu_value_id u <> cu_change_id u) by (intros E; apply Hv; cbn; auto).
  destruct (apply_update_slots doc u hv hc Sv Sc Hne) as (F & _ & _ & _ & Ko & _).
  cbn [apply_updates fold_left]. fold (apply_updates us (apply_update doc u)).
  rewrite IH.
  - apply Ko. specialize (Ho u ltac:(cbn; tauto)).
    unfold container_of in Ho. now rewrite (proj1 Sc) in Ho.
  - exact Hnd.
  - apply (slots_of_same_frame _ _ _ F).
    exact (slots_of_tail _ _ _ _ Hs).
  - intros u' Hin. specialize (Ho u' ltac:(cbn; tauto)).
    unfold container_of in *. destruct F as (F1 & F2 & _). rewrite F1.
    destruct (Dom.getElementById (cu_change_id u') doc); [now rewrite F2 | exact Ho].
Qed.

Lemma plain_text_text_nodes (s : string) : Dom.plain_text (Dom.text_nodes s) = Some s.
Proof.
  unfold Dom.text_nodes. destruct (String.eqb s EmptyString) eqn:E.
  - apply String.eqb_eq in E. now subst.
  - cbn. now rewrite append_nil_r.
Qed.

Lemma text_of_content doc id h c :
  Dom.getElementById id doc = Some h -> Dom.content doc h = Some c ->
  Dom.text_of doc id = Dom.plain_text c.
Proof.
  intros Hh Hc. unfold Dom.text_of, Dom.content in *. rewrite Hh.
  destruct (Dom.element doc h); [|discriminate]. now injection Hc as ->.
Qed.

(** After the updates every slot shows the trimmed text it was given. *)
Lemma apply_updates_text us doc u :
  List.NoDup (update_ids us) -> slots_of doc (update_ids us) -> In u us ->
  Dom.text_of (apply_updates us doc) (cu_value_id u) = Some (trim (cu_value u))
  /\ Dom.text_of (apply_updates us doc) (cu_change_id u) = Some (trim (cu_change u)).
Proof.
  revert doc. induction us as [|u0 us IH]; intros doc Hnd Hs Hin; [destruct Hin |].
  pose proof Hnd as Hnd0. pose proof Hs as Hs0.
  rewrite update_ids_cons in Hnd, Hs.
  apply List.NoDup_cons_iff in Hnd as [Hv Hnd]. apply List.NoDup_cons_iff in Hnd as [Hc Hnd].
  destruct (Hs (cu_value_id u0) ltac:(cbn; tauto)) as [hv Sv].
  destruct (Hs (cu_change_id u0) ltac:(cbn; tauto)) as [hc Sc].
  assert (Hne : cu_value_id u0 <> cu_change_id u0) by (intros E; apply Hv; cbn; auto).
  destruct (apply_update_slots doc u0 hv hc Sv Sc Hne) as (F & Cv & Cc & _).
  assert (Hs1 : slots_of (apply_update doc u0) (update_ids us)).
  { apply (slots_of_same_frame _ _ _ F).
    exact (slots_of_tail _ _ _ _ Hs). }
  destruct Hin as [-> | Hin].
  - pose proof (apply_updates_frame _ _ Hnd0 Hs0) as (G1 & _).
    assert (Hother : forall id0 h0, slot doc id0 h0 -> ~ In id0 (update_ids us) ->
              forall id, In id (update_ids us) ->
              Dom.getElementById id (apply_update doc u) <> Some h0).
    { intros id0 h0 S0 Hn id Hi Hg. apply Hn.
      destruct F as (F1 & _). rewrite F1 in Hg.
      now rewrite (getElementById_inj _ _ _ _ (proj1 S0) Hg). }
    split.
    + rewrite (text_of_content _ _ hv (Dom.text_nodes (trim (cu_value u)))).
      * apply plain_text_text_nodes.
      * rewrite G1. apply Sv.
      * cbn [apply_updates fold_left]. fold (apply_updates us (apply_update doc u)).
        rewrite (apply_updates_content_other _ _ _ Hnd Hs1); [exact Cv |].
        apply (Hother _ _ Sv). intros Hi. apply Hv. cbn; tauto.
    + rewrite (text_of_content _ _ hc (Dom.text_nodes (trim (cu_change u)))).
      * apply plain_text_text_nodes.
      * rewrite G1. apply Sc.
      * cbn [apply_updates fold_left]. fold (apply_updates us (apply_update doc u)).
        rewrite (apply_updates_content_other _ _ _ Hnd Hs1); [exact Cc |].
        apply (Hother _ _ Sc). exact Hc.
  - cbn [apply_updates fold_left]. fold (apply_updates us (apply_update doc u0)).
    now apply IH.
Qed.

Lemma slot_ok_slot doc id : slot_ok doc id = true -> exists h, slot doc id h.
Proof.
  unfold slot_ok. destruct (Dom.getElementById id doc) as [h|] eqn:E; [|discriminate].
  intros Hl. exists h. split; [exact E | now apply leafb_is_leaf].
Qed.

Lemma slots_ok_slots_of doc : slots_ok doc = true -> slots_of doc (value_ids ++ change_ids).
Proof.
  unfold slots_ok. rewrite forallb_forall. intros H id Hin. apply slot_ok_slot, H, Hin.
Qed.

Lemma performance_ids (a b c d e f g h : string) :
  update_ids (performance_updates a b c d e f g h)
  = ["rp-value"; "rp-change"; "zscore-value"; "zscore-change";
     "alpha-value"; "alpha-change"; "cumulative-alpha-value"; "cumulative-alpha-change"].
Proof. reflexivity. Qed.

Lemma performance_ids_NoDup (a b c d e f g h : string) :
  List.NoDup (update_ids (performance_updates a b c d e f g h)).
Proof.
  rewrite performance_ids.
  repeat (apply List.NoDup_cons; [cbn; intuition discriminate |]). apply List.NoDup_nil.
Qed.

Lemma performance_slots doc (a b c d e f g h : string) :
  slots_ok doc = true -> slots_of doc (update_ids (performance_updates a b c d e f g h)).
Proof.
  intros H%slots_ok_slots_of. rewrite performance_ids.
  apply (slots_of_incl doc (value_ids ++ change_ids)%list); [|exact H].
  intros id Hin. cbn in *. tauto.
Qed.

End UpdatesFacts.

(** ** The performance controller: the claims *)

Section ControllerClaims.

Lemma surface_ok_same_frame (doc doc' : Document) (id : string) :
  same_frame doc doc' -> surface_ok doc' id = surface_ok doc id.
Proof.
  intros (F1 & _ & _ & F4). unfold surface_ok. rewrite F1.
  destruct (Dom.getElementById id doc) as [h|]; [|reflexivity].
  specialize (F4 h).
  destruct (Dom.element doc' h) as [e'|], (Dom.element doc h) as [e|];
    cbn in F4; try discriminate; [|reflexivity].
  now injection F4 as ->.
Qed.

Lemma canvases_ok_same_frame (doc doc' : Document) :
  same_frame doc doc' -> canvases_ok doc' = canvases_ok doc.
Proof.
  intros F. unfold canvases_ok, canvas_ids. cbn [forallb].
  now rewrite !(surface_ok_same_frame _ _ _ F).
Qed.

Lemma container_classes_classes (doc : Document) (id : string) :
  Dom.container_classes doc id = classes_of_container doc id.
Proof.
  unfold Dom.container_classes, classes_of_container, container_of, Dom.classes.
  destruct (Dom.getElementById id doc) as [h|]; [|reflexivity].
  destruct (Dom.parentElement doc h) as [o|]; [|reflexivity].
  now destruct (Dom.element doc o).
Qed.

Lemma api_result_failure (resp : FetchOutcome jsval) :
  (resp = FetchRejected
   \/ (exists status body, resp = FetchResponse false status body)
   \/ (exists status apiData err,
         resp = FetchResponse true status (Some apiData)
         /\ get apiData p_error = Normal err /\ truthy err = true)) ->
  api_result resp = VNull.
Proof.
  intros [-> | [(status & body & ->) | (status & apiData & err & -> & Hg & Ht)]];
    try reflexivity.
  unfold api_result. now rewrite Hg, Ht.
Qed.

Lemma api_result_success (status : Z) (apiData err : jsval) :
  get apiData p_error = Normal err -> truthy err = false ->
  api_result (FetchResponse true status (Some apiData)) = apiData.
Proof. intros Hg Ht. unfold api_result. now rewrite Hg, Ht. Qed.

Lemma formatted_fallback (host : Host) (apiData : jsval) (metric field : PropName)
    (digits : Z) (isPercent : bool) :
  truthy (field_of apiData metric) = false ->
  field = p_value \/ field = p_change ->
  formatted host apiData metric field digits isPercent
  = formatSignedValue host (VNum (of_Z 0)) digits isPercent.
Proof.
  intros Ht Hf. rewrite formatted_series. unfold series, or_else. rewrite Ht.
  now destruct Hf as [-> | ->].
Qed.

Lemma formatted_present (host : Host) (apiData : jsval) (metric field : PropName)
    (digits : Z) (isPercent : bool) :
  truthy (field_of apiData metric) = true ->
  formatted host apiData metric field digits isPercent
  = formatSignedValue host (field_of (field_of apiData metric) field) digits isPercent.
Proof. intros Ht. rewrite formatted_series. unfold series, or_else. now rewrite Ht. Qed.

Lemma format_zero (host : Host) :
  formatSignedValue host (VNum (of_Z 0)) 2 true = Normal "+0.00%"
  /\ formatSignedValue host (VNum (of_Z 0)) 2 false = Normal "+0.00"
  /\ formatSignedValue host (VNum (of_Z 0)) 3 false = Normal "+0.000".
Proof. repeat split; vm_compute; reflexivity. Qed.

Lemma renderable_fallback (host : Host) : renderable host fallback.
Proof. exists 2. reflexivity. Qed.

(** C2 (amended): when the fetch is rejected, the status is not a success,
    or the payload has a truthy error field, every metric is the zero-valued
    fallback and the call returns normally; the value and change slots show
    "+0.00%" for relative performance, "+0.00" for the z-score and the
    cumulative alpha, and "+0.000" for alpha, which is formatted with three
    decimals. *)
Theorem controller_fetch_failure (host : Host) (resp : FetchOutcome jsval) (ticker : string)
    (pg : Page) :
  (resp = FetchRejected
   \/ (exists status body, resp = FetchResponse false status body)
   \/ (exists status apiData err,
         resp = FetchResponse true status (Some apiData)
         /\ get apiData p_error = Normal err /\ truthy err = true)) ->
  slots_ok (document pg) = true ->
  canvases_ok (document pg) = true ->
  exists pg',
    loadPerformanceDataAndRenderCharts host resp ticker pg = (Normal tt, pg')
    /\ (forall m, In m metrics -> metricOrFallback (api_result resp) m = Normal fallback)
    /\ Dom.text_of (document pg') "rp-value" = Some "+0.00%"
    /\ Dom.text_of (document pg') "rp-change" = Some "+0.00%"
    /\ Dom.text_of (document pg') "zscore-value" = Some "+0.00"
    /\ Dom.text_of (document pg') "zscore-change" = Some "+0.00"
    /\ Dom.text_of (document pg') "alpha-value" = Some "+0.000"
    /\ Dom.text_of (document pg') "alpha-change" = Some "+0.000"
    /\ Dom.text_of (document pg') "cumulative-alpha-value" = Some "+0.00"
    /\ Dom.text_of (document pg') "cumulative-alpha-change" = Some "+0.00".
Proof.
  intros Hfail Hslots Hcanvas.
  pose proof (api_result_failure resp Hfail) as Hapi.
  destruct (format_zero host) as (Z1 & Z2 & Z3).
  assert (F : forall m f d p, formatted host (api_result resp) m f d p
                              = formatSignedValue host (field_of fallback f) d p).
  { intros m f d p. rewrite formatted_series, Hapi. now destruct m. }
  set (us := performance_updates "+0.00%" "+0.00%" "+0.00" "+0.00" "+0.000" "+0.000"
                                 "+0.00" "+0.00").
  destruct (controller_run host resp ticker pg
              "+0.00%" "+0.00%" "+0.00" "+0.00" "+0.000" "+0.000" "+0.00" "+0.00")
    as (Hdoc & Hfst); try (rewrite F; assumption).
  fold us in Hdoc, Hfst.
  pose proof (performance_ids_NoDup "+0.00%" "+0.00%" "+0.00" "+0.00" "+0.000" "+0.000"
                                    "+0.00" "+0.00") as Hnd.
  pose proof (performance_slots _ "+0.00%" "+0.00%" "+0.00" "+0.00" "+0.000" "+0.000"
                                "+0.00" "+0.00" Hslots) as Hs.
  fold us in Hnd, Hs.
  destruct (loadPerformanceDataAndRenderCharts host resp ticker pg) as [c pg'] eqn:Erun.
  cbn [fst snd] in *.
  exists pg'. split.
  - rewrite Hfst; [reflexivity | |].
    + intros m _. rewrite Hapi. destruct m; apply renderable_fallback.
    + now rewrite (canvases_ok_same_frame _ _ (apply_updates_frame _ _ Hnd Hs)).
  - split; [intros m _; rewrite Hapi; now destruct m |].
    rewrite Hdoc.
    pose proof (fun u Hu => apply_updates_text us (document pg) u Hnd Hs Hu) as T.
    destruct (T (mkCardUpdate "rp-value" "rp-change" "+0.00%" "+0.00%")
                ltac:(cbn; tauto)) as [T1 T2].
    destruct (T (mkCardUpdate "zscore-value" "zscore-change" "+0.00" "+0.00")
                ltac:(cbn; tauto)) as [T3 T4].
    destruct (T (mkCardUpdate "alpha-value" "alpha-change" "+0.000" "+0.000")
                ltac:(cbn; tauto)) as [T5 T6].
    destruct (T (mkCardUpdate "cumulative-alpha-value" "cumulative-alpha-change"
                              "+0.00" "+0.00")
                ltac:(cbn; tauto)) as [T7 T8].
    repeat split; assumption.
Qed.

End ControllerClaims.

Section SampleClaim.

Lemma containers_distinct (doc : Document) :
  containers_ok doc = true ->
  exists o, container_of doc "rp-change" = Some o
    /\ container_of doc "zscore-change" <> Some o
    /\ container_of doc "alpha-change" <> Some o
    /\ container_of doc "cumulative-alpha-change" <> Some o.
Proof.
  unfold containers_ok. intros [Hex Hnd]%andb_prop.
  apply bool_decide_eq_true in Hnd. cbn [List.map change_ids] in Hnd.
  cbn [forallb change_ids] in Hex.
  destruct (container_of doc "rp-change") as [o|]; [|discriminate].
  exists o. split; [reflexivity |].
  apply NoDup_cons in Hnd as [Hn _].
  repeat split; intros E; apply Hn; rewrite <- E; set_solver.
Qed.

Lemma add_class_positive (cls : list string) :
  In "positive" (Dom.add_class "positive" (Dom.remove_classes ["positive"; "negative"] cls))
  /\ ~ In "negative" (Dom.add_class "positive"
                                    (Dom.remove_classes ["positive"; "negative"] cls)).
Proof.
  set (kept := Dom.remove_classes ["positive"; "negative"] cls).
  assert (Hneg : ~ In "negative" kept).
  { unfold kept, Dom.remove_classes. intros [_ H]%filter_In. discriminate H. }
  unfold Dom.add_class.
  destruct (existsb (Dom.token_eqb "positive") kept) eqn:E.
  - split; [|exact Hneg].
    apply existsb_exists in E as (c & Hin & Hc). unfold Dom.token_eqb in Hc.
    apply String.eqb_eq in Hc. now subst c.
  - split.
    + apply in_or_app. right. now left.
    + intros [H | [H | []]]%in_app_or; [now apply Hneg | discriminate H].
Qed.

(** C3 (amended): for a payload without a truthy error field whose
    relative-performance series is the sample of the spec, and whose other
    metrics format without an error, the relative-performance value slot
    shows "-5.00%", its change slot shows "+1.00%", and the container of
    the change slot carries the class [positive] and not [negative]: the
    class follows the sign of the change, not the sign of the value. *)
Theorem controller_sample_payload (host : Host) (status : Z) (apiData err : jsval)
    (ticker : string) (pg : Page) (zVal zChg aVal aChg caVal caChg : string) :
  get apiData p_error = Normal err -> truthy err = false ->
  field_of apiData p_relative_performance = sample_relative_performance ->
  formatted host apiData p_moving_z_score p_value 2 false = Normal zVal ->
  formatted host apiData p_moving_z_score p_change 2 false = Normal zChg ->
  formatted host apiData p_alpha p_value 3 false = Normal aVal ->
  formatted host apiData p_alpha p_change 3 false = Normal aChg ->
  formatted host apiData p_cumulative_alpha p_value 2 false = Normal caVal ->
  formatted host apiData p_cumulative_alpha p_change 2 false = Normal caChg ->
  slots_ok (document pg) = true ->
  containers_ok (document pg) = true ->
  let pg' := snd (loadPerformanceDataAndRenderCharts
                    host (FetchResponse true status (Some apiData)) ticker pg) in
  Dom.text_of (document pg') "rp-value" = Some "-5.00%"
  /\ Dom.text_of (document pg') "rp-change" = Some "+1.00%"
  /\ exists cls,
       Dom.container_classes (document pg') "rp-change" = Some cls
       /\ In "positive" cls /\ ~ In "negative" cls.
Proof.
  intros Hg Ht Hrp H3 H4 H5 H6 H7 H8 Hslots Hcont pg'. subst pg'.
  set (resp := FetchResponse true status (Some apiData)).
  assert (Hapi : api_result resp = apiData) by exact (api_result_success _ _ _ Hg Ht).
  assert (H1 : formatted host (api_result resp) p_relative_performance p_value 2 true
               = Normal "-5.00%").
  { rewrite Hapi, formatted_present by now rewrite Hrp. rewrite Hrp.
    vm_compute. reflexivity. }
  assert (H2 : formatted host (api_result resp) p_relative_performance p_change 2 true
               = Normal "+1.00%").
  { rewrite Hapi, formatted_present by now rewrite Hrp. rewrite Hrp.
    vm_compute. reflexivity. }
  rewrite <- Hapi in H3, H4, H5, H6, H7, H8.
  destruct (controller_run host resp ticker pg _ _ _ _ _ _ _ _ H1 H2 H3 H4 H5 H6 H7 H8)
    as (Hdoc & _).
  set (us := performance_updates "-5.00%" "+1.00%" zVal zChg aVal aChg caVal caChg) in *.
  pose proof (performance_ids_NoDup "-5.00%" "+1.00%" zVal zChg aVal aChg caVal caChg) as Hnd.
  pose proof (performance_slots _ "-5.00%" "+1.00%" zVal zChg aVal aChg caVal caChg Hslots)
    as Hs.
  fold us in Hnd, Hs. rewrite Hdoc.
  destruct (apply_updates_text us (document pg)
              (mkCardUpdate "rp-value" "rp-change" "-5.00%" "+1.00%") Hnd Hs
              ltac:(cbn; tauto)) as [T1 T2].
  split; [exact T1 |]. split; [exact T2 |].
  (* the classes of the container *)
  destruct (containers_distinct _ Hcont) as (o & Ho & Nz & Na & Nc).
  pose proof (apply_updates_frame _ _ Hnd Hs) as F.
  rewrite container_classes_classes. unfold classes_of_container.
  assert (Hcf : container_of (apply_updates us (document pg)) "rp-change" = Some o).
  { unfold container_of in *. destruct F as (F1 & F2 & _). rewrite F1.
    destruct (Dom.getElementById "rp-change" (document pg)); [now rewrite F2 | exact Ho]. }
  rewrite Hcf.
  destruct (Hs "rp-value" ltac:(cbn; tauto)) as [hv Sv].
  destruct (Hs "rp-change" ltac:(cbn; tauto)) as [hc Sc].
  set (u := mkCardUpdate "rp-value" "rp-change" "-5.00%" "+1.00%").
  destruct (apply_update_slots (document pg) u hv hc Sv Sc ltac:(discriminate))
    as (F1 & _ & _ & _ & _ & K).
  assert (Hpo : Dom.parentElement (document pg) hc = Some o).
  { unfold container_of in Ho. now rewrite (proj1 Sc) in Ho. }
  assert (Hcls : exists cls0, Dom.classes (document pg) o = Some cls0).
  { unfold Dom.parentElement in Hpo. unfold Dom.classes.
    destruct (Dom.element (document pg) hc) as [ec|]; [|discriminate].
    destruct (el_parent ec) as [p|]; [|discriminate].
    destruct (Dom.element (document pg) p) as [ep|] eqn:Ep; [|discriminate].
    injection Hpo as ->. rewrite Ep. now eexists. }
  destruct Hcls as [cls0 Hcls0].
  specialize (K o cls0 Hpo Hcls0). cbn [cu_change u] in K.
  change (startsWith "-" "+1.00%") with false in K. cbv iota in K.
  exists (Dom.add_class "positive" (Dom.remove_classes ["positive"; "negative"] cls0)).
  split; [|apply add_class_positive].
  rewrite <- K.
  change (apply_updates us (document pg))
    with (apply_updates (List.tl us) (apply_update (document pg) u)).
  apply apply_updates_classes_other.
  - pose proof Hnd as Hnd'. unfold us in Hnd'. rewrite performance_ids in Hnd'.
    apply List.NoDup_cons_iff in Hnd' as [_ Hnd']. apply List.NoDup_cons_iff in Hnd' as [_ Hnd'].
    exact Hnd'.
  - apply (slots_of_same_frame _ _ _ F1). unfold us in Hs.
    exact (slots_of_tail _ _ _ _ Hs).
  - intros u' Hin. destruct F1 as (G1 & G2 & _).
    assert (E : container_of (apply_update (document pg) u) (cu_change_id u')
                = container_of (document pg) (cu_change_id u')).
    { unfold container_of. rewrite G1.
      destruct (Dom.getElementById (cu_change_id u') (document pg)); [apply G2 | reflexivity]. }
    rewrite E. cbn in Hin. destruct Hin as [<- | [<- | [<- | []]]]; assumption.
Qed.

End SampleClaim.

Section FrameFacts.

Lemma drawable_same_frame (doc doc' : Document) (id : string) :
  same_frame doc doc' -> drawable doc' id = drawable doc id.
Proof.
  intros (F1 & _ & _ & F4). unfold drawable. rewrite F1.
  destruct (Dom.getElementById id doc) as [h|]; [|reflexivity].
  specialize (F4 h).
  destruct (Dom.element doc' h) as [e'|], (Dom.element doc h) as [e|];
    cbn in F4; try discriminate; [|reflexivity].
  now injection F4 as ->.
Qed.

End FrameFacts.

(** ** The article cards *)

Section ArticleFacts.

Implicit Types (doc : Document) (h : nat).

Lemma find_id_erase id (gone : nat -> bool) doc i h :
  Dom.find_id id doc i = Some h -> gone (h - i)%nat = false ->
  Dom.find_id id (erase gone doc) i = Some h.
Proof.
  revert gone i. induction doc as [|a doc IH]; intros gone i; [discriminate |].
  unfold erase. cbn [imap Dom.find_id]. fold (erase (gone ∘ S) doc).
  destruct a as [e|].
  - destruct (Dom.has_id id e) eqn:Hid.
    + intros [= ->]. rewrite Nat.sub_diag. intros ->. cbn. now rewrite Hid.
    + intros Hf Hg. pose proof (find_id_bounds _ _ _ _ Hf) as Hb.
      assert (Hg' : (gone ∘ S) (h - S i)%nat = false).
      { cbn. now replace (S (h - S i)) with (h - i)%nat by lia. }
      destruct (gone 0%nat); cbn; [|rewrite Hid]; now apply IH.
  - intros Hf Hg. pose proof (find_id_bounds _ _ _ _ Hf) as Hb.
    assert (Hg' : (gone ∘ S) (h - S i)%nat = false).
    { cbn. now replace (S (h - S i)) with (h - i)%nat by lia. }
    destruct (gone 0%nat); cbn; now apply IH.
Qed.

Lemma remove_descendants_erase doc h :
  Dom.remove_descendants h doc
  = erase (fun i => negb (i =? h)%nat
                    && Dom.has_ancestor (List.length doc) doc h i) doc.
Proof. reflexivity. Qed.

Lemma element_remove_descendants_self doc h :
  Dom.element (Dom.remove_descendants h doc) h = Dom.element doc h.
Proof.
  unfold Dom.element, Dom.remove_descendants. rewrite list_lookup_imap.
  rewrite Nat.eqb_refl. cbn. now destruct (doc !! h).
Qed.

(** Replacing the children of the element found under an id: the element
    is still found under the id, with the new children. *)
Lemma replace_children_self id doc h c :
  Dom.getElementById id doc = Some h ->
  Dom.getElementById id (Dom.replace_children h c doc) = Some h
  /\ Dom.content (Dom.replace_children h c doc) h = Some c.
Proof.
  intros Hh. destruct (getElementById_element _ _ _ Hh) as (e & He & _).
  unfold Dom.replace_children. rewrite He. split.
  - rewrite getElementById_update by apply keeps_skeleton_content.
    rewrite remove_descendants_erase. unfold Dom.getElementById.
    apply find_id_erase; [exact Hh |].
    rewrite Nat.sub_0_r, Nat.eqb_refl. reflexivity.
  - rewrite content_update. destruct (decide (h = h)) as [_|Hn]; [|contradiction].
    now rewrite element_remove_descendants_self, He.
Qed.

Lemma appendChild_self id doc h n c :
  Dom.getElementById id doc = Some h -> Dom.content doc h = Some c ->
  Dom.getElementById id (Dom.appendChild h n doc) = Some h
  /\ Dom.content (Dom.appendChild h n doc) h = Some (c ++ [n])%list.
Proof.
  intros Hh Hc. unfold Dom.appendChild. split.
  - rewrite getElementById_update; [exact Hh | intros e; repeat split].
  - rewrite content_update. destruct (decide (h = h)) as [_|Hn]; [|contradiction].
    unfold Dom.content in Hc. destruct (Dom.element doc h) as [e|]; [|discriminate].
    cbn in *. now injection Hc as ->.
Qed.

Lemma appendChildren_self id (f : Article -> Node) (articles : list Article) doc h c :
  Dom.getElementById id doc = Some h -> Dom.content doc h = Some c ->
  let doc' := fold_left (fun d a => Dom.appendChild h (f a) d) articles doc in
  Dom.getElementById id doc' = Some h
  /\ Dom.content doc' h = Some (c ++ List.map f articles)%list.
Proof.
  revert doc c. induction articles as [|a rest IH]; intros doc c Hh Hc; cbn.
  - rewrite app_nil_r. now split.
  - destruct (appendChild_self id doc h (f a) c Hh Hc) as [Hh1 Hc1].
    destruct (IH _ _ Hh1 Hc1) as [Hh2 Hc2]. split; [exact Hh2 |].
    rewrite Hc2. now rewrite <- app_assoc.
Qed.

Lemma children_of_content id doc h :
  Dom.getElementById id doc = Some h -> Dom.children_of doc id = Dom.content doc h.
Proof. intros Hh. unfold Dom.children_of, Dom.content. now rewrite Hh. Qed.

Lemma forEach_appendChild (f : Article -> Node) (articles : list Article) (h : nat)
    (pg : Page) :
  forEach articles (fun a => appendChild h (f a)) pg
  = (Normal tt,
     with_document (fun d => fold_left (fun d a => Dom.appendChild h (f a) d) articles d) pg).
Proof.
  revert pg. induction articles as [|a rest IH]; intros pg.
  - destruct pg. reflexivity.
  - cbn [forEach fold_left]. unfold bind at 1. unfold appendChild at 1, modify.
    rewrite IH. reflexivity.
Qed.

(** The run of [loadFmpArticles] on a successful response. *)
Lemma loadFmpArticles_run (host : Host) (status : Z) (payload : FmpPayload) (pg : Page)
    (h : nat) :
  Dom.getElementById "fmp-articles-container" (document pg) = Some h ->
  exists pg',
    loadFmpArticles host (FetchResponse true status (Some payload)) pg = (Normal tt, pg')
    /\ document pg' = articles_document host payload h (document pg).
Proof.
  intros Hh. unfold loadFmpArticles.
  erewrite bind_normal by reflexivity. cbv beta.
  erewrite bind_normal
    by (unfold getElementById, gets; cbn [document with_console]; rewrite Hh; reflexivity).
  cbv beta iota.
  erewrite bind_normal by reflexivity. cbv beta.
  erewrite bind_normal by reflexivity. cbv beta iota.
  unfold articles_document.
  destruct payload as [[|first others]|].
  - eexists. split; reflexivity.
  - erewrite bind_normal by reflexivity. cbv beta.
    rewrite forEach_appendChild. eexists. split; reflexivity.
  - eexists. split; reflexivity.
Qed.

Lemma card_count_cards (host : Host) (articles : list Article) :
  card_count (List.map (articleCard host) articles) = List.length articles.
Proof.
  unfold card_count. induction articles as [|a rest IH]; [reflexivity |].
  cbn [List.map List.filter]. unfold articleCard at 1. cbn [is_card].
  change (String.eqb "div" "div" && String.eqb "fmp-article-card" "fmp-article-card")
    with true. cbn [List.length]. now rewrite IH.
Qed.

Lemma card_image_articleCard (host : Host) (article : Article) :
  card_image (articleCard host article) = Some (text_or (art_image article) placeholder).
Proof. reflexivity. Qed.

Lemma indexOf_first (p s : string) (i : nat) :
  first_occurrence p s i -> indexOf p s = Z.of_nat i.
Proof.
  revert s. induction i as [|i IH]; intros s [Hat Hbefore].
  - destruct s; cbn in Hat; cbn [indexOf]; now rewrite Hat.
  - pose proof (Hbefore 0%nat ltac:(lia)) as H0.
    destruct s as [|c s].
    + cbn in Hat, H0. congruence.
    + cbn [JsString.drop] in Hat, H0. cbn [indexOf]. rewrite H0.
      rewrite (IH s).
      * cbn zeta. destruct (Z.ltb_spec (Z.of_nat i) 0); lia.
      * split; [exact Hat |]. intros j Hj. exact (Hbefore (S j) ltac:(lia)).
Qed.

Lemma indexOf_none (p s : string) : no_occurrence p s -> indexOf p s = -1.
Proof.
  unfold no_occurrence. induction s as [|c s IH]; intros Hno.
  - pose proof (Hno 0%nat) as H0. cbn in H0. cbn [indexOf]. now rewrite H0.
  - pose proof (Hno 0%nat) as H0. cbn [JsString.drop] in H0. cbn [indexOf]. rewrite H0.
    rewrite IH; [reflexivity |]. intros j. exact (Hno (S j)).
Qed.

(** The snippet of a content: cut after the first closing paragraph tag
    when that tag is not at the very start of the content. *)
Lemma snippet_cut (content : string) (i : nat) :
  first_occurrence "</p>" content i -> (0 < i)%nat ->
  snippet (Some content) = take (i + 4) content.
Proof.
  intros Hfirst Hi. unfold snippet.
  assert (E : text_or (Some content) EmptyString = content).
  { unfold text_or. destruct (String.eqb_spec content EmptyString); congruence. }
  rewrite E. cbv zeta. rewrite (indexOf_first _ _ _ Hfirst).
  destruct (Z.ltb_spec 0 (Z.of_nat i)); [|lia].
  unfold slice0. destruct (Z.ltb_spec (Z.of_nat i + 4) 0); [lia |].
  f_equal. lia.
Qed.

Lemma snippet_whole (content : string) :
  no_occurrence "</p>" content \/ first_occurrence "</p>" content 0 ->
  snippet (Some content) = content.
Proof.
  intros H. unfold snippet.
  assert (E : text_or (Some content) EmptyString = content).
  { unfold text_or. destruct (String.eqb_spec content EmptyString); congruence. }
  rewrite E. cbv zeta.
  destruct H as [H | H];
    [rewrite (indexOf_none _ _ H) | rewrite (indexOf_first _ _ _ H)]; reflexivity.
Qed.

End ArticleFacts.

Section ArticleClaims.

(** C5: after a successful response, an empty array or a value that is not
    an array leaves the "no articles" message and no card in the container;
    an array of N >= 1 articles leaves exactly the N cards of the articles,
    in response order, in place of the earlier content; and the card of an
    article without an image shows the placeholder asset. *)
Theorem loadFmpArticles_cards (host : Host) (status : Z) (payload : FmpPayload) (pg : Page)
    (h : nat) :
  Dom.getElementById "fmp-articles-container" (document pg) = Some h ->
  exists pg' children,
    loadFmpArticles host (FetchResponse true status (Some payload)) pg = (Normal tt, pg')
    /\ Dom.children_of (document pg') "fmp-articles-container" = Some children
    /\ (payload = FmpNotArray \/ payload = FmpArray [] ->
        children = [Markup "<p>No FMP articles available.</p>"]
        /\ card_count children = 0%nat)
    /\ (forall articles, payload = FmpArray articles -> articles <> [] ->
        children = List.map (articleCard host) articles
        /\ card_count children = List.length articles
        /\ forall article, In article articles ->
             field_truthy (art_image article) = false ->
             card_image (articleCard host article) = Some placeholder).
Proof.
  intros Hh.
  destruct (loadFmpArticles_run host status payload pg h Hh) as (pg' & Erun & Hdoc).
  exists pg'.
  set (id := "fmp-articles-container") in *.
  set (loading := Dom.set_innerHTML h "<p>Loading latest market articles...</p>" (document pg)).
  destruct (replace_children_self id (document pg) h
              (Dom.markup "<p>Loading latest market articles...</p>") Hh) as [Hh1 _].
  fold (Dom.set_innerHTML h "<p>Loading latest market articles...</p>" (document pg)) in Hh1.
  fold loading in Hh1.
  assert (Hmsg : forall doc', doc' = Dom.set_innerHTML h "<p>No FMP articles available.</p>" loading ->
            Dom.children_of doc' id = Some [Markup "<p>No FMP articles available.</p>"]).
  { intros doc' ->.
    destruct (replace_children_self id loading h
                (Dom.markup "<p>No FMP articles available.</p>") Hh1) as [Hh2 Hc2].
    unfold Dom.set_innerHTML. now rewrite (children_of_content _ _ _ Hh2), Hc2. }
  destruct payload as [[|first others]|]; unfold articles_document in Hdoc; fold loading in Hdoc.
  - exists [Markup "<p>No FMP articles available.</p>"].
    split; [exact Erun |]. split; [now apply Hmsg |].
    split; [intros _; now split | intros articles [= <-] Hne; contradiction].
  - exists (List.map (articleCard host) (first :: others)).
    split; [exact Erun |].
    destruct (replace_children_self id loading h (Dom.markup EmptyString) Hh1) as [Hh2 Hc2].
    fold (Dom.set_innerHTML h EmptyString loading) in Hh2, Hc2.
    destruct (appendChildren_self id (articleCard host) (first :: others) _ h _ Hh2 Hc2)
      as [Hh3 Hc3].
    cbv zeta in Hh3, Hc3. rewrite <- Hdoc in Hh3, Hc3.
    split; [now rewrite (children_of_content _ _ _ Hh3), Hc3 |].
    split; [intros [H | H]; discriminate H |].
    intros articles [= <-] _.
    split; [reflexivity |]. split; [apply card_count_cards |].
    intros article _ Himg. rewrite card_image_articleCard.
    unfold text_or, field_truthy in *.
    destruct (art_image article) as [img|]; [|reflexivity].
    destruct (String.eqb img EmptyString); [reflexivity | discriminate].
  - exists [Markup "<p>No FMP articles available.</p>"].
    split; [exact Erun |]. split; [now apply Hmsg |].
    split; [intros _; now split | intros articles [=]].
Qed.

(** C6, at the failing input: for a content that starts with the closing
    paragraph tag, [indexOf] returns 0, the test [closingP > 0] fails, and
    the snippet is the whole content, not the content cut after the tag; so
    it is for every content that starts with the tag.  When the first tag
    is at a later offset the snippet is the content up to and including
    that tag, and without a tag it is the whole content. *)
Theorem snippet_leading_closing_tag :
  indexOf "</p>" "</p>abc" = 0
  /\ snippet (Some "</p>abc") = "</p>abc"
  /\ card_snippet (articleCard Template.host Template.article_odd) = Some [Markup "</p>abc"]
  /\ snippet (Some "<p>a</p>abc") = "<p>a</p>"
  /\ (forall rest, snippet (Some ("</p>" +:+ rest)) = "</p>" +:+ rest)
  /\ (forall content i, first_occurrence "</p>" content i -> (0 < i)%nat ->
        snippet (Some content) = take (i + 4) content)
  /\ (forall content, no_occurrence "</p>" content -> snippet (Some content) = content).
Proof.
  do 4 (split; [reflexivity |]).
  split; [|split].
  - intros rest. apply snippet_whole. right. split; [reflexivity | intros j Hj; lia].
  - exact snippet_cut.
  - intros content H. apply snippet_whole. now left.
Qed.

End ArticleClaims.

(** ** The value formatter: numbers from 10^21 on *)

Section LargeNumbers.

Lemma shortest_from_start (fuel : nat) (X : Z) (n0 k0 : nat) (s : Z) (k : nat) :
  shortest_from fuel X n0 k0 = Some (s, k) -> (k0 <= k)%nat.
Proof.
  revert k0. induction fuel as [|fuel IH]; intros k0; cbn [shortest_from]; [discriminate |].
  destruct (nearest_candidate _ _ _) as [s'|].
  - intros [= _ <-]. lia.
  - intros H%IH. lia.
Qed.

Lemma exponent_form_notation (s : Z) (k : nat) (e : Z) :
  (1 <= k)%nat -> exponent_notation (exponent_form s k e).
Proof.
  intros Hk. unfold exponent_form.
  pose proof (length_fixed_digits k s) as Hl.
  pose proof (all_digits_fixed_digits k s) as Hd.
  destruct (fixed_digits k s) as [|c r]; [cbn in Hl; lia |].
  cbn [all_digits] in Hd. apply andb_true_iff in Hd as [Hc Hr].
  exists c, r, e. split; [exact Hc |]. split; [exact Hr |].
  destruct r as [|c1 r1]; reflexivity.
Qed.

Lemma exponent_notation_not_fixed (d : nat) (body : string) :
  exponent_notation body -> is_fixed d body = false.
Proof.
  intros (c & more & e & Hc & Hm & ->). unfold is_fixed.
  destruct more as [|c1 r].
  - cbn [append span_digits]. rewrite Hc.
    change (is_digit "e") with false. cbv iota beta.
    destruct d; reflexivity.
  - change (String c ("." +:+ String c1 r) +:+ "e+" +:+ decimal e)
      with (String c EmptyString +:+ String "."%char (String c1 r +:+ "e+" +:+ decimal e)).
    rewrite span_digits_point by (cbn; now rewrite Hc).
    destruct d; [reflexivity |].
    rewrite all_digits_append. rewrite Hm.
    change (all_digits ("e+" +:+ decimal e)) with false.
    reflexivity.
Qed.

Lemma round_half_even_floor (n d : Z) : n / d <= round_half_even n d.
Proof.
  unfold round_half_even.
  destruct (2 * (n mod d) <? d); [lia |].
  destruct (d <? 2 * (n mod d)); [lia |].
  destruct (Z.even (n / d)); lia.
Qed.

(** The double nearest to a rational of at least [10^21] is infinite or an
    integer of at least 1. *)
Lemma to_double_large (a : Z) (d : positive) :
  10 ^ 21 * Zpos d <= a ->
  to_double (Qmake a d) = PosInf
  \/ exists v, to_double (Qmake a d) = Fin v /\ 0 < Qnum v / Zpos (Qden v).
Proof.
  intros Hbig. unfold to_double. cbn [Qnum Qden].
  assert (Ha : 0 < a) by lia.
  replace (a =? 0) with false by (symmetry; apply Z.eqb_neq; lia).
  replace (a <? 0) with false by (symmetry; apply Z.ltb_ge; lia).
  rewrite (Z.abs_eq a) by lia.
  set (la := Z.log2 a). set (ld := Z.log2 (Zpos d)).
  assert (Hld : 0 <= ld) by apply Z.log2_nonneg.
  assert (Hla : ld + 69 <= la).
  { unfold la, ld.
    pose proof (Z.log2_mul_pow2 (Zpos d) 69 ltac:(lia) ltac:(lia)) as E.
    assert (Hle : Zpos d * 2 ^ 69 <= a)
      by (change (2 ^ 69) with 590295810358705651712; lia).
    apply Z.log2_le_mono in Hle. lia. }
  destruct (Z.log2_spec a Ha) as [Ha1 Ha2]. fold la in Ha1, Ha2.
  destruct (Z.log2_spec (Zpos d) ltac:(lia)) as [Hd1 Hd2]. fold ld in Hd1, Hd2.
  set (t := la - ld).
  replace (0 <=? t) with true by (symmetry; apply Z.leb_le; unfold t; lia).
  set (b := if Z.pos d * 2 ^ t <=? a then t else t - 1).
  assert (Hb : t - 1 <= b <= t) by (unfold b; destruct (_ <=? _); lia).
  set (e := Z.max (b - 52) (-1074)).
  assert (He : e = b - 52) by (unfold e, t in *; lia).
  replace (0 <=? e) with true by (symmetry; apply Z.leb_le; unfold t in *; lia).
  set (m := round_half_even a (Z.pos d * 2 ^ e)).
  assert (Hm : 1 <= m).
  { pose proof (round_half_even_floor a (Z.pos d * 2 ^ e)) as Hf. fold m in Hf.
    assert (Hpow : Z.pos d * 2 ^ e <= a).
    { assert (H1 : 2 ^ Z.succ ld * 2 ^ e <= 2 ^ la).
      { rewrite <- Z.pow_add_r by (unfold t in *; lia).
        apply Z.pow_le_mono_r; unfold t in *; lia. }
      assert (0 < 2 ^ e) by (apply Z.pow_pos_nonneg; unfold t in *; lia).
      nia. }
    assert (0 < Z.pos d * 2 ^ e).
    { assert (0 < 2 ^ e) by (apply Z.pow_pos_nonneg; unfold t in *; lia). nia. }
    assert (1 <= a / (Z.pos d * 2 ^ e)) by (apply Z.div_le_lower_bound; lia).
    lia. }
  destruct (2 ^ 1024 <=? m * 2 ^ e); [now left |].
  right. eexists. split; [reflexivity |].
  set (z := m * 2 ^ e).
  assert (Hz : 1 <= z).
  { unfold z. assert (0 < 2 ^ e) by (apply Z.pow_pos_nonneg; unfold t in *; lia). nia. }
  pose proof (Qred_correct (inject_Z z)) as Hq. unfold Qeq in Hq. cbn [Qnum Qden inject_Z] in Hq.
  rewrite Z.mul_1_r in Hq. rewrite Hq, Z.div_mul by lia. lia.
Qed.

(** The text of a number of at least [10^21]: "Infinity" beyond the range of
    the doubles, and exponent notation within it. *)
Lemma toString_large_notation (a : Z) (d : positive) :
  10 ^ 21 * Zpos d <= a ->
  (to_double (Qmake a d) = PosInf /\ toString_large (Qmake a d) = "Infinity")
  \/ (is_finite (to_double (Qmake a d)) = true
      /\ exponent_notation (toString_large (Qmake a d))).
Proof.
  intros Hbig. unfold toString_large.
  destruct (to_double_large a d Hbig) as [-> | (v & -> & Hv)]; [now left |].
  right. split; [reflexivity |].
  set (X := Qnum v / Zpos (Qden v)) in *.
  pose proof (ndigits_pos X Hv) as Hn.
  destruct (eq_value _ _); [now apply exponent_form_notation |].
  destruct (shortest_from 17 X (ndigits X) 1) as [[s k]|] eqn:Hs.
  - apply exponent_form_notation. exact (shortest_from_start _ _ _ _ _ _ Hs).
  - now apply exponent_form_notation.
Qed.

Lemma toString_large_not_fixed (a : Z) (d : positive) (digits : nat) :
  10 ^ 21 * Zpos d <= a -> is_fixed digits (toString_large (Qmake a d)) = false.
Proof.
  intros Hbig.
  destruct (toString_large_notation a d Hbig) as [[_ ->] | [_ H]].
  - now destruct digits.
  - now apply exponent_notation_not_fixed.
Qed.

Lemma Qabs_large (q : Q) :
  Qle (inject_Z (10 ^ 21)) (Qabs q) -> 10 ^ 21 * Zpos (Qden q) <= Z.abs (Qnum q).
Proof. destruct q as [n d]. unfold Qle, Qabs. simpl. lia. Qed.

Lemma Qabs_fraction (q : Q) : Qabs q = Qmake (Z.abs (Qnum q)) (Qden q).
Proof. now destruct q. Qed.

(** The text [formatSignedValue] returns for a number of at least [10^21]. *)
Lemma formatSignedValue_large (host : Host) (v : Q) (d : Z) (p : bool) :
  0 <= d <= 100 ->
  10 ^ 21 * Zpos (Qden v) <= Z.abs (Qnum v) ->
  formatSignedValue host (VNum (Fin v)) d p
  = Normal ((if Qle_bool 0 v then "+" else "-")
            +:+ toString_large (Qabs v) +:+ (if p then "%" else "")).
Proof.
  intros Hd Hbig. rewrite Qle_bool_num, Qabs_fraction.
  unfold formatSignedValue, isNaN, ge0, call_toFixed, toFixed. cbn [ToNumber cbind ge_zero].
  replace ((d <? 0) || (100 <? d)) with false
    by (symmetry; apply orb_false_intro; [apply Z.ltb_ge | apply Z.ltb_ge]; lia).
  replace (10 ^ 21 * Z.pos (Qden v) <=? Z.abs (Qnum v)) with true
    by (symmetry; apply Z.leb_le; lia).
  cbn [cbind].
  destruct (0 <=? Qnum v) eqn:E1, (Qnum v <? 0) eqn:E2; cbn; try reflexivity.
  - apply Z.leb_le in E1. apply Z.ltb_lt in E2. lia.
  - apply Z.leb_gt in E1. apply Z.ltb_ge in E2. lia.
Qed.

End LargeNumbers.

(** ** The value formatter: the claim *)

Section FormatterClaim.

(** C1 (amended): for every finite number [v] and every digits count
    [0 <= d <= 100], [formatSignedValue] returns a text that begins with
    "+" when [v >= 0] and with "-" when [v < 0] and ends with "%" exactly
    when [p] is true; when [|v| < 10^21] the text between sign and percent
    has exactly [d] decimal places, and its digits spell the integer
    nearest to [|v| * 10^d] (the larger one on a tie); when [|v| >= 10^21]
    it is not in fixed notation, and for every [v] in the range of the
    doubles it is in exponent notation.  A digits count outside [0..100]
    raises a RangeError.  The text "12.3%" formats to "+12.30%", and every
    text that [parseFloat] reads as NaN formats to "+0.00", or "+0.00%"
    when [p] is true, whatever [d] is. *)
Theorem formatSignedValue_signed_fixed (host : Host) :
  (forall (v : Q) (d : Z) (p : bool),
     0 <= d <= 100 ->
     exists r body,
       formatSignedValue host (VNum (Fin v)) d p = Normal r
       /\ r = (if Qle_bool 0 v then "+" else "-") +:+ body +:+ (if p then "%" else "")
       /\ first_char r = Some (if Qle_bool 0 v then "+" else "-")%char
       /\ ends_with_percent r = p
       /\ (Qlt (Qabs v) (inject_Z (10 ^ 21)) ->
           is_fixed (Z.to_nat d) body = true
           /\ Qlt (Qabs v * inject_Z (10 ^ d) - (1 # 2)) (inject_Z (digits_of body))
           /\ Qle (inject_Z (digits_of body)) (Qabs v * inject_Z (10 ^ d) + (1 # 2)))
       /\ (Qle (inject_Z (10 ^ 21)) (Qabs v) ->
           is_fixed (Z.to_nat d) body = false
           /\ (is_finite (to_double (Qabs v)) = true -> exponent_notation body)))
  /\ (forall (v : Q) (d : Z) (p : bool),
        d < 0 \/ 100 < d -> formatSignedValue host (VNum (Fin v)) d p = Throw RangeError)
  /\ formatSignedValue host (VStr "12.3%") 2 true = Normal "+12.30%"
  /\ formatSignedValue host (VStr "not-a-number") 2 false = Normal "+0.00"
  /\ (forall (s : string) (d : Z) (p : bool),
        parseFloat (replace "%" "" s) = NaN ->
        formatSignedValue host (VStr s) d p = Normal (if p then "+0.00%" else "+0.00")).
Proof.
  split; [|split; [|split; [|split]]].
  - intros v d p Hd.
    destruct (Z.lt_ge_cases (Z.abs (Qnum v)) (10 ^ 21 * Zpos (Qden v))) as [Hs | Hl].
    + destruct (formatSignedValue_number host v d p Hd) as (body & E & Hp & Hf).
      eexists. exists body. split; [exact E |]. split; [reflexivity |].
      split; [now destruct (Qle_bool 0 v) |].
      split; [now apply ends_with_percent_format |].
      split; [exact Hf |].
      intros Hbig%Qabs_large. lia.
    + eexists. exists (toString_large (Qabs v)).
      split; [exact (formatSignedValue_large host v d p Hd Hl) |].
      split; [reflexivity |].
      split; [now destruct (Qle_bool 0 v) |].
      split; [apply ends_with_percent_format, toString_large_plain_end |].
      split; [intros Hsmall%Qabs_small; lia |].
      intros _. rewrite Qabs_fraction. split.
      * now apply toString_large_not_fixed.
      * intros Hfin.
        destruct (toString_large_notation _ (Qden v) Hl) as [[Hinf _] | [_ H]]; [|exact H].
        rewrite Hinf in Hfin. discriminate.
  - intros v d p Hd. unfold formatSignedValue, isNaN, ge0. cbn.
    unfold toFixed.
    replace ((d <? 0) || (100 <? d)) with true; [reflexivity |].
    symmetry. apply orb_true_iff. destruct Hd; [left; apply Z.ltb_lt | right; apply Z.ltb_lt]; lia.
  - vm_compute. reflexivity.
  - vm_compute. reflexivity.
  - intros s d p. apply formatSignedValue_text_nan.
Qed.

End FormatterClaim.

(** ** The claims on the page of the template *)

Section Instances.

(** C1 as stated fails: a magnitude of [10^21] is printed in exponent
    notation, not with two decimal places, and 101 digits raise a
    RangeError. *)
Lemma formatSignedValue_exponent_notation :
  formatSignedValue Template.host (VNum (of_Z (10 ^ 21))) 2 false = Normal "+1e+21"
  /\ is_fixed 2 "1e+21" = false
  /\ formatSignedValue Template.host (VNum (of_Z 1)) 101 false = Throw RangeError.
Proof. repeat split; vm_compute; reflexivity. Qed.

Lemma formatSignedValue_signed_fixed_witness :
  exists r body,
    formatSignedValue Template.host (VNum (Fin (-5 # 1))) 2 true = Normal r
    /\ r = "-" +:+ body +:+ "%"
    /\ is_fixed 2 body = true.
Proof.
  destruct (proj1 (formatSignedValue_signed_fixed Template.host) (-5 # 1)%Q 2 true
                  ltac:(lia))
    as (r & body & E & Er & _ & _ & Hf & _).
  exists r, body. split; [exact E |]. split; [exact Er |].
  refine (proj1 (Hf _)). vm_compute. reflexivity.
Defined.

(** C2 as stated fails: after a rejected fetch the alpha slot shows
    "+0.000", with the three decimals of the alpha row; and a payload whose
    error field is present but empty is not treated as an error. *)
Lemma controller_fallback_alpha_text :
  Dom.text_of
    (document (snd (loadPerformanceDataAndRenderCharts
                      Template.host FetchRejected "IBM" Template.page)))
    "alpha-value" = Some "+0.000"
  /\ Dom.text_of
       (document (snd (loadPerformanceDataAndRenderCharts
                         Template.host
                         (FetchResponse true 200 (Some Template.payload_empty_error))
                         "IBM" Template.page)))
       "alpha-value" = Some "+1.000".
Proof. split; vm_compute; reflexivity. Qed.

Lemma controller_fetch_failure_witness :
  exists pg',
    loadPerformanceDataAndRenderCharts Template.host FetchRejected "IBM" Template.page
    = (Normal tt, pg')
    /\ Dom.text_of (document pg') "rp-value" = Some "+0.00%"
    /\ Dom.text_of (document pg') "alpha-value" = Some "+0.000".
Proof.
  destruct (controller_fetch_failure Template.host FetchRejected "IBM" Template.page
              (or_introl eq_refl) eq_refl eq_refl)
    as (pg' & E & _ & T1 & _ & _ & _ & T5 & _).
  exists pg'. split; [exact E |]. split; [exact T1 | exact T5].
Defined.

(** C3 as stated fails: with the sample payload the container of the
    relative-performance change slot carries [positive], the sign of the
    change "+1.00%", and not [negative]. *)
Lemma controller_sample_container_positive :
  Dom.container_classes
    (document (snd (loadPerformanceDataAndRenderCharts
                      Template.host (FetchResponse true 200 (Some Template.payload_sample))
                      "IBM" Template.page)))
    "rp-change" = Some ["chart-change"; "positive"]
  /\ Dom.text_of
       (document (snd (loadPerformanceDataAndRenderCharts
                         Template.host (FetchResponse true 200 (Some Template.payload_sample))
                         "IBM" Template.page)))
       "rp-value" = Some "-5.00%".
Proof. split; vm_compute; reflexivity. Qed.

Lemma controller_sample_payload_witness :
  exists cls,
    Dom.container_classes
      (document (snd (loadPerformanceDataAndRenderCharts
                        Template.host (FetchResponse true 200 (Some Template.payload_sample))
                        "IBM" Template.page)))
      "rp-change" = Some cls
    /\ In "positive" cls /\ ~ In "negative" cls.
Proof.
  exact (proj2 (proj2
    (controller_sample_payload Template.host 200 Template.payload_sample VUndef "IBM"
       Template.page "+0.00" "+0.00" "+0.000" "+0.000" "+0.00" "+0.00"
       eq_refl eq_refl eq_refl
       ltac:(vm_compute; reflexivity) ltac:(vm_compute; reflexivity)
       ltac:(vm_compute; reflexivity) ltac:(vm_compute; reflexivity)
       ltac:(vm_compute; reflexivity) ltac:(vm_compute; reflexivity)
       ltac:(vm_compute; reflexivity) ltac:(vm_compute; reflexivity)))).
Defined.

Lemma renderChart_twice_witness :
  exists pg2 first second,
    (renderChart strict_host "alphaChart" (VArr [VNum (of_Z 1)]) (VArr [VStr "Jan"]) "#32CD32" ;;
     renderChart strict_host "alphaChart" (VArr []) (VArr []) "#32CD32") Template.page
    = (Normal tt, pg2)
    /\ registered pg2 "alphaChart" = Some second
    /\ first <> second
    /\ destroy_count first (library pg2) = 1%nat.
Proof.
  destruct (renderChart_twice strict_host "alphaChart"
              (VArr [VNum (of_Z 1)]) (VArr [VStr "Jan"]) "#32CD32"
              (VArr []) (VArr []) "#32CD32" Template.page 2 2
              eq_refl eq_refl eq_refl eq_refl eq_refl eq_refl)
    as (pg2 & reg2 & first & second & cfg1 & cfg2 & E & _ & Hne & _ & _ & Hreg & Hcount & _).
  exists pg2, first, second. split; [exact E |]. split; [exact Hreg |].
  split; [exact Hne | exact Hcount].
Defined.

Lemma loadFmpArticles_cards_witness :
  exists pg' children,
    loadFmpArticles Template.host
      (FetchResponse true 200 (Some (FmpArray [Template.article_plain; Template.article_odd])))
      Template.page = (Normal tt, pg')
    /\ Dom.children_of (document pg') "fmp-articles-container" = Some children
    /\ card_count children = 2%nat.
Proof.
  destruct (loadFmpArticles_cards Template.host 200
              (FmpArray [Template.article_plain; Template.article_odd]) Template.page 1%nat
              eq_refl)
    as (pg' & children & E & Hc & _ & Hn).
  exists pg', children. split; [exact E |]. split; [exact Hc |].
  exact (proj1 (proj2 (Hn _ eq_refl ltac:(discriminate)))).
Defined.

(** C7 as stated fails: for data that is undefined the series is empty,
    shorter than 10, and yet the point radius is 0. *)
Lemma buildConfig_missing_data :
  buildConfig Template.host "Alpha" VUndef VUndef "#32CD32"
  = Normal (mkChartConfig "line" [] "Alpha" [] "#32CD32" 0 "Alpha" false).
Proof. reflexivity. Qed.

Lemma buildConfig_series_witness :
  exists cfg,
    buildConfig Template.host "Alpha" (VArr [VNum (of_Z 1); VNum (of_Z 2)]) (VArr []) "#32CD32"
    = Normal cfg
    /\ cfg_data cfg = [VNum (of_Z 1); VNum (of_Z 2)]
    /\ cfg_pointRadius cfg = 2.
Proof.
  exact (proj1 (proj2 (buildConfig_series Template.host "Alpha"
                         (VArr [VNum (of_Z 1); VNum (of_Z 2)]) (VArr []) "#32CD32"))
               _ eq_refl).
Defined.

(** C8 as stated fails: the id of the relative-performance value slot names
    an element that is not a canvas, so no drawable surface exists at it,
    and the call throws a TypeError instead of logging and returning. *)
Lemma renderChart_on_other_element :
  renderChart Template.host "rp-value" (VArr []) (VArr []) "#fff" Template.page
  = (Throw TypeError, Template.page)
  /\ drawable (document Template.page) "rp-value" = false.
Proof. split; vm_compute; reflexivity. Qed.

Lemma renderChart_without_surface_witness :
  exists msg pg',
    renderChart Template.host "volumeChart" (VArr []) (VArr []) "#fff" Template.page
    = (Normal tt, pg')
    /\ console pg' = [LogError msg]
    /\ charts pg' = None.
Proof.
  destruct (proj1 (renderChart_without_surface Template.host "volumeChart" (VArr []) (VArr [])
                     "#fff" Template.page) (or_introl eq_refl))
    as (msg & pg' & E & Hc & Hr & _).
  exists msg, pg'. split; [exact E |]. split; [exact Hc | exact Hr].
Defined.

Lemma renderChart_failed_replacement_witness :
  exists pg',
    renderChart Template.failing_host "alphaChart" (VArr []) (VArr []) "#32CD32"
                Template.page_with_chart = (Normal tt, pg')
    /\ registered pg' "alphaChart" = None.
Proof.
  destruct (renderChart_failed_replacement Template.failing_host "alphaChart"
              (VArr []) (VArr []) "#32CD32" Template.page_with_chart 0%nat 2
              ltac:(vm_compute; reflexivity) ltac:(vm_compute; reflexivity)
              eq_refl eq_refl)
    as (pg' & reg' & E & _ & _ & _ & Hreg).
  exists pg'. split; [exact E | exact Hreg].
Defined.


End Instances.

(** * Further properties of the code *)

(** ** The value formatter: edge cases *)

Section FormatterEdges.
Lemma visible_ws_width (c : ascii) (r : string) :
  visible c = true -> ws_width (String c r) = 0%nat.
Proof.
  unfold visible. cbv zeta. intros H.
  apply andb_true_iff in H as [H1 H2].
  apply Nat.leb_le in H1. apply Nat.leb_le in H2.
  unfold ws_width. set (n := nat_of_ascii c) in *.
  assert (E1 : (n <=? 13)%nat = false) by (apply Nat.leb_gt; lia).
  assert (E2 : (n =? 32)%nat = false) by (apply Nat.eqb_neq; lia).
  assert (E3 : (n =? 194)%nat = false) by (apply Nat.eqb_neq; lia).
  assert (E4 : (n =? 225)%nat = false) by (apply Nat.eqb_neq; lia).
  assert (E5 : (n =? 226)%nat = false) by (apply Nat.eqb_neq; lia).
  assert (E6 : (n =? 227)%nat = false) by (apply Nat.eqb_neq; lia).
  assert (E7 : (n =? 239)%nat = false) by (apply Nat.eqb_neq; lia).
  cbv zeta. rewrite E1, E2, andb_false_r. cbn [orb].
  destruct r as [|c1 [|c2 r2]]; try reflexivity.
  - now rewrite E3.
  - now rewrite E3, E4, E5, E6, E7.
Qed.

Lemma trimStart_visible (c : ascii) (r : string) :
  visible c = true -> trimStart (String c r) = String c r.
Proof.
  intros H. unfold trimStart. cbn [String.length trimStart_fuel].
  now rewrite (visible_ws_width c r H).
Qed.

Lemma trimmed_length_visible (s : string) :
  all_visible s = true -> trimmed_length s = String.length s.
Proof.
  induction s as [|c r IH]; [reflexivity |].
  cbn [all_visible]. intros [Hc Hr]%andb_true_iff.
  cbn [trimmed_length String.length]. rewrite (trimStart_visible c r Hc).
  cbn. now rewrite IH.
Qed.

Lemma take_all (s : string) : take (String.length s) s = s.
Proof. induction s as [|c r IH]; cbn; [reflexivity | now rewrite IH]. Qed.

(** [trim] leaves a text of visible characters as it is. *)
Lemma trim_visible (s : string) : all_visible s = true -> trim s = s.
Proof.
  intros H. unfold trim.
  assert (E : trimStart s = s).
  { destruct s as [|c r]; [reflexivity |].
    cbn [all_visible] in H. apply andb_true_iff in H as [Hc _].
    now apply trimStart_visible. }
  rewrite E. unfold trimEnd. rewrite (trimmed_length_visible s H). apply take_all.
Qed.

Lemma all_visible_append (a b : string) :
  all_visible (a +:+ b) = all_visible a && all_visible b.
Proof.
  induction a as [|c a IH]; simpl; [reflexivity |]. now rewrite IH, andb_assoc.
Qed.

Lemma is_digit_visible (c : ascii) : is_digit c = true -> visible c = true.
Proof.
  unfold is_digit, visible. cbv zeta.
  intros [H1 H2]%andb_true_iff. apply Nat.leb_le in H1. apply Nat.leb_le in H2.
  apply andb_true_iff. split; apply Nat.leb_le; lia.
Qed.

Lemma all_digits_visible (s : string) : all_digits s = true -> all_visible s = true.
Proof.
  induction s as [|c r IH]; [reflexivity |]. cbn [all_digits all_visible].
  intros [Hc Hr]%andb_true_iff. now rewrite (is_digit_visible c Hc), IH.
Qed.

Lemma exponent_form_visible (s : Z) (k : nat) (e : Z) :
  all_visible (exponent_form s k e) = true.
Proof.
  unfold exponent_form.
  pose proof (all_digits_visible _ (all_digits_fixed_digits k s)) as Hd.
  pose proof (all_digits_visible _ (all_digits_decimal e)) as He.
  destruct (fixed_digits k s) as [|c [|c1 r]]; [reflexivity | |].
  - cbn [all_visible] in Hd. apply andb_true_iff in Hd as [Hc _].
    rewrite !all_visible_append. cbn [all_visible]. now rewrite Hc, He.
  - cbn [all_visible] in Hd. apply andb_true_iff in Hd as [Hc Hr].
    rewrite !all_visible_append. cbn [all_visible] in *. now rewrite Hc, Hr, He.
Qed.

Lemma toString_large_visible (q : Q) : all_visible (toString_large q) = true.
Proof.
  unfold toString_large. destruct (to_double q) as [| | |v]; try reflexivity.
  destruct (eq_value _ _); [apply exponent_form_visible |].
  destruct (shortest_from _ _ _ _) as [[s k]|]; apply exponent_form_visible.
Qed.

Lemma toFixed_visible (x : number) (d : Z) (body : string) :
  toFixed x d = Normal body -> all_visible body = true.
Proof.
  unfold toFixed. destruct ((d <? 0) || (100 <? d)); [discriminate |].
  destruct x as [| | |q]; try (intros [= <-]; reflexivity).
  cbv zeta.
  assert (Hs : all_visible (if Qnum q <? 0 then "-" else "") = true)
    by (destruct (Qnum q <? 0); reflexivity).
  destruct (10 ^ 21 * Z.pos (Qden q) <=? Z.abs (Qnum q)).
  { intros [= <-]. now rewrite all_visible_append, Hs, toString_large_visible. }
  set (n := (2 * Z.abs (Qnum q) * 10 ^ d + Z.pos (Qden q)) / (2 * Z.pos (Qden q))).
  pose proof (all_digits_decimal n) as Hn.
  destruct (Z.to_nat d =? 0)%nat.
  { intros [= <-]. now rewrite all_visible_append, Hs, (all_digits_visible _ Hn). }
  set (m := if (String.length (decimal n) <=? Z.to_nat d)%nat
            then zeros (Z.to_nat d + 1 - String.length (decimal n)) +:+ decimal n
            else decimal n).
  assert (Hm : all_digits m = true).
  { unfold m. destruct (_ <=? _)%nat; [|exact Hn].
    now rewrite all_digits_append, all_digits_zeros, Hn. }
  intros [= <-]. rewrite !all_visible_append, Hs. cbn [all_visible andb].
  rewrite (all_digits_visible _ (all_digits_take _ _ Hm)).
  now rewrite (all_digits_visible _ (all_digits_drop _ _ Hm)).
Qed.

Lemma formatSignedValue_visible (host : Host) (val : jsval) (d : Z) (p : bool) (r : string) :
  formatSignedValue host val d p = Normal r -> all_visible r = true.
Proof.
  unfold formatSignedValue.
  set (num := match val with VStr s => VNum (parseFloat (replace "%" "" s)) | _ => val end).
  destruct (isNaN host num) as [[|]|]; cbn [cbind]; try discriminate.
  { intros [= <-]. now destruct p. }
  destruct (ge0 host num) as [nonneg|]; cbn [cbind]; [|discriminate].
  destruct (call_toFixed num d) as [body|] eqn:E; cbn [cbind]; [|discriminate].
  intros [= <-].
  assert (Hb : all_visible body = true).
  { unfold call_toFixed in E. destruct num; try discriminate. now apply toFixed_visible in E. }
  rewrite !all_visible_append, Hb. now destruct nonneg, p.
Qed.

Lemma zeros_snoc (k : nat) : zeros k +:+ "0" = zeros (S k).
Proof. induction k as [|k IH]; [reflexivity |]. cbn [zeros]. simpl. now rewrite IH. Qed.

Lemma toFixed_tiny (q : Q) (d : Z) :
  0 <= d <= 100 ->
  2 * Z.abs (Qnum q) * 10 ^ d < Zpos (Qden q) ->
  toFixed (Fin q) d = Normal ((if Qnum q <? 0 then "-" else "") +:+ zero_digits (Z.to_nat d)).
Proof.
  intros Hd Ht. unfold toFixed.
  replace ((d <? 0) || (100 <? d)) with false
    by (symmetry; apply orb_false_iff; split; apply Z.ltb_ge; lia).
  cbv zeta.
  assert (HP : 1 <= 10 ^ d) by (pose proof (Z.pow_pos_nonneg 10 d); lia).
  pose proof (Z.abs_nonneg (Qnum q)) as Ha.
  destruct (Z.leb_spec (10 ^ 21 * Z.pos (Qden q)) (Z.abs (Qnum q))) as [Hbig|_]; [nia |].
  replace ((2 * Z.abs (Qnum q) * 10 ^ d + Z.pos (Qden q)) / (2 * Z.pos (Qden q))) with 0
    by (symmetry; apply Z.div_small; lia).
  change (decimal 0) with "0".
  destruct (Z.to_nat d) as [|f] eqn:Ef; [reflexivity |].
  cbn [Nat.eqb String.length]. 
  replace (1 <=? S f)%nat with true by (symmetry; apply Nat.leb_le; lia).
  replace (S f + 1 - 1)%nat with (S f) by lia.
  rewrite zeros_snoc. rewrite length_zeros.
  replace (S (S f) - S f)%nat with 1%nat by lia.
  reflexivity.
Qed.

Lemma Qabs_tiny (v : Q) (d : Z) :
  0 <= d ->
  Qlt (Qabs v * inject_Z (10 ^ d)) (1 # 2) -> 2 * Z.abs (Qnum v) * 10 ^ d < Zpos (Qden v).
Proof.
  intros Hd. destruct v as [a b]. unfold Qlt, Qabs, Qmult, inject_Z. cbn [Qnum Qden].
  rewrite ?Pos2Z.inj_mul, ?Pos.mul_1_r. lia.
Qed.

(** X2: a finite value whose magnitude is below half a unit of the last
    printed place prints as zero with the sign of the value: a small
    negative value prints as "-0.00", not as "+0.00". *)
Theorem formatSignedValue_tiny (host : Host) (v : Q) (d : Z) (p : bool) :
  0 <= d <= 100 ->
  Qlt (Qabs v * inject_Z (10 ^ d)) (1 # 2) ->
  formatSignedValue host (VNum (Fin v)) d p
  = Normal ((if Qle_bool 0 v then "+" else "-") +:+ zero_digits (Z.to_nat d)
            +:+ (if p then "%" else "")).
Proof.
  intros Hd Ht. apply Qabs_tiny in Ht; [|lia].
  unfold formatSignedValue, isNaN, ge0, call_toFixed. cbn [ToNumber cbind ge_zero].
  rewrite (toFixed_tiny v d Hd Ht). cbn [cbind].
  rewrite Qle_bool_num.
  destruct (Z.leb_spec 0 (Qnum v)), (Z.ltb_spec (Qnum v) 0); try lia; reflexivity.
Qed.

(** X1: values that are neither numbers nor strings.  [undefined] and NaN
    give the fallback text; [null] and the booleans pass the NaN test and
    then have no [toFixed], so the call throws a TypeError; no other value
    is ever formatted as a number; the infinities print as "+Infinity" and
    "-Infinity". *)
Theorem formatSignedValue_other_values (host : Host) (d : Z) (p : bool) :
  formatSignedValue host VUndef d p = Normal (fallback_text p)
  /\ formatSignedValue host (VNum NaN) d p = Normal (fallback_text p)
  /\ formatSignedValue host VNull d p = Throw TypeError
  /\ (forall b, formatSignedValue host (VBool b) d p = Throw TypeError)
  /\ (forall val r,
        match val with VNum _ | VStr _ => False | _ => True end ->
        formatSignedValue host val d p = Normal r -> r = fallback_text p)
  /\ (0 <= d <= 100 ->
      formatSignedValue host (VNum PosInf) d p
      = Normal ("+Infinity" +:+ (if p then "%" else ""))
      /\ formatSignedValue host (VNum NegInf) d p
         = Normal ("-Infinity" +:+ (if p then "%" else ""))).
Proof.
  split; [reflexivity |]. split; [reflexivity |]. split; [reflexivity |].
  split; [intros []; reflexivity |]. split.
  - intros val r Hval. unfold formatSignedValue.
    destruct val; try contradiction; cbn [isNaN ToNumber cbind];
      try (intros [= <-]; reflexivity); try discriminate.
    all: unfold isNaN, ge0, call_toFixed; cbn [ToNumber];
      destruct (host_ToNumber host _) as [[| | |q]|]; cbn [cbind];
      try discriminate; intros [= <-]; reflexivity.
  - intros Hd. unfold formatSignedValue, isNaN, ge0, call_toFixed, toFixed.
    cbn [ToNumber cbind ge_zero].
    replace ((d <? 0) || (100 <? d)) with false
      by (symmetry; apply orb_false_iff; split; apply Z.ltb_ge; lia).
    split; reflexivity.
Qed.

(** X3: a text returned by [formatSignedValue] holds visible characters
    only, so the [trim] of [updateChartCardTextOnly] leaves it as it is. *)
Theorem formatSignedValue_no_white_space (host : Host) (val : jsval) (d : Z) (p : bool)
    (r : string) :
  formatSignedValue host val d p = Normal r -> all_visible r = true /\ trim r = r.
Proof.
  intros H. apply formatSignedValue_visible in H. split; [exact H | now apply trim_visible].
Qed.

End FormatterEdges.

(** ** The text of the chart cards: updates as alterations *)

Section CardEdges.

Implicit Types (doc : Document) (h x : nat) (f g : Element -> Element).

Lemma update_alter doc h f : Dom.update h f doc = alter (fmap f) h doc.
Proof.
  apply list_eq. intros x. unfold Dom.update, Dom.element.
  destruct (decide (x = h)) as [->|Hx].
  - rewrite list_lookup_alter_eq.
    destruct (doc !! h) as [[e|]|] eqn:E; cbn; try (now rewrite E).
    rewrite list_lookup_insert_eq; [reflexivity |]. now apply lookup_lt_Some in E.
  - rewrite list_lookup_alter_ne by congruence.
    destruct (doc !! h) as [[e|]|]; try reflexivity.
    now rewrite list_lookup_insert_ne by congruence.
Qed.

Lemma update_update doc h f g :
  Dom.update h f (Dom.update h g doc) = Dom.update h (fun e => f (g e)) doc.
Proof.
  rewrite !update_alter, list_alter_alter_eq. apply list_alter_ext; [|reflexivity].
  intros [e|] _; reflexivity.
Qed.

Lemma update_comm doc h h' f g :
  h <> h' -> Dom.update h f (Dom.update h' g doc) = Dom.update h' g (Dom.update h f doc).
Proof. intros Hne. rewrite !update_alter. now apply list_alter_alter_ne. Qed.

Lemma update_ext doc h f g : (forall e, f e = g e) -> Dom.update h f doc = Dom.update h g doc.
Proof.
  intros H. rewrite !update_alter. apply list_alter_ext; [|reflexivity].
  intros [e|] _; cbn; [now rewrite H | reflexivity].
Qed.

(** The document [updateChartCardTextOnly] leaves when both ids name
    leaves. *)
Lemma cardText_slots doc (vid cid sv sc : string) hv hc :
  slot doc vid hv -> slot doc cid hc -> vid <> cid ->
  cardText vid cid sv sc doc
  = let doc2 := Dom.update hc (Dom.set_content_of (Dom.text_nodes (trim sc)))
                  (Dom.update hv (Dom.set_content_of (Dom.text_nodes (trim sv))) doc) in
    match Dom.parentElement doc hc with
    | Some outer =>
        Dom.update outer (Dom.add_token (if startsWith "-" sc then "negative" else "positive"))
          (Dom.update outer (Dom.remove_tokens ["positive"; "negative"]) doc2)
    | None => doc2
    end.
Proof.
  intros Hv Hc Hne. cbv zeta.
  set (doc1 := Dom.update hv (Dom.set_content_of (Dom.text_nodes (trim sv))) doc).
  assert (F1 : same_frame doc doc1) by apply same_frame_update, keeps_skeleton_content.
  assert (Hc1 : slot doc1 cid hc) by exact (slot_same_frame _ _ _ _ F1 Hc).
  assert (Hp1 : Dom.parentElement doc1 hc = Dom.parentElement doc hc) by apply F1.
  unfold cardText. rewrite (proj1 Hv), (proj1 Hc).
  rewrite (set_textContent_slot _ _ _ _ Hv). fold doc1.
  rewrite (set_textContent_slot _ _ _ _ Hc1). now rewrite Hp1.
Qed.

Lemma parent_not_leaf doc h o :
  Dom.parentElement doc h = Some o -> ~ Dom.is_leaf doc o.
Proof.
  unfold Dom.parentElement. destruct (Dom.element doc h) as [e|] eqn:E; [|discriminate].
  destruct (el_parent e) as [p|] eqn:P; [|discriminate].
  destruct (Dom.element doc p); [|discriminate]. intros [= <-] Hleaf.
  exact (Hleaf h e E P).
Qed.

Lemma In_remove_classes (tokens cls : list string) (c : string) :
  In c (Dom.remove_classes tokens cls) <-> In c cls /\ ~ In c tokens.
Proof.
  unfold Dom.remove_classes. rewrite List.filter_In. apply and_iff_compat_l.
  rewrite negb_true_iff, <- not_true_iff_false, List.existsb_exists.
  unfold Dom.token_eqb. split.
  - intros H Hin. apply H. exists c. split; [exact Hin | apply String.eqb_refl].
  - intros H (t & Hin & ->%String.eqb_eq). contradiction.
Qed.

Lemma In_add_class (token : string) (cls : list string) (c : string) :
  In c (Dom.add_class token cls) <-> c = token \/ In c cls.
Proof.
  unfold Dom.add_class. destruct (List.existsb _ cls) eqn:E.
  - apply List.existsb_exists in E as (t & Hin & ->%String.eqb_eq).
    split; [now right | intros [->|H]; assumption].
  - rewrite List.in_app_iff. cbn. split; intros [H|H]; auto.
    destruct H as [<-|[]]. now left.
Qed.

Lemma remove_classes_idem (tokens cls : list string) :
  Dom.remove_classes tokens (Dom.remove_classes tokens cls) = Dom.remove_classes tokens cls.
Proof.
  unfold Dom.remove_classes. induction cls as [|c cls IH]; [reflexivity |].
  cbn [List.filter]. destruct (negb _) eqn:E; [|exact IH].
  cbn [List.filter]. now rewrite E, IH.
Qed.

Lemma remove_classes_app (tokens a b : list string) :
  Dom.remove_classes tokens (a ++ b)
  = (Dom.remove_classes tokens a ++ Dom.remove_classes tokens b)%list.
Proof. unfold Dom.remove_classes. apply List.filter_app. Qed.

(** Setting the sign class a second time changes nothing. *)
Lemma sign_class_idem (token : string) (cls : list string) :
  In token ["positive"; "negative"] ->
  let once := Dom.add_class token (Dom.remove_classes ["positive"; "negative"] cls) in
  Dom.add_class token (Dom.remove_classes ["positive"; "negative"] once) = once.
Proof.
  intros Ht once. f_equal. subst once.
  set (T := ["positive"; "negative"]) in *.
  unfold Dom.add_class at 1.
  destruct (List.existsb _ _) eqn:E; [apply remove_classes_idem |].
  rewrite remove_classes_app, remove_classes_idem.
  replace (Dom.remove_classes T [token]) with (@nil string); [apply app_nil_r |].
  unfold T in *. destruct Ht as [<-|[<-|[]]]; reflexivity.
Qed.

End CardEdges.

(** ** The text of the chart cards: further properties *)

Section CardProperties.

Implicit Types (doc : Document) (h x : nat) (f g : Element -> Element).

Lemma cardText_idempotent doc (vid cid sv sc : string) :
  slot_ok doc vid = true -> slot_ok doc cid = true -> vid <> cid ->
  cardText vid cid sv sc (cardText vid cid sv sc doc) = cardText vid cid sv sc doc.
Proof.
  intros (hv & Hv)%slot_ok_slot (hc & Hc)%slot_ok_slot Hne.
  pose proof (apply_update_slots doc (mkCardUpdate vid cid sv sc) hv hc Hv Hc Hne) as [F _].
  cbn zeta in F. unfold apply_update in F. cbn [cu_value_id cu_change_id cu_value cu_change] in F.
  set (doc' := cardText vid cid sv sc doc) in *.
  rewrite (cardText_slots doc' vid cid sv sc hv hc
             (slot_same_frame _ _ _ _ F Hv) (slot_same_frame _ _ _ _ F Hc) Hne).
  cbv zeta. rewrite (proj1 (proj2 F) hc).
  assert (Hvc : hv <> hc).
  { intros ->. apply Hne. exact (getElementById_inj _ _ _ _ (proj1 Hv) (proj1 Hc)). }
  unfold doc'. rewrite (cardText_slots doc vid cid sv sc hv hc Hv Hc Hne). cbv zeta.
  set (V := Dom.set_content_of (Dom.text_nodes (trim sv))).
  set (C := Dom.set_content_of (Dom.text_nodes (trim sc))).
  set (R := Dom.remove_tokens ["positive"; "negative"]).
  set (A := Dom.add_token (if startsWith "-" sc then "negative" else "positive")).
  assert (Hsign : forall e, A (R (A (R e))) = A (R e)).
  { intros e. unfold A, R, Dom.add_token, Dom.remove_tokens, Dom.set_classes_of.
    cbn [el_id el_kind el_parent el_classes el_content]. f_equal.
    apply sign_class_idem. destruct (startsWith "-" sc); cbn; auto. }
  assert (HV : forall e, V (V e) = V e) by reflexivity.
  assert (HC : forall e, C (C e) = C e) by reflexivity.
  clearbody V C R A.
  destruct (Dom.parentElement doc hc) as [o|] eqn:Ho.
  - assert (Hov : o <> hv) by (intros ->; exact (parent_not_leaf _ _ _ Ho (proj2 Hv))).
    assert (Hoc : o <> hc) by (intros ->; exact (parent_not_leaf _ _ _ Ho (proj2 Hc))).
    apply list_eq. intros x. rewrite !update_alter, !list_lookup_alter.
    repeat case_decide; subst; try congruence;
      destruct (doc !! _) as [[e|]|]; cbn; rewrite ?Hsign, ?HV, ?HC; reflexivity.
  - apply list_eq. intros x. rewrite !update_alter, !list_lookup_alter.
    repeat case_decide; subst; try congruence;
      destruct (doc !! _) as [[e|]|]; cbn; rewrite ?HV, ?HC; reflexivity.
Qed.

(** X4: [updateChartCardTextOnly] never throws and touches nothing but the
    document; when, for each of the two slots, the element is missing or
    the text is not a string, the page is left exactly as it was. *)
Theorem updateChartCardTextOnly_never_throws (valueId changeId : string)
    (valueStr changeStr : jsval) (pg : Page) :
  let run := updateChartCardTextOnly valueId changeId valueStr changeStr pg in
  fst run = Normal tt
  /\ charts (snd run) = charts pg
  /\ currentTicker (snd run) = currentTicker pg
  /\ console (snd run) = console pg
  /\ library (snd run) = library pg
  /\ (Dom.getElementById valueId (document pg) = None \/ (forall s, valueStr <> VStr s) ->
      Dom.getElementById changeId (document pg) = None \/ (forall s, changeStr <> VStr s) ->
      snd run = pg).
Proof.
  unfold updateChartCardTextOnly, bind, getElementById, parentElement, gets,
    set_textContent, classList_remove, classList_add, modify, ret.
  destruct pg as [doc reg tick con lib]. unfold with_document.
  cbn [document charts currentTicker console library].
  destruct (Dom.getElementById valueId doc) as [hv|] eqn:Ev;
    destruct (Dom.getElementById changeId doc) as [hc|] eqn:Ec;
    destruct valueStr as [| | b | n | sv | items | fields |];
    destruct changeStr as [| | b' | n' | sc | items' | fields' |];
    cbn [document charts currentTicker console library fst snd];
    repeat match goal with
           | |- context [Dom.parentElement ?d ?h] =>
               destruct (Dom.parentElement d h);
               cbn [document charts currentTicker console library fst snd]
           | |- context [startsWith ?a ?b] =>
               destruct (startsWith a b);
               cbn [document charts currentTicker console library fst snd]
           end;
    repeat (split; [reflexivity |]);
    intros [H1|H1] [H2|H2]; try discriminate; try reflexivity;
    try (exfalso; eapply H1; reflexivity); try (exfalso; eapply H2; reflexivity).
Qed.


(** X6: on a page where the two ids name different leaf elements, applying
    the same update a second time changes nothing. *)
Theorem updateChartCardTextOnly_idempotent (valueId changeId valueStr changeStr : string)
    (pg : Page) :
  slot_ok (document pg) valueId = true ->
  slot_ok (document pg) changeId = true ->
  valueId <> changeId ->
  let upd := updateChartCardTextOnly valueId changeId (VStr valueStr) (VStr changeStr) in
  snd (upd (snd (upd pg))) = snd (upd pg).
Proof.
  intros Hv Hc Hne upd. unfold upd. rewrite !updateChartCardTextOnly_text. cbn [snd].
  destruct pg as [doc reg tick con lib]. unfold with_document.
  cbn [document charts currentTicker console library] in *.
  f_equal. now apply cardText_idempotent.
Qed.

(** X5: after an update the container of the change slot carries exactly
    one of the classes "positive" and "negative", "negative" exactly when
    the change text starts with "-", and every other class of the
    container is kept. *)
Theorem updateChartCardTextOnly_sign_class (valueId changeId valueStr changeStr : string)
    (pg : Page) (o : nat) (cls : list string) :
  slot_ok (document pg) valueId = true ->
  slot_ok (document pg) changeId = true ->
  valueId <> changeId ->
  container_of (document pg) changeId = Some o ->
  Dom.classes (document pg) o = Some cls ->
  let pg' := snd (updateChartCardTextOnly valueId changeId (VStr valueStr) (VStr changeStr) pg) in
  exists cls',
    Dom.classes (document pg') o = Some cls'
    /\ In (if startsWith "-" changeStr then "negative" else "positive") cls'
    /\ ~ In (if startsWith "-" changeStr then "positive" else "negative") cls'
    /\ forall c, c <> "positive" -> c <> "negative" -> (In c cls' <-> In c cls).
Proof.
  intros (hv & Hv)%slot_ok_slot (hc & Hc)%slot_ok_slot Hne Ho Hcls pg'.
  unfold container_of in Ho. rewrite (proj1 Hc) in Ho.
  pose proof (apply_update_slots (document pg)
                (mkCardUpdate valueId changeId valueStr changeStr) hv hc Hv Hc Hne)
    as (_ & _ & _ & _ & _ & K).
  specialize (K o cls Ho Hcls).
  unfold apply_update in K. cbn [cu_value_id cu_change_id cu_value cu_change] in K.
  eexists. split.
  { unfold pg'. rewrite updateChartCardTextOnly_text. cbn [snd].
    destruct pg; exact K. }
  split; [apply In_add_class; now left |].
  split.
  - rewrite In_add_class, In_remove_classes.
    destruct (startsWith "-" changeStr); intros [H|[_ H]]; try discriminate;
      apply H; cbn; auto.
  - intros c Hp Hn. rewrite In_add_class, In_remove_classes. split.
    + intros [->|[H _]]; [|exact H]. destruct (startsWith "-" changeStr); contradiction.
    + intros H. right. split; [exact H |]. intros [<-|[<-|[]]]; contradiction.
Qed.

End CardProperties.

(** ** The chart renderer: further properties *)

Section RendererEdges.

Lemma surface_not_canvas (doc : Document) (id : string) :
  surface_ok doc id = false ->
  exists h e, Dom.getElementById id doc = Some h /\ Dom.element doc h = Some e
              /\ el_kind e = OtherElement.
Proof.
  unfold surface_ok. destruct (Dom.getElementById id doc) as [h|]; [|discriminate].
  destruct (Dom.element doc h) as [e|] eqn:E; [|discriminate].
  destruct (el_kind e) eqn:K; [discriminate |]. intros _. now exists h, e.
Qed.

Lemma drawable_surface_ok (doc : Document) (id : string) :
  drawable doc id = true -> surface_ok doc id = true.
Proof.
  intros (h & e & Hh & He & Hk)%drawable_element. unfold surface_ok. now rewrite Hh, He, Hk.
Qed.

(** On an element that is not a canvas [getContext] is not a function. *)
Lemma renderChart_not_canvas (host : Host) (canvasId : string) (data labels : jsval)
    (lineColor : string) (pg : Page) :
  surface_ok (document pg) canvasId = false ->
  renderChart host canvasId data labels lineColor pg = (Throw TypeError, pg).
Proof.
  intros (h & e & Hh & He & Hk)%surface_not_canvas.
  unfold renderChart, bind, getElementById, gets, getContext2d. now rewrite Hh, He, Hk.
Qed.

(** The three ways a call of [renderChart] can go. *)
Lemma renderChart_cases (host : Host) (canvasId : string) (data labels : jsval)
    (lineColor : string) (pg : Page) :
  let run := renderChart host canvasId data labels lineColor pg in
  let lib := library_disposed pg canvasId in
  let reg := registry_disposed pg canvasId in
  (surface_ok (document pg) canvasId = false /\ run = (Throw TypeError, pg))
  \/ (surface_ok (document pg) canvasId = true /\ drawable (document pg) canvasId = false
      /\ exists msg, run = (Normal tt, with_console (console pg ++ [LogError msg]) pg))
  \/ (drawable (document pg) canvasId = true
      /\ exists e, pointRadius host data = Throw e
           /\ run = (Throw e, mkPage (document pg) (Some reg) (currentTicker pg)
                                     (console pg) lib))
  \/ (drawable (document pg) canvasId = true
      /\ exists radius entry ev,
           pointRadius host data = Normal radius
           /\ run = (Normal tt,
                     mkPage (document pg)
                            (Some (match ev with
                                   | Constructed inst _ _ => <[canvasId := SChart inst]> reg
                                   | _ => reg
                                   end))
                            (currentTicker pg) (console pg ++ [entry]) (lib ++ [ev]))
           /\ (ev = ConstructFailed canvasId
                      (config_on host pg canvasId data labels lineColor radius)
               \/ ev = Constructed (List.length lib) canvasId
                         (config_on host pg canvasId data labels lineColor radius))).
Proof.
  cbv zeta.
  destruct (surface_ok (document pg) canvasId) eqn:Hs.
  2: { left. split; [reflexivity |]. now apply renderChart_not_canvas. }
  right. destruct (drawable (document pg) canvasId) eqn:Hd.
  2: { left. split; [reflexivity |]. split; [reflexivity |].
       now apply renderChart_no_surface. }
  right. destruct (pointRadius host data) as [radius|e] eqn:Hr.
  - right. split; [reflexivity |].
    pose proof (renderChart_drawable host canvasId data labels lineColor pg radius Hd Hr) as E.
    cbn zeta in E. rewrite E.
    destruct (host_Chart_throws _ _ _ _); exists radius; eexists;
      [exists (ConstructFailed canvasId
                 (config_on host pg canvasId data labels lineColor radius))
      |exists (Constructed (List.length (library_disposed pg canvasId)) canvasId
                 (config_on host pg canvasId data labels lineColor radius))];
      (split; [reflexivity |]); (split; [reflexivity |]); auto.
  - left. split; [reflexivity |]. exists e. split; [reflexivity |].
    now apply renderChart_drawable_throw.
Qed.

(** X7: [renderChart] returns normally exactly when the id does not name
    an element other than a canvas and, on a canvas with a 2D context, the
    length test of the data does not throw; an exception of the chart
    constructor never escapes. *)
Theorem renderChart_returns_iff (host : Host) (canvasId : string) (data labels : jsval)
    (lineColor : string) (pg : Page) :
  fst (renderChart host canvasId data labels lineColor pg) = Normal tt
  <-> surface_ok (document pg) canvasId = true
      /\ (drawable (document pg) canvasId = true ->
          exists radius, pointRadius host data = Normal radius).
Proof.
  destruct (renderChart_cases host canvasId data labels lineColor pg)
    as [[Hs E] | [(Hs & Hd & msg & E) | [(Hd & e & Hr & E) | (Hd & r & entry & ev & Hr & E & _)]]];
    rewrite E; cbn [fst].
  - rewrite Hs. split; [discriminate | intros [H _]; discriminate].
  - rewrite Hs, Hd. split; [intros _; split; [reflexivity | discriminate] | reflexivity].
  - rewrite Hd, Hr. split; [discriminate |].
    intros [_ H]. destruct (H eq_refl) as (r & Hr'). discriminate.
  - rewrite Hd, Hr, (drawable_surface_ok _ _ Hd).
    split; [intros _; split; [reflexivity | intros _; now exists r] | reflexivity].
Qed.

Lemma registry_disposed_other (pg : Page) (canvasId id : string) :
  id <> canvasId -> registry_disposed pg canvasId !! id = registry_of pg !! id.
Proof.
  intros Hne. unfold registry_disposed. destruct (registered pg canvasId); [|reflexivity].
  now rewrite lookup_insert_ne by congruence.
Qed.

Lemma library_disposed_concerns (pg : Page) (canvasId : string) :
  exists evs, library_disposed pg canvasId = (library pg ++ evs)%list
              /\ Forall (concerns pg canvasId) evs.
Proof.
  unfold library_disposed. destruct (registered pg canvasId) as [inst|] eqn:E; eexists;
    (split; [reflexivity |]).
  - constructor; [exact E | constructor].
  - constructor.
Qed.

(** X8: whatever a call of [renderChart] does, it leaves the document and
    the ticker as they are and the registry entries of the other ids as
    they are; the console and the library trace only grow, and every call
    into the library constructs on the given canvas or destroys the chart
    registered under its id. *)
Theorem renderChart_frame (host : Host) (canvasId : string) (data labels : jsval)
    (lineColor : string) (pg : Page) :
  let pg' := snd (renderChart host canvasId data labels lineColor pg) in
  document pg' = document pg
  /\ currentTicker pg' = currentTicker pg
  /\ (forall id, id <> canvasId -> registry_of pg' !! id = registry_of pg !! id)
  /\ (exists logs, console pg' = (console pg ++ logs)%list)
  /\ (exists evs, library pg' = (library pg ++ evs)%list
                  /\ Forall (concerns pg canvasId) evs).
Proof.
  destruct (library_disposed_concerns pg canvasId) as (evs & Hlib & Hevs).
  destruct (renderChart_cases host canvasId data labels lineColor pg)
    as [[Hs E] | [(Hs & Hd & msg & E) | [(Hd & e & Hr & E) | (Hd & r & entry & ev & Hr & E & Hev)]]];
    cbv zeta; rewrite E; cbn [snd].
  - split; [reflexivity |]. split; [reflexivity |]. split; [reflexivity |].
    split; [exists []; now rewrite app_nil_r |].
    exists []. split; [now rewrite app_nil_r | constructor].
  - destruct pg as [doc reg tick con lib]. cbn.
    split; [reflexivity |]. split; [reflexivity |]. split; [reflexivity |].
    split; [now exists [LogError msg] |].
    exists []. split; [now rewrite app_nil_r | constructor].
  - cbn [document charts currentTicker console library].
    split; [reflexivity |]. split; [reflexivity |].
    split; [intros id Hne; unfold registry_of at 1; cbn; now apply registry_disposed_other |].
    split; [exists []; now rewrite app_nil_r |].
    exists evs. split; assumption.
  - cbn [document charts currentTicker console library].
    split; [reflexivity |]. split; [reflexivity |]. split.
    { intros id Hne. unfold registry_of at 1. cbn.
      destruct ev; rewrite ?lookup_insert_ne by congruence;
        now apply registry_disposed_other. }
    split; [now exists [entry] |].
    exists (evs ++ [ev])%list. split; [now rewrite Hlib, app_assoc |].
    apply Forall_app. split; [exact Hevs |]. constructor; [|constructor].
    destruct Hev as [-> | ->]; reflexivity.
Qed.

End RendererEdges.

Section LiveCharts.

Implicit Types (lib : list LibEvent) (reg : gmap string Slot).

Lemma constructed_on_app (a : string) lib lib' :
  constructed_on a (lib ++ lib') = (constructed_on a lib ++ constructed_on a lib')%list.
Proof.
  induction lib as [|ev lib IH]; [reflexivity |].
  destruct ev as [i cid cfg| |]; cbn [app constructed_on]; try exact IH.
  destruct (String.eqb cid a); cbn; now rewrite IH.
Qed.

Lemma constructed_app lib lib' :
  constructed (lib ++ lib') = (constructed lib ++ constructed lib')%list.
Proof.
  induction lib as [|ev lib IH]; [reflexivity |].
  destruct ev; cbn [app constructed]; try exact IH. cbn. now rewrite IH.
Qed.

Lemma In_constructed_on (a : string) lib (i : nat) :
  In i (constructed_on a lib) -> In i (constructed lib).
Proof.
  induction lib as [|ev lib IH]; [intros [] |].
  destruct ev as [j cid cfg| |]; cbn [constructed_on constructed]; try exact IH.
  destruct (String.eqb cid a); cbn; intuition.
Qed.

Lemma constructed_below (n : nat) lib (i : nat) :
  forallb (names_below n) lib = true -> In i (constructed lib) -> (i < n)%nat.
Proof.
  induction lib as [|ev lib IH]; [intros _ [] |].
  cbn [forallb]. intros [Hev Hrest]%andb_true_iff.
  destruct ev as [j cid cfg| |]; cbn [constructed]; try (now apply IH).
  intros [<-|H]; [now apply Nat.ltb_lt | now apply IH].
Qed.

(** An instance is constructed on one canvas only. *)
Lemma constructed_on_unique (a b : string) lib (i : nat) :
  List.NoDup (constructed lib) ->
  In i (constructed_on a lib) -> In i (constructed_on b lib) -> a = b.
Proof.
  induction lib as [|ev lib IH]; [intros _ [] |].
  destruct ev as [j cid cfg| |]; cbn [constructed_on constructed]; try exact IH.
  intros [Hj Hnd]%List.NoDup_cons_iff.
  destruct (String.eqb_spec cid a) as [<-|Ha], (String.eqb_spec cid b) as [<-|Hb]; cbn.
  - reflexivity.
  - intros [<-|Hi] Hi'; [|now apply IH].
    exfalso. apply Hj. now apply In_constructed_on in Hi'.
  - intros Hi [<-|Hi']; [|now apply IH].
    exfalso. apply Hj. now apply In_constructed_on in Hi.
  - now apply IH.
Qed.

Lemma In_live_on lib (a : string) (i : nat) :
  In i (live_on lib a) -> In i (constructed_on a lib).
Proof. unfold live_on. now intros [H _]%List.filter_In. Qed.

Lemma live_on_destroyed lib (a : string) (j : nat) :
  live_on (lib ++ [Destroyed j]) a
  = List.filter (fun i => negb (j =? i)%nat) (live_on lib a).
Proof.
  unfold live_on. rewrite constructed_on_app. cbn [constructed_on]. rewrite app_nil_r.
  induction (constructed_on a lib) as [|i l IH]; [reflexivity |].
  cbn [List.filter]. rewrite destroy_count_app. cbn [destroy_count]. rewrite Nat.add_0_r.
  destruct (Nat.eqb_spec j i) as [->|Hji].
  - replace (destroy_count i lib + 1 =? 0)%nat with false
      by (symmetry; apply Nat.eqb_neq; lia).
    rewrite IH. destruct (destroy_count i lib =? 0)%nat; [|reflexivity].
    cbn [List.filter]. now rewrite Nat.eqb_refl.
  - rewrite Nat.add_0_r, IH. destruct (destroy_count i lib =? 0)%nat; [|reflexivity].
    cbn [List.filter]. now rewrite (proj2 (Nat.eqb_neq j i) Hji).
Qed.

Lemma live_on_failed lib (a id : string) (cfg : ChartConfig) :
  live_on (lib ++ [ConstructFailed id cfg]) a = live_on lib a.
Proof.
  unfold live_on. rewrite constructed_on_app. cbn [constructed_on]. rewrite app_nil_r.
  apply List.filter_ext. intros i. rewrite destroy_count_app. cbn. now rewrite Nat.add_0_r.
Qed.

Lemma live_on_constructed lib (a id : string) (n : nat) (cfg : ChartConfig) :
  destroy_count n lib = 0%nat ->
  live_on (lib ++ [Constructed n id cfg]) a
  = (live_on lib a ++ if String.eqb id a then [n] else [])%list.
Proof.
  intros Hn. unfold live_on. rewrite constructed_on_app, List.filter_app. f_equal.
  - apply List.filter_ext. intros i. rewrite destroy_count_app. cbn. now rewrite Nat.add_0_r.
  - cbn [constructed_on]. destruct (String.eqb id a); [|reflexivity].
    cbn [List.filter]. rewrite destroy_count_app, Hn. reflexivity.
Qed.

End LiveCharts.

Section LiveChartsInvariant.

Implicit Types (lib : list LibEvent) (reg : gmap string Slot).

Lemma registry_list_registered (pg : Page) (id : string) :
  registry_list (registry_of pg) id
  = match registered pg id with Some inst => [inst] | None => [] end.
Proof.
  unfold registry_list, registered. now destruct (registry_of pg !! id) as [[i|]|].
Qed.

(** Once the registered chart is disposed of, no chart is live on the
    canvas, and the other canvases keep theirs. *)
Lemma disposed_ok (pg : Page) (canvasId : string) :
  charts_ok pg ->
  List.NoDup (constructed (library_disposed pg canvasId))
  /\ (forall id, live_on (library_disposed pg canvasId) id
                 = registry_list (registry_disposed pg canvasId) id)
  /\ live_on (library_disposed pg canvasId) canvasId = [].
Proof.
  intros (Hok & Hnd & Hlive).
  unfold library_disposed, registry_disposed.
  destruct (registered pg canvasId) as [inst|] eqn:Hreg.
  - assert (Hc : registry_list (registry_of pg) canvasId = [inst]).
    { rewrite registry_list_registered. now rewrite Hreg. }
    assert (Hinst : In inst (constructed_on canvasId (library pg))).
    { apply In_live_on. rewrite Hlive, Hc. now left. }
    split; [rewrite constructed_app; cbn; now rewrite app_nil_r |].
    assert (Hself : live_on (library pg ++ [Destroyed inst]) canvasId = []).
    { rewrite live_on_destroyed, Hlive, Hc. cbn. now rewrite Nat.eqb_refl. }
    split; [|exact Hself].
    intros id. destruct (decide (id = canvasId)) as [->|Hne].
    + rewrite Hself. unfold registry_list. now rewrite lookup_insert_eq.
    + rewrite live_on_destroyed, Hlive.
      unfold registry_list. rewrite lookup_insert_ne by congruence.
      destruct (registry_of pg !! id) as [[i|]|] eqn:Ei; try reflexivity.
      cbn. destruct (Nat.eqb_spec inst i) as [->|_]; [|reflexivity].
      exfalso. apply Hne.
      apply (constructed_on_unique id canvasId (library pg) i Hnd); [|exact Hinst].
      apply In_live_on. rewrite Hlive. unfold registry_list. rewrite Ei. now left.
  - rewrite app_nil_r. split; [exact Hnd |]. split; [exact Hlive |].
    rewrite Hlive, registry_list_registered. now rewrite Hreg.
Qed.

Lemma charts_ok_console (pg : Page) (con : list LogEntry) :
  charts_ok pg -> charts_ok (with_console con pg).
Proof. destruct pg. exact (fun H => H). Qed.

Lemma renderChart_charts_ok (host : Host) (canvasId : string) (data labels : jsval)
    (lineColor : string) (pg : Page) :
  charts_ok pg ->
  charts_ok (snd (renderChart host canvasId data labels lineColor pg)).
Proof.
  intros Hok.
  pose proof (renderChart_instances_ok host canvasId data labels lineColor pg (proj1 Hok)) as Hi.
  destruct (disposed_ok pg canvasId Hok) as (Hnd & Hlive & Hself).
  pose proof (library_disposed_below pg canvasId (proj1 Hok)) as Hbelow.
  destruct (renderChart_cases host canvasId data labels lineColor pg)
    as [[Hs E] | [(Hs & Hd & msg & E) | [(Hd & e & Hr & E) | (Hd & r & entry & ev & Hr & E & Hev)]]];
    rewrite E in *; cbn [snd] in *.
  - exact Hok.
  - now apply charts_ok_console.
  - split; [exact Hi |]. split; [exact Hnd | exact Hlive].
  - split; [exact Hi |]. cbn [library]. unfold registry_of. cbn [charts].
    change (default ∅ (Some ?m)) with m.
    destruct Hev as [-> | ->].
    + split; [rewrite constructed_app; cbn; now rewrite app_nil_r |].
      intros id. now rewrite live_on_failed.
    + set (n := List.length (library_disposed pg canvasId)) in *.
      assert (Hfresh : destroy_count n (library_disposed pg canvasId) = 0%nat)
        by (apply (destroy_count_fresh n); [exact Hbelow | lia]).
      split.
      * rewrite constructed_app. cbn [constructed].
        apply NoDup_ListNoDup. apply NoDup_app. split; [now apply NoDup_ListNoDup |].
        split; [|apply NoDup_singleton].
        intros i Hin ->%list_elem_of_singleton.
        apply list_elem_of_In in Hin.
        pose proof (constructed_below n _ _ Hbelow Hin). lia.
      * intros id. rewrite (live_on_constructed _ _ _ _ _ Hfresh).
        destruct (String.eqb_spec canvasId id) as [<-|Hne].
        -- rewrite Hself. unfold registry_list. now rewrite lookup_insert_eq.
        -- rewrite app_nil_r, Hlive. unfold registry_list.
           now rewrite lookup_insert_ne by congruence.
Qed.

(** X9: [renderChart] keeps the registry and the library in agreement: on
    a page where every live chart is the one registered under its canvas,
    the same holds after the call, whatever the call does; so no canvas
    ever carries two live charts. *)
Theorem renderChart_one_live_chart (host : Host) (canvasId : string) (data labels : jsval)
    (lineColor : string) (pg : Page) :
  charts_ok pg ->
  let pg' := snd (renderChart host canvasId data labels lineColor pg) in
  charts_ok pg'
  /\ forall id,
       live_on (library pg') id
       = match registered pg' id with Some inst => [inst] | None => [] end
       /\ (List.length (live_on (library pg') id) <= 1)%nat.
Proof.
  intros Hok pg'.
  pose proof (renderChart_charts_ok host canvasId data labels lineColor pg Hok) as Hok'.
  fold pg' in Hok'. split; [exact Hok' |].
  intros id. destruct Hok' as (_ & _ & Hlive).
  rewrite Hlive, registry_list_registered.
  split; [reflexivity |]. destruct (registered pg' id); cbn; lia.
Qed.

Lemma charts_ok_initial (doc : Document) (tick : option string) (con : list LogEntry) :
  charts_ok (mkPage doc None tick con []).
Proof.
  split; [reflexivity |]. split; [constructor |].
  intros id. unfold registry_list, registry_of. cbn. now rewrite lookup_empty.
Qed.

End LiveChartsInvariant.

(** ** The performance controller: further properties *)

Section ControllerEdges.

Lemma formatField_throw (host : Host) (apiData : jsval) (metric field : PropName)
    (digits : Z) (isPercent : bool) (e : jserror) (pg : Page) :
  formatted host apiData metric field digits isPercent = Throw e ->
  formatField host (series apiData metric) field digits isPercent pg = (Throw e, pg).
Proof.
  rewrite formatted_series. intros H. unfold formatField, lift.
  rewrite (get_truthy _ _ (series_truthy apiData metric)). cbn [cbind]. now rewrite H.
Qed.

(** The controller formats the eight texts before it touches the page:
    either all eight are formatted, or the first failure is thrown, on
    every page, with nothing but the console changed. *)
Lemma controller_cases (host : Host) (resp : FetchOutcome jsval) (ticker : string) :
  (exists rpVal rpChg zVal zChg aVal aChg caVal caChg,
     formatted host (api_result resp) p_relative_performance p_value 2 true = Normal rpVal /\
     formatted host (api_result resp) p_relative_performance p_change 2 true = Normal rpChg /\
     formatted host (api_result resp) p_moving_z_score p_value 2 false = Normal zVal /\
     formatted host (api_result resp) p_moving_z_score p_change 2 false = Normal zChg /\
     formatted host (api_result resp) p_alpha p_value 3 false = Normal aVal /\
     formatted host (api_result resp) p_alpha p_change 3 false = Normal aChg /\
     formatted host (api_result resp) p_cumulative_alpha p_value 2 false = Normal caVal /\
     formatted host (api_result resp) p_cumulative_alpha p_change 2 false = Normal caChg)
  \/ (exists e row f,
        In row metric_table /\ In f [p_value; p_change]
        /\ formatted host (api_result resp) (row_metric row) f (row_digits row)
                       (row_percent row) = Throw e
        /\ forall pg, exists logs,
             loadPerformanceDataAndRenderCharts host resp ticker pg
             = (Throw e, with_console (console pg ++ logs) pg)).
Proof.
  set (api := api_result resp).
  destruct (formatted host api p_relative_performance p_value 2 true) as [rpVal|e] eqn:H1.
  2: { right. exists e, row_rp, p_value.
       split; [cbn; tauto |]. split; [cbn; tauto |]. split; [exact H1 |].
       intros pg. unfold loadPerformanceDataAndRenderCharts.
       erewrite bind_normal by reflexivity. cbv beta.
       match goal with
       | |- context [bind (fetchApiData resp) _ ?p] =>
           destruct (fetchApiData_result resp p) as (logs & E)
       end.
       rewrite (bind_normal _ _ _ _ _ E). cbv beta. fold api. clear E.
       rewrite !metricOrFallback_series.
       do 4 (erewrite bind_normal by reflexivity; cbv beta).
       rewrite !(get_truthy _ _ (series_truthy api p_moving_z_score)).
       do 4 (erewrite bind_normal by reflexivity; cbv beta).
       rewrite (bind_throw _ _ _ _ _ (formatField_throw _ _ _ _ _ _ _ _ H1)).
       eexists.
       destruct pg as [doc reg tick con lib]. unfold with_console. cbn.
       rewrite <- !app_assoc. reflexivity. }
  destruct (formatted host api p_relative_performance p_change 2 true) as [rpChg|e] eqn:H2.
  2: { right. exists e, row_rp, p_change.
       split; [cbn; tauto |]. split; [cbn; tauto |]. split; [exact H2 |].
       intros pg. unfold loadPerformanceDataAndRenderCharts.
       erewrite bind_normal by reflexivity. cbv beta.
       match goal with
       | |- context [bind (fetchApiData resp) _ ?p] =>
           destruct (fetchApiData_result resp p) as (logs & E)
       end.
       rewrite (bind_normal _ _ _ _ _ E). cbv beta. fold api. clear E.
       rewrite !metricOrFallback_series.
       do 4 (erewrite bind_normal by reflexivity; cbv beta).
       rewrite !(get_truthy _ _ (series_truthy api p_moving_z_score)).
       do 4 (erewrite bind_normal by reflexivity; cbv beta).
       rewrite (bind_normal _ _ _ _ _ (formatField_run _ _ _ _ _ _ _ _ H1)). cbv beta.
       rewrite (bind_throw _ _ _ _ _ (formatField_throw _ _ _ _ _ _ _ _ H2)).
       eexists.
       destruct pg as [doc reg tick con lib]. unfold with_console. cbn.
       rewrite <- !app_assoc. reflexivity. }
  destruct (formatted host api p_moving_z_score p_value 2 false) as [zVal|e] eqn:H3.
  2: { right. exists e, row_zscore, p_value.
       split; [cbn; tauto |]. split; [cbn; tauto |]. split; [exact H3 |].
       intros pg. unfold loadPerformanceDataAndRenderCharts.
       erewrite bind_normal by reflexivity. cbv beta.
       match goal with
       | |- context [bind (fetchApiData resp) _ ?p] =>
           destruct (fetchApiData_result resp p) as (logs & E)
       end.
       rewrite (bind_normal _ _ _ _ _ E). cbv beta. fold api. clear E.
       rewrite !metricOrFallback_series.
       do 4 (erewrite bind_normal by reflexivity; cbv beta).
       rewrite !(get_truthy _ _ (series_truthy api p_moving_z_score)).
       do 4 (erewrite bind_normal by reflexivity; cbv beta).
       rewrite (bind_normal _ _ _ _ _ (formatField_run _ _ _ _ _ _ _ _ H1)). cbv beta.
       rewrite (bind_normal _ _ _ _ _ (formatField_run _ _ _ _ _ _ _ _ H2)). cbv beta.
       rewrite (bind_throw _ _ _ _ _ (formatField_throw _ _ _ _ _ _ _ _ H3)).
       eexists.
       destruct pg as [doc reg tick con lib]. unfold with_console. cbn.
       rewrite <- !app_assoc. reflexivity. }
  destruct (formatted host api p_moving_z_score p_change 2 false) as [zChg|e] eqn:H4.
  2: { right. exists e, row_zscore, p_change.
       split; [cbn; tauto |]. split; [cbn; tauto |]. split; [exact H4 |].
       intros pg. unfold loadPerformanceDataAndRenderCharts.
       erewrite bind_normal by reflexivity. cbv beta.
       match goal with
       | |- context [bind (fetchApiData resp) _ ?p] =>
           destruct (fetchApiData_result resp p) as (logs & E)
       end.
       rewrite (bind_normal _ _ _ _ _ E). cbv beta. fold api. clear E.
       rewrite !metricOrFallback_series.
       do 4 (erewrite bind_normal by reflexivity; cbv beta).
       rewrite !(get_truthy _ _ (series_truthy api p_moving_z_score)).
       do 4 (erewrite bind_normal by reflexivity; cbv beta).
       rewrite (bind_normal _ _ _ _ _ (formatField_run _ _ _ _ _ _ _ _ H1)). cbv beta.
       rewrite (bind_normal _ _ _ _ _ (formatField_run _ _ _ _ _ _ _ _ H2)). cbv beta.
       rewrite (bind_normal _ _ _ _ _ (formatField_run _ _ _ _ _ _ _ _ H3)). cbv beta.
       rewrite (bind_throw _ _ _ _ _ (formatField_throw _ _ _ _ _ _ _ _ H4)).
       eexists.
       destruct pg as [doc reg tick con lib]. unfold with_console. cbn.
       rewrite <- !app_assoc. reflexivity. }
  destruct (formatted host api p_alpha p_value 3 false) as [aVal|e] eqn:H5.
  2: { right. exists e, row_alpha, p_value.
       split; [cbn; tauto |]. split; [cbn; tauto |]. split; [exact H5 |].
       intros pg. unfold loadPerformanceDataAndRenderCharts.
       erewrite bind_normal by reflexivity. cbv beta.
       match goal with
       | |- context [bind (fetchApiData resp) _ ?p] =>
           destruct (fetchApiData_result resp p) as (logs & E)
       end.
       rewrite (bind_normal _ _ _ _ _ E). cbv beta. fold api. clear E.
       rewrite !metricOrFallback_series.
       do 4 (erewrite bind_normal by reflexivity; cbv beta).
       rewrite !(get_truthy _ _ (series_truthy api p_moving_z_score)).
       do 4 (erewrite bind_normal by reflexivity; cbv beta).
       rewrite (bind_normal _ _ _ _ _ (formatField_run _ _ _ _ _ _ _ _ H1)). cbv beta.
       rewrite (bind_normal _ _ _ _ _ (formatField_run _ _ _ _ _ _ _ _ H2)). cbv beta.
       rewrite (bind_normal _ _ _ _ _ (formatField_run _ _ _ _ _ _ _ _ H3)). cbv beta.
       rewrite (bind_normal _ _ _ _ _ (formatField_run _ _ _ _ _ _ _ _ H4)). cbv beta.
       rewrite (bind_throw _ _ _ _ _ (formatField_throw _ _ _ _ _ _ _ _ H5)).
       eexists.
       destruct pg as [doc reg tick con lib]. unfold with_console. cbn.
       rewrite <- !app_assoc. reflexivity. }
  destruct (formatted host api p_alpha p_change 3 false) as [aChg|e] eqn:H6.
  2: { right. exists e, row_alpha, p_change.
       split; [cbn; tauto |]. split; [cbn; tauto |]. split; [exact H6 |].
       intros pg. unfold loadPerformanceDataAndRenderCharts.
       erewrite bind_normal by reflexivity. cbv beta.
       match goal with
       | |- context [bind (fetchApiData resp) _ ?p] =>
           destruct (fetchApiData_result resp p) as (logs & E)
       end.
       rewrite (bind_normal _ _ _ _ _ E). cbv beta. fold api. clear E.
       rewrite !metricOrFallback_series.
       do 4 (erewrite bind_normal by reflexivity; cbv beta).
       rewrite !(get_truthy _ _ (series_truthy api p_moving_z_score)).
       do 4 (erewrite bind_normal by reflexivity; cbv beta).
       rewrite (bind_normal _ _ _ _ _ (formatField_run _ _ _ _ _ _ _ _ H1)). cbv beta.
       rewrite (bind_normal _ _ _ _ _ (formatField_run _ _ _ _ _ _ _ _ H2)). cbv beta.
       rewrite (bind_normal _ _ _ _ _ (formatField_run _ _ _ _ _ _ _ _ H3)). cbv beta.
       rewrite (bind_normal _ _ _ _ _ (formatField_run _ _ _ _ _ _ _ _ H4)). cbv beta.
       rewrite (bind_normal _ _ _ _ _ (formatField_run _ _ _ _ _ _ _ _ H5)). cbv beta.
       rewrite (bind_throw _ _ _ _ _ (formatField_throw _ _ _ _ _ _ _ _ H6)).
       eexists.
       destruct pg as [doc reg tick con lib]. unfold with_console. cbn.
       rewrite <- !app_assoc. reflexivity. }
  destruct (formatted host api p_cumulative_alpha p_value 2 false) as [caVal|e] eqn:H7.
  2: { right. exists e, row_cumulative, p_value.
       split; [cbn; tauto |]. split; [cbn; tauto |]. split; [exact H7 |].
       intros pg. unfold loadPerformanceDataAndRenderCharts.
       erewrite bind_normal by reflexivity. cbv beta.
       match goal with
       | |- context [bind (fetchApiData resp) _ ?p] =>
           destruct (fetchApiData_result resp p) as (logs & E)
       end.
       rewrite (bind_normal _ _ _ _ _ E). cbv beta. fold api. clear E.
       rewrite !metricOrFallback_series.
       do 4 (erewrite bind_normal by reflexivity; cbv beta).
       rewrite !(get_truthy _ _ (series_truthy api p_moving_z_score)).
       do 4 (erewrite bind_normal by reflexivity; cbv beta).
       rewrite (bind_normal _ _ _ _ _ (formatField_run _ _ _ _ _ _ _ _ H1)). cbv beta.
       rewrite (bind_normal _ _ _ _ _ (formatField_run _ _ _ _ _ _ _ _ H2)). cbv beta.
       rewrite (bind_normal _ _ _ _ _ (formatField_run _ _ _ _ _ _ _ _ H3)). cbv beta.
       rewrite (bind_normal _ _ _ _ _ (formatField_run _ _ _ _ _ _ _ _ H4)). cbv beta.
       rewrite (bind_normal _ _ _ _ _ (formatField_run _ _ _ _ _ _ _ _ H5)). cbv beta.
       rewrite (bind_normal _ _ _ _ _ (formatField_run _ _ _ _ _ _ _ _ H6)). cbv beta.
       rewrite (bind_throw _ _ _ _ _ (formatField_throw _ _ _ _ _ _ _ _ H7)).
       eexists.
       destruct pg as [doc reg tick con lib]. unfold with_console. cbn.
       rewrite <- !app_assoc. reflexivity. }
  destruct (formatted host api p_cumulative_alpha p_change 2 false) as [caChg|e] eqn:H8.
  2: { right. exists e, row_cumulative, p_change.
       split; [cbn; tauto |]. split; [cbn; tauto |]. split; [exact H8 |].
       intros pg. unfold loadPerformanceDataAndRenderCharts.
       erewrite bind_normal by reflexivity. cbv beta.
       match goal with
       | |- context [bind (fetchApiData resp) _ ?p] =>
           destruct (fetchApiData_result resp p) as (logs & E)
       end.
       rewrite (bind_normal _ _ _ _ _ E). cbv beta. fold api. clear E.
       rewrite !metricOrFallback_series.
       do 4 (erewrite bind_normal by reflexivity; cbv beta).
       rewrite !(get_truthy _ _ (series_truthy api p_moving_z_score)).
       do 4 (erewrite bind_normal by reflexivity; cbv beta).
       rewrite (bind_normal _ _ _ _ _ (formatField_run _ _ _ _ _ _ _ _ H1)). cbv beta.
       rewrite (bind_normal _ _ _ _ _ (formatField_run _ _ _ _ _ _ _ _ H2)). cbv beta.
       rewrite (bind_normal _ _ _ _ _ (formatField_run _ _ _ _ _ _ _ _ H3)). cbv beta.
       rewrite (bind_normal _ _ _ _ _ (formatField_run _ _ _ _ _ _ _ _ H4)). cbv beta.
       rewrite (bind_normal _ _ _ _ _ (formatField_run _ _ _ _ _ _ _ _ H5)). cbv beta.
       rewrite (bind_normal _ _ _ _ _ (formatField_run _ _ _ _ _ _ _ _ H6)). cbv beta.
       rewrite (bind_normal _ _ _ _ _ (formatField_run _ _ _ _ _ _ _ _ H7)). cbv beta.
       rewrite (bind_throw _ _ _ _ _ (formatField_throw _ _ _ _ _ _ _ _ H8)).
       eexists.
       destruct pg as [doc reg tick con lib]. unfold with_console. cbn.
       rewrite <- !app_assoc. reflexivity. }
  left. exists rpVal, rpChg, zVal, zChg, aVal, aChg, caVal, caChg. repeat split; reflexivity.
Qed.

End ControllerEdges.

(** ** The performance controller: the fallback of each metric *)

Section PerMetricClaim.

(** A render of a series on a drawable canvas calls the constructor once,
    after the chart registered before has been destroyed, with the values
    and dates of the series; the call returns normally whether or not the
    constructor throws. *)
Lemma renderSeries_builds (host : Host) (canvasId : string) (s : jsval) (color : string)
    (pg : Page) :
  drawable (document pg) canvasId = true ->
  truthy s = true ->
  renderable host s ->
  exists pg' older cfg,
    renderSeries host canvasId s color pg = (Normal tt, pg')
    /\ document pg' = document pg
    /\ library pg'
       = ((library pg ++ older)
          ++ [construction host (library pg ++ older) canvasId cfg])%list
    /\ cfg_data cfg = array_or_empty (field_of s p_values)
    /\ cfg_labels cfg = array_or_empty (field_of s p_dates).
Proof.
  intros Hd Ht [radius Hr]. unfold renderSeries.
  rewrite (bind_normal _ _ pg pg (field_of s p_values))
    by (unfold lift; now rewrite (get_truthy _ _ Ht)).
  rewrite (bind_normal _ _ pg pg (field_of s p_dates))
    by (unfold lift; now rewrite (get_truthy _ _ Ht)).
  pose proof (renderChart_drawable host canvasId (field_of s p_values) (field_of s p_dates)
                color pg radius Hd Hr) as E.
  cbn zeta in E. rewrite E. unfold construction, library_disposed.
  set (older := match registered pg canvasId with
                | Some inst => [Destroyed inst]
                | None => []
                end).
  set (cfg := config_on host pg canvasId (field_of s p_values) (field_of s p_dates)
                        color radius).
  destruct (host_Chart_throws host (library pg ++ older) canvasId cfg) eqn:Hthrow;
    eexists; exists older, cfg; rewrite ?Hthrow;
    (split; [reflexivity |]); cbn [document library];
    repeat split; reflexivity.
Qed.

(** The four renders on drawable canvases: each metric's chart is built from
    its own series. *)
Lemma renderAll_builds (host : Host) (apiData : jsval) (P : Page) :
  (forall id, In id canvas_ids -> drawable (document P) id = true) ->
  (forall m, In m metrics -> renderable host (series apiData m)) ->
  exists pg',
    renderAll host apiData P = (Normal tt, pg')
    /\ forall row, In row metric_table ->
         built_from host pg' (row_canvas row) (series apiData (row_metric row)).
Proof.
  intros Hd Hr. unfold renderAll.
  assert (D0a := Hd "relativePerformanceChart" ltac:(cbn; tauto)).
  assert (D0b := Hd "movingZScoreChart" ltac:(cbn; tauto)).
  assert (D0c := Hd "alphaChart" ltac:(cbn; tauto)).
  assert (D0d := Hd "cumulativeAlphaChart" ltac:(cbn; tauto)).
  assert (R1 := Hr p_relative_performance ltac:(cbn; tauto)).
  assert (R2 := Hr p_moving_z_score ltac:(cbn; tauto)).
  assert (R3 := Hr p_alpha ltac:(cbn; tauto)).
  assert (R4 := Hr p_cumulative_alpha ltac:(cbn; tauto)).
  destruct (renderSeries_builds host "relativePerformanceChart"
              (series apiData p_relative_performance) "#1E90FF" P
              D0a (series_truthy _ _) R1)
    as (pg1 & o1 & c1 & E1 & D1 & L1 & A1 & B1).
  rewrite (bind_normal _ _ _ _ _ E1).
  rewrite <- D1 in D0b, D0c, D0d.
  destruct (renderSeries_builds host "movingZScoreChart"
              (series apiData p_moving_z_score) "#FFA500" pg1
              D0b (series_truthy _ _) R2)
    as (pg2 & o2 & c2 & E2 & D2 & L2 & A2 & B2).
  rewrite (bind_normal _ _ _ _ _ E2).
  rewrite <- D2 in D0c, D0d.
  destruct (renderSeries_builds host "alphaChart"
              (series apiData p_alpha) "#32CD32" pg2
              D0c (series_truthy _ _) R3)
    as (pg3 & o3 & c3 & E3 & D3 & L3 & A3 & B3).
  rewrite (bind_normal _ _ _ _ _ E3).
  rewrite <- D3 in D0d.
  destruct (renderSeries_builds host "cumulativeAlphaChart"
              (series apiData p_cumulative_alpha) "#9370DB" pg3
              D0d (series_truthy _ _) R4)
    as (pg4 & o4 & c4 & E4 & D4 & L4 & A4 & B4).
  exists pg4. split; [exact E4 |].
  set (b1 := (library P ++ o1)%list) in *.
  set (b2 := (library pg1 ++ o2)%list) in *.
  set (b3 := (library pg2 ++ o3)%list) in *.
  set (b4 := (library pg3 ++ o4)%list) in *.
  intros row Hin. unfold built_from.
  cbn in Hin. destruct Hin as [<- | [<- | [<- | [<- | []]]]]; cbn [row_canvas row_metric].
  - exists b1, c1. eexists. split; [|split; assumption].
    rewrite L4. unfold b4. rewrite L3. unfold b3. rewrite L2. unfold b2. rewrite L1.
    rewrite <- !app_assoc. reflexivity.
  - exists b2, c2. eexists. split; [|split; assumption].
    rewrite L4. unfold b4. rewrite L3. unfold b3. rewrite L2.
    rewrite <- !app_assoc. reflexivity.
  - exists b3, c3. eexists. split; [|split; assumption].
    rewrite L4. unfold b4. rewrite L3.
    rewrite <- !app_assoc. reflexivity.
  - exists b4, c4, []. split; [|split; assumption]. exact L4.
Qed.

(** C9 (amended): for a successful response without a truthy error field,
    each metric uses its own field of the payload when that field is truthy
    and the zero-valued fallback when it is absent or falsy, whatever the
    other metrics are.  When the eight texts format without an exception
    ([out m f] is the text formatted for the field [f] of the metric [m]),
    the slots of an absent metric show the zero text, the slots of a
    present metric show its formatted value and change, and on drawable
    canvases each chart is built from the [values] and [dates] of that
    metric's series, whether or not the constructor throws.  A present
    metric is not always formatted: when its value or its change is [null]
    or a boolean, the call throws before any slot is written and before
    any chart is built. *)
Theorem controller_per_metric_fallback (host : Host) (status : Z) (apiData err : jsval)
    (ticker : string) (pg : Page) :
  get apiData p_error = Normal err -> truthy err = false ->
  slots_ok (document pg) = true ->
  let run := loadPerformanceDataAndRenderCharts
               host (FetchResponse true status (Some apiData)) ticker pg in
  (forall row, In row metric_table ->
     metricOrFallback apiData (row_metric row)
     = Normal (if truthy (field_of apiData (row_metric row))
               then field_of apiData (row_metric row) else fallback))
  /\ (forall out : PropName -> PropName -> string,
        (forall row f, In row metric_table -> In f [p_value; p_change] ->
           formatted host apiData (row_metric row) f (row_digits row) (row_percent row)
           = Normal (out (row_metric row) f)) ->
        forall row, In row metric_table ->
          let m := row_metric row in
          (truthy (field_of apiData m) = false ->
           out m p_value = zero_text row /\ out m p_change = zero_text row)
          /\ (truthy (field_of apiData m) = true ->
              formatSignedValue host (field_of (field_of apiData m) p_value)
                                (row_digits row) (row_percent row) = Normal (out m p_value)
              /\ formatSignedValue host (field_of (field_of apiData m) p_change)
                                   (row_digits row) (row_percent row) = Normal (out m p_change))
          /\ Dom.text_of (document (snd run)) (row_value_id row) = Some (trim (out m p_value))
          /\ Dom.text_of (document (snd run)) (row_change_id row) = Some (trim (out m p_change))
          /\ ((forall id, In id canvas_ids -> drawable (document pg) id = true) ->
              (forall r, In r metrics -> renderable host (series apiData r)) ->
              fst run = Normal tt
              /\ built_from host (snd run) (row_canvas row) (series apiData m)))
  /\ (forall row f, In row metric_table -> In f [p_value; p_change] ->
        truthy (field_of apiData (row_metric row)) = true ->
        (field_of (field_of apiData (row_metric row)) f = VNull
         \/ exists b, field_of (field_of apiData (row_metric row)) f = VBool b) ->
        exists e logs, run = (Throw e, with_console (console pg ++ logs) pg)).
Proof.
  intros Hg Ht Hslots run.
  set (resp := FetchResponse true status (Some apiData)) in *.
  assert (Hapi : api_result resp = apiData) by exact (api_result_success _ _ _ Hg Ht).
  split; [|split].
  - intros row _. rewrite metricOrFallback_series. reflexivity.
  - intros out Hout row Hrow m. subst m.
    assert (Hf : forall r f, In r metric_table -> In f [p_value; p_change] ->
                   formatted host (api_result resp) (row_metric r) f (row_digits r)
                             (row_percent r)
                   = Normal (out (row_metric r) f)).
    { intros r f Hr Hfld. rewrite Hapi. now apply Hout. }
    assert (F1 := Hf row_rp p_value ltac:(cbn; tauto) ltac:(cbn; tauto)).
    assert (F2 := Hf row_rp p_change ltac:(cbn; tauto) ltac:(cbn; tauto)).
    assert (F3 := Hf row_zscore p_value ltac:(cbn; tauto) ltac:(cbn; tauto)).
    assert (F4 := Hf row_zscore p_change ltac:(cbn; tauto) ltac:(cbn; tauto)).
    assert (F5 := Hf row_alpha p_value ltac:(cbn; tauto) ltac:(cbn; tauto)).
    assert (F6 := Hf row_alpha p_change ltac:(cbn; tauto) ltac:(cbn; tauto)).
    assert (F7 := Hf row_cumulative p_value ltac:(cbn; tauto) ltac:(cbn; tauto)).
    assert (F8 := Hf row_cumulative p_change ltac:(cbn; tauto) ltac:(cbn; tauto)).
    cbn [row_rp row_zscore row_alpha row_cumulative row_metric row_digits row_percent]
      in F1, F2, F3, F4, F5, F6, F7, F8.
    set (us := performance_updates
                 (out p_relative_performance p_value) (out p_relative_performance p_change)
                 (out p_moving_z_score p_value) (out p_moving_z_score p_change)
                 (out p_alpha p_value) (out p_alpha p_change)
                 (out p_cumulative_alpha p_value) (out p_cumulative_alpha p_change)).
    destruct (controller_tail host resp ticker pg _ _ _ _ _ _ _ _ F1 F2 F3 F4 F5 F6 F7 F8)
      as (P & Erun & HP & _).
    fold us in HP.
    destruct (controller_run host resp ticker pg _ _ _ _ _ _ _ _ F1 F2 F3 F4 F5 F6 F7 F8)
      as (Hdoc & _).
    fold us in Hdoc. fold run in Hdoc, Erun.
    pose proof (performance_ids_NoDup
                 (out p_relative_performance p_value) (out p_relative_performance p_change)
                 (out p_moving_z_score p_value) (out p_moving_z_score p_change)
                 (out p_alpha p_value) (out p_alpha p_change)
                 (out p_cumulative_alpha p_value) (out p_cumulative_alpha p_change)) as Hnd.
    pose proof (performance_slots _
                 (out p_relative_performance p_value) (out p_relative_performance p_change)
                 (out p_moving_z_score p_value) (out p_moving_z_score p_change)
                 (out p_alpha p_value) (out p_alpha p_change)
                 (out p_cumulative_alpha p_value) (out p_cumulative_alpha p_change)
                 Hslots) as Hs.
    fold us in Hnd, Hs.
    destruct (format_zero host) as (Z1 & Z2 & Z3).
    split; [|split; [|split; [|split]]].
    + intros Habs.
      pose proof (Hout row p_value Hrow ltac:(cbn; tauto)) as Ev.
      pose proof (Hout row p_change Hrow ltac:(cbn; tauto)) as Ec.
      rewrite (formatted_fallback _ _ _ _ _ _ Habs) in Ev by tauto.
      rewrite (formatted_fallback _ _ _ _ _ _ Habs) in Ec by tauto.
      unfold zero_text.
      cbn in Hrow. destruct Hrow as [<- | [<- | [<- | [<- | []]]]];
        cbn [row_rp row_zscore row_alpha row_cumulative row_metric row_digits row_percent
             Z.eqb Pos.eqb] in *;
        split; congruence.
    + intros Hpres.
      pose proof (Hout row p_value Hrow ltac:(cbn; tauto)) as Ev.
      pose proof (Hout row p_change Hrow ltac:(cbn; tauto)) as Ec.
      rewrite (formatted_present _ _ _ _ _ _ Hpres) in Ev.
      rewrite (formatted_present _ _ _ _ _ _ Hpres) in Ec. now split.
    + rewrite Hdoc.
      set (u := mkCardUpdate (row_value_id row) (row_change_id row)
                             (out (row_metric row) p_value) (out (row_metric row) p_change)).
      assert (Hu : In u us).
      { subst u. cbn in Hrow. destruct Hrow as [<- | [<- | [<- | [<- | []]]]]; cbn; tauto. }
      exact (proj1 (apply_updates_text us (document pg) u Hnd Hs Hu)).
    + rewrite Hdoc.
      set (u := mkCardUpdate (row_value_id row) (row_change_id row)
                             (out (row_metric row) p_value) (out (row_metric row) p_change)).
      assert (Hu : In u us).
      { subst u. cbn in Hrow. destruct Hrow as [<- | [<- | [<- | [<- | []]]]]; cbn; tauto. }
      exact (proj2 (apply_updates_text us (document pg) u Hnd Hs Hu)).
    + intros Hd Hr.
      destruct (renderAll_builds host apiData P) as (pg' & E' & R); try assumption.
      { intros id Hin. rewrite HP.
        rewrite (drawable_same_frame _ _ _ (apply_updates_frame _ _ Hnd Hs)). now apply Hd. }
      rewrite Hapi in Erun. rewrite Erun, E'. cbn [fst snd].
      split; [reflexivity | now apply R].
  - intros row f Hrow Hfld Hpres Hbad.
    assert (He : formatted host (api_result resp) (row_metric row) f (row_digits row)
                           (row_percent row) = Throw TypeError).
    { rewrite Hapi, (formatted_present _ _ _ _ _ _ Hpres).
      destruct Hbad as [-> | [b ->]]; reflexivity. }
    destruct (controller_cases host resp ticker)
      as [(rpVal & rpChg & zVal & zChg & aVal & aChg & caVal & caChg &
           H1 & H2 & H3 & H4 & H5 & H6 & H7 & H8) | (e' & _ & _ & _ & _ & _ & E)].
    + exfalso. cbn in Hrow, Hfld.
      destruct Hrow as [<-|[<-|[<-|[<-|[]]]]], Hfld as [<-|[<-|[]]];
        cbn [row_metric row_digits row_percent row_rp row_zscore row_alpha row_cumulative]
          in He;
        congruence.
    + destruct (E pg) as (logs & E'). now exists e', logs.
Qed.

End PerMetricClaim.

Section PerMetricInstances.

(** C9 as stated fails: a metric that is present in the payload is not
    always formatted.  With an alpha whose value is [null] and no error
    field, the call throws a TypeError and the alpha slot is as before,
    empty. *)
Lemma controller_present_metric_null :
  fst (loadPerformanceDataAndRenderCharts
         Template.host (FetchResponse true 200 (Some Template.payload_null))
         "IBM" Template.page)
  = Throw TypeError
  /\ truthy (field_of Template.payload_null p_alpha) = true
  /\ Dom.text_of
       (document (snd (loadPerformanceDataAndRenderCharts
                         Template.host (FetchResponse true 200 (Some Template.payload_null))
                         "IBM" Template.page)))
       "alpha-value" = Some EmptyString.
Proof. repeat split; vm_compute; reflexivity. Qed.

Lemma controller_per_metric_fallback_witness :
  Dom.text_of
    (document (snd (loadPerformanceDataAndRenderCharts
                      Template.host (FetchResponse true 200 (Some Template.payload_alpha))
                      "IBM" Template.page)))
    "alpha-value" = Some "+1.500"
  /\ Dom.text_of
       (document (snd (loadPerformanceDataAndRenderCharts
                         Template.host (FetchResponse true 200 (Some Template.payload_alpha))
                         "IBM" Template.page)))
       "zscore-value" = Some "+0.00"
  /\ built_from Template.host
       (snd (loadPerformanceDataAndRenderCharts
               Template.host (FetchResponse true 200 (Some Template.payload_alpha))
               "IBM" Template.page))
       "alphaChart" (series Template.payload_alpha p_alpha).
Proof.
  assert (Hout : forall row f, In row metric_table -> In f [p_value; p_change] ->
            formatted Template.host Template.payload_alpha (row_metric row) f
                      (row_digits row) (row_percent row)
            = Normal (Template.texts_alpha (row_metric row) f)).
  { intros row f Hrow Hf. cbn in Hrow, Hf.
    destruct Hrow as [<- | [<- | [<- | [<- | []]]]];
      destruct Hf as [<- | [<- | []]]; vm_compute; reflexivity. }
  pose proof (proj1 (proj2
                (controller_per_metric_fallback Template.host 200 Template.payload_alpha
                   VUndef "IBM" Template.page eq_refl eq_refl eq_refl))
                Template.texts_alpha Hout) as T.
  cbv zeta in T.
  split; [|split].
  - exact (proj1 (proj2 (proj2 (T row_alpha ltac:(cbn; tauto))))).
  - exact (proj1 (proj2 (proj2 (T row_zscore ltac:(cbn; tauto))))).
  - refine (proj2 (proj2 (proj2 (proj2 (proj2 (T row_alpha ltac:(cbn; tauto))))) _ _)).
    + intros id Hin. cbn in Hin.
      destruct Hin as [<- | [<- | [<- | [<- | []]]]]; reflexivity.
    + intros r Hin. cbn in Hin.
      destruct Hin as [<- | [<- | [<- | [<- | []]]]]; eexists; vm_compute; reflexivity.
Defined.

End PerMetricInstances.

Section ControllerInvariants.

(** A property of pages that every call of [renderChart] keeps is kept by
    the four calls that end the controller, however they end. *)
Lemma renderSeries_inv (I : Page -> Prop) (host : Host) :
  (forall id data labels color pg,
     I pg -> I (snd (renderChart host id data labels color pg))) ->
  forall id s color pg, I pg -> I (snd (renderSeries host id s color pg)).
Proof.
  intros H id s color pg HI. unfold renderSeries, lift.
  rewrite bind_run. cbn [fst snd]. destruct (get s p_values) as [values|e]; [|exact HI].
  rewrite bind_run. cbn [fst snd]. destruct (get s p_dates) as [dates|e]; [|exact HI].
  now apply H.
Qed.

Lemma renderAll_inv (I : Page -> Prop) (host : Host) (apiData : jsval) :
  (forall id data labels color pg,
     I pg -> I (snd (renderChart host id data labels color pg))) ->
  forall pg, I pg -> I (snd (renderAll host apiData pg)).
Proof.
  intros H pg HI. unfold renderAll.
  pose proof (renderSeries_inv I host H) as S.
  rewrite bind_run.
  pose proof (S "relativePerformanceChart" (series apiData p_relative_performance)
                "#1E90FF" pg HI) as H1.
  destruct (fst _); [|exact H1].
  rewrite bind_run.
  pose proof (S "movingZScoreChart" (series apiData p_moving_z_score) "#FFA500" _ H1) as H2.
  destruct (fst _); [|exact H2].
  rewrite bind_run.
  pose proof (S "alphaChart" (series apiData p_alpha) "#32CD32" _ H2) as H3.
  destruct (fst _); [|exact H3].
  exact (S "cumulativeAlphaChart" (series apiData p_cumulative_alpha) "#9370DB" _ H3).
Qed.

Lemma charts_ok_ext (pg pg' : Page) :
  charts pg' = charts pg -> library pg' = library pg -> charts_ok pg -> charts_ok pg'.
Proof.
  unfold charts_ok, instances_ok, registry_of. intros -> ->. exact (fun H => H).
Qed.

(** X10: the controller formats all eight texts before it writes any of
    them: when the formatting of one field throws (a [null] value, for
    instance), the exception escapes the call, and the document, the
    registry, the ticker and the library trace are as before; only the
    console has grown. *)
Theorem controller_format_error (host : Host) (resp : FetchOutcome jsval) (ticker : string)
    (pg : Page) (row : MetricRow) (f : PropName) (e : jserror) :
  In row metric_table -> In f [p_value; p_change] ->
  formatted host (api_result resp) (row_metric row) f (row_digits row) (row_percent row)
  = Throw e ->
  exists e' logs,
    loadPerformanceDataAndRenderCharts host resp ticker pg
    = (Throw e', with_console (console pg ++ logs) pg).
Proof.
  intros Hrow Hf He.
  destruct (controller_cases host resp ticker)
    as [(rpVal & rpChg & zVal & zChg & aVal & aChg & caVal & caChg &
         H1 & H2 & H3 & H4 & H5 & H6 & H7 & H8) | (e' & _ & _ & _ & _ & _ & E)].
  - exfalso. cbn in Hrow, Hf.
    destruct Hrow as [<-|[<-|[<-|[<-|[]]]]], Hf as [<-|[<-|[]]];
      cbn in He; congruence.
  - destruct (E pg) as (logs & E'). now exists e', logs.
Qed.

(** X11: the controller keeps the registry and the library in agreement,
    whatever the response and however the run ends; so after any run no
    canvas carries more than one live chart. *)
Theorem controller_one_live_chart (host : Host) (resp : FetchOutcome jsval) (ticker : string)
    (pg : Page) :
  charts_ok pg ->
  let pg' := snd (loadPerformanceDataAndRenderCharts host resp ticker pg) in
  charts_ok pg'
  /\ forall id, (List.length (live_on (library pg') id) <= 1)%nat.
Proof.
  intros Hok pg'.
  assert (Hok' : charts_ok pg').
  { unfold pg'.
    destruct (controller_cases host resp ticker)
      as [(rpVal & rpChg & zVal & zChg & aVal & aChg & caVal & caChg &
           H1 & H2 & H3 & H4 & H5 & H6 & H7 & H8) | (e' & _ & _ & _ & _ & _ & E)].
    - destruct (controller_tail host resp ticker pg _ _ _ _ _ _ _ _ H1 H2 H3 H4 H5 H6 H7 H8)
        as (P & -> & _ & HL & HC & _).
      apply (renderAll_inv charts_ok).
      + intros. now apply renderChart_charts_ok.
      + exact (charts_ok_ext pg P HC HL Hok).
    - destruct (E pg) as (logs & ->). cbn [snd]. now apply charts_ok_console. }
  split; [exact Hok' |]. intros id. destruct Hok' as (_ & _ & Hlive).
  rewrite Hlive. unfold registry_list. destruct (_ !! id) as [[i|]|]; cbn; lia.
Qed.

End ControllerInvariants.

Section ControllerTitles.

Lemma renderChart_titled (host : Host) (ticker : string) (lib0 : list LibEvent)
    (id : string) (data labels : jsval) (color : string) (pg : Page) :
  (currentTicker pg = Some ticker
   /\ exists new, library pg = (lib0 ++ new)%list /\ Forall (titled host ticker) new) ->
  let pg' := snd (renderChart host id data labels color pg) in
  currentTicker pg' = Some ticker
  /\ exists new, library pg' = (lib0 ++ new)%list /\ Forall (titled host ticker) new.
Proof.
  intros (Ht & new & Hlib & Hnew).
  assert (Hdis : exists new', library_disposed pg id = (lib0 ++ new')%list
                              /\ Forall (titled host ticker) new').
  { unfold library_disposed. rewrite Hlib.
    destruct (registered pg id) as [inst|].
    - exists (new ++ [Destroyed inst])%list. split; [now rewrite app_assoc |].
      apply Forall_app. split; [exact Hnew | now repeat constructor].
    - exists new. split; [now rewrite app_nil_r | exact Hnew]. }
  destruct Hdis as (new' & Hlib' & Hnew').
  destruct (renderChart_cases host id data labels color pg)
    as [[Hs E] | [(Hs & Hd & msg & E) | [(Hd & e & Hr & E) | (Hd & r & entry & ev & Hr & E & Hev)]]];
    cbv zeta; rewrite E; cbn [snd].
  - split; [exact Ht |]. now exists new.
  - destruct pg; cbn in *. split; [exact Ht |]. now exists new.
  - cbn. split; [exact Ht |]. now exists new'.
  - cbn [library currentTicker]. split; [exact Ht |].
    exists (new' ++ [ev])%list. split; [now rewrite Hlib', app_assoc |].
    apply Forall_app. split; [exact Hnew' |]. constructor; [|constructor].
    destruct Hev as [-> | ->]; unfold titled, config_on; cbn; rewrite Ht; now split.
Qed.

(** X12: every configuration the controller passes to the chart library
    during a run is titled and labelled for the ticker of that run (the
    ticker is stored before the first chart is drawn); when the run stops
    before that, it has called the library not at all. *)
Theorem controller_titles (host : Host) (resp : FetchOutcome jsval) (ticker : string)
    (pg : Page) :
  let pg' := snd (loadPerformanceDataAndRenderCharts host resp ticker pg) in
  exists new,
    library pg' = (library pg ++ new)%list
    /\ Forall (titled host ticker) new
    /\ (currentTicker pg' = Some ticker
        \/ new = [] /\ currentTicker pg' = currentTicker pg /\ document pg' = document pg).
Proof.
  cbv zeta.
  destruct (controller_cases host resp ticker)
    as [(rpVal & rpChg & zVal & zChg & aVal & aChg & caVal & caChg &
         H1 & H2 & H3 & H4 & H5 & H6 & H7 & H8) | (e' & _ & _ & _ & _ & _ & E)].
  - destruct (controller_tail host resp ticker pg _ _ _ _ _ _ _ _ H1 H2 H3 H4 H5 H6 H7 H8)
      as (P & -> & _ & HL & _ & HT).
    destruct (renderAll_inv
                (fun p => currentTicker p = Some ticker
                          /\ exists new, library p = (library pg ++ new)%list
                                         /\ Forall (titled host ticker) new)
                host (api_result resp)) with (pg := P) as (Ht & new & Hlib & Hnew).
    + intros id data labels color p Hp.
      exact (renderChart_titled host ticker (library pg) id data labels color p Hp).
    + split; [exact HT |]. exists []. split; [now rewrite app_nil_r | constructor].
    + exists new. split; [exact Hlib |]. split; [exact Hnew | now left].
  - destruct (E pg) as (logs & ->). cbn [snd]. exists []. destruct pg; cbn.
    split; [now rewrite app_nil_r |]. split; [constructor |]. right. auto.
Qed.

End ControllerTitles.

Section ControllerSlots.

Implicit Types (doc : Document) (us : list CardUpdate) (u : CardUpdate).

Lemma In_update_ids us u :
  In u us -> In (cu_value_id u) (update_ids us) /\ In (cu_change_id u) (update_ids us).
Proof.
  induction us as [|u0 us IH]; [intros [] |].
  rewrite update_ids_cons. intros [->|H]; cbn; [tauto |]. destruct (IH H). tauto.
Qed.

Lemma container_of_same_frame doc doc' (id : string) :
  same_frame doc doc' -> container_of doc' id = container_of doc id.
Proof.
  intros (F1 & F2 & _). unfold container_of. rewrite F1.
  destruct (Dom.getElementById id doc); [apply F2 | reflexivity].
Qed.

(** The container of a change slot gets its sign class from the update of
    that slot; the other updates leave it alone when their containers are
    other elements. *)
Lemma apply_updates_classes us doc u (o : nat) (cls : list string) :
  List.NoDup (update_ids us) -> slots_of doc (update_ids us) -> In u us ->
  container_of doc (cu_change_id u) = Some o ->
  (forall u', In u' us -> cu_change_id u' <> cu_change_id u ->
              container_of doc (cu_change_id u') <> Some o) ->
  Dom.classes doc o = Some cls ->
  Dom.classes (apply_updates us doc) o
  = Some (Dom.add_class (if startsWith "-" (cu_change u) then "negative" else "positive")
                        (Dom.remove_classes ["positive"; "negative"] cls)).
Proof.
  revert doc. induction us as [|u0 us IH]; intros doc Hnd Hs Hin Ho Hothers Hcls;
    [destruct Hin |].
  pose proof Hnd as Hnd0. rewrite update_ids_cons in Hnd, Hs.
  apply List.NoDup_cons_iff in Hnd as [Hv Hnd]. apply List.NoDup_cons_iff in Hnd as [Hc Hnd].
  destruct (Hs (cu_value_id u0) ltac:(cbn; tauto)) as [hv Sv].
  destruct (Hs (cu_change_id u0) ltac:(cbn; tauto)) as [hc Sc].
  assert (Hne : cu_value_id u0 <> cu_change_id u0) by (intros E; apply Hv; cbn; auto).
  destruct (apply_update_slots doc u0 hv hc Sv Sc Hne) as (F & _ & _ & _ & Ko & K).
  assert (Hs1 : slots_of (apply_update doc u0) (update_ids us)).
  { apply (slots_of_same_frame _ _ _ F). exact (slots_of_tail _ _ _ _ Hs). }
  cbn [apply_updates fold_left]. fold (apply_updates us (apply_update doc u0)).
  destruct (String.eqb_spec (cu_change_id u0) (cu_change_id u)) as [Heq|Hneq].
  - assert (u = u0) as ->.
    { destruct Hin as [<-|Hin]; [reflexivity |].
      exfalso. apply Hc. rewrite Heq. now apply In_update_ids. }
    rewrite (apply_updates_classes_other _ _ _ Hnd Hs1).
    + apply K; [|exact Hcls]. unfold container_of in Ho. now rewrite (proj1 Sc) in Ho.
    + intros u' Hu'. rewrite (container_of_same_frame _ _ _ F).
      apply Hothers; [now right |]. intros E. apply Hc. rewrite <- E. now apply In_update_ids.
  - destruct Hin as [->|Hin]; [contradiction |].
    apply IH; try assumption.
    + now rewrite (container_of_same_frame _ _ _ F).
    + intros u' Hu' Hd. rewrite (container_of_same_frame _ _ _ F).
      apply Hothers; [now right | exact Hd].
    + rewrite Ko; [exact Hcls |].
      specialize (Hothers u0 ltac:(now left) Hneq).
      unfold container_of in Hothers. now rewrite (proj1 Sc) in Hothers.
Qed.

Lemma containers_inj doc (a b : string) :
  containers_ok doc = true -> In a change_ids -> In b change_ids ->
  container_of doc a = container_of doc b -> a = b.
Proof.
  unfold containers_ok. intros [_ Hnd]%andb_prop.
  apply bool_decide_eq_true in Hnd. cbn [List.map change_ids] in Hnd.
  repeat match goal with
         | H : NoDup (_ :: _) |- _ => apply NoDup_cons in H as [? H]
         end.
  cbn. intros [<-|[<-|[<-|[<-|[]]]]] [<-|[<-|[<-|[<-|[]]]]] E; try reflexivity;
    exfalso; set_solver.
Qed.

Lemma containers_exist doc (a : string) :
  containers_ok doc = true -> In a change_ids -> exists o, container_of doc a = Some o.
Proof.
  unfold containers_ok. intros [Hex _]%andb_prop Hin.
  apply (proj1 (forallb_forall _ _) Hex) in Hin.
  destruct (container_of doc a) as [o|]; [now exists o | discriminate].
Qed.

End ControllerSlots.

Section ControllerTexts.

Implicit Types (doc : Document) (us : list CardUpdate) (u : CardUpdate).

Lemma parentElement_element doc (h o : nat) :
  Dom.parentElement doc h = Some o -> exists e, Dom.element doc o = Some e.
Proof.
  unfold Dom.parentElement. destruct (Dom.element doc h) as [e|]; [|discriminate].
  destruct (el_parent e) as [p|]; [|discriminate].
  destruct (Dom.element doc p) as [e'|] eqn:E; [|discriminate].
  intros [= <-]. now exists e'.
Qed.

(** The document the controller leaves when the eight texts are formatted
    as [out] says. *)
Lemma controller_updates (host : Host) (resp : FetchOutcome jsval) (ticker : string)
    (pg : Page) (out : PropName -> PropName -> string) :
  (forall row f, In row metric_table -> In f [p_value; p_change] ->
     formatted host (api_result resp) (row_metric row) f (row_digits row) (row_percent row)
     = Normal (out (row_metric row) f)) ->
  let us := List.map (row_update out) metric_table in
  document (snd (loadPerformanceDataAndRenderCharts host resp ticker pg))
  = apply_updates us (document pg)
  /\ List.NoDup (update_ids us)
  /\ (slots_ok (document pg) = true -> slots_of (document pg) (update_ids us)).
Proof.
  intros Hf us.
  assert (F1 := Hf row_rp p_value ltac:(cbn; tauto) ltac:(cbn; tauto)).
  assert (F2 := Hf row_rp p_change ltac:(cbn; tauto) ltac:(cbn; tauto)).
  assert (F3 := Hf row_zscore p_value ltac:(cbn; tauto) ltac:(cbn; tauto)).
  assert (F4 := Hf row_zscore p_change ltac:(cbn; tauto) ltac:(cbn; tauto)).
  assert (F5 := Hf row_alpha p_value ltac:(cbn; tauto) ltac:(cbn; tauto)).
  assert (F6 := Hf row_alpha p_change ltac:(cbn; tauto) ltac:(cbn; tauto)).
  assert (F7 := Hf row_cumulative p_value ltac:(cbn; tauto) ltac:(cbn; tauto)).
  assert (F8 := Hf row_cumulative p_change ltac:(cbn; tauto) ltac:(cbn; tauto)).
  cbn [row_rp row_zscore row_alpha row_cumulative row_metric row_digits row_percent]
    in F1, F2, F3, F4, F5, F6, F7, F8.
  destruct (controller_run host resp ticker pg _ _ _ _ _ _ _ _ F1 F2 F3 F4 F5 F6 F7 F8)
    as (Hdoc & _).
  split; [exact Hdoc |]. split; [apply performance_ids_NoDup |].
  intros Hslots. now apply performance_slots.
Qed.

Lemma In_row_update (out : PropName -> PropName -> string) (row : MetricRow) :
  In row metric_table -> In (row_update out row) (List.map (row_update out) metric_table).
Proof. apply List.in_map. Qed.

(** X13: when the eight texts are formatted, every value slot and every
    change slot shows exactly the text the formatter returned for its
    field: the [trim] of [updateChartCardTextOnly] removes nothing. *)
Theorem controller_slot_texts (host : Host) (resp : FetchOutcome jsval) (ticker : string)
    (pg : Page) (out : PropName -> PropName -> string) :
  (forall row f, In row metric_table -> In f [p_value; p_change] ->
     formatted host (api_result resp) (row_metric row) f (row_digits row) (row_percent row)
     = Normal (out (row_metric row) f)) ->
  slots_ok (document pg) = true ->
  let pg' := snd (loadPerformanceDataAndRenderCharts host resp ticker pg) in
  forall row, In row metric_table ->
    Dom.text_of (document pg') (row_value_id row) = Some (out (row_metric row) p_value)
    /\ Dom.text_of (document pg') (row_change_id row) = Some (out (row_metric row) p_change).
Proof.
  intros Hf Hslots pg' row Hrow.
  destruct (controller_updates host resp ticker pg out Hf) as (Hdoc & Hnd & Hs).
  specialize (Hs Hslots). unfold pg'. rewrite Hdoc.
  destruct (apply_updates_text _ _ _ Hnd Hs (In_row_update out row Hrow)) as [Tv Tc].
  cbn [row_update cu_value_id cu_change_id cu_value cu_change] in Tv, Tc.
  pose proof (Hf row p_value Hrow ltac:(cbn; tauto)) as Ev.
  pose proof (Hf row p_change Hrow ltac:(cbn; tauto)) as Ec.
  rewrite formatted_series in Ev, Ec.
  apply formatSignedValue_visible, trim_visible in Ev.
  apply formatSignedValue_visible, trim_visible in Ec.
  rewrite Ev in Tv. rewrite Ec in Tc. now split.
Qed.

Lemma startsWith_minus_sign (b : bool) (rest : string) :
  startsWith "-" ((if b then "+" else "-") +:+ rest) = negb b.
Proof. now destruct b. Qed.

(** X14: after a run every change container carries exactly one of the
    classes "negative" and "positive", "negative" exactly when the
    formatted change starts with "-"; for a change that is a finite number
    that is exactly when the number is below zero, however small. *)
Theorem controller_sign_classes (host : Host) (resp : FetchOutcome jsval) (ticker : string)
    (pg : Page) (out : PropName -> PropName -> string) :
  (forall row f, In row metric_table -> In f [p_value; p_change] ->
     formatted host (api_result resp) (row_metric row) f (row_digits row) (row_percent row)
     = Normal (out (row_metric row) f)) ->
  slots_ok (document pg) = true ->
  containers_ok (document pg) = true ->
  let pg' := snd (loadPerformanceDataAndRenderCharts host resp ticker pg) in
  forall row, In row metric_table ->
    exists cls',
      Dom.container_classes (document pg') (row_change_id row) = Some cls'
      /\ (In "negative" cls' <-> startsWith "-" (out (row_metric row) p_change) = true)
      /\ (In "positive" cls' <-> startsWith "-" (out (row_metric row) p_change) = false)
      /\ (forall v : Q,
            field_of (series (api_result resp) (row_metric row)) p_change = VNum (Fin v) ->
            (In "negative" cls' <-> Qlt v 0)).
Proof.
  intros Hf Hslots Hcont pg' row Hrow.
  destruct (controller_updates host resp ticker pg out Hf) as (Hdoc & Hnd & Hs).
  specialize (Hs Hslots).
  set (us := List.map (row_update out) metric_table) in *.
  assert (Hid : In (row_change_id row) change_ids).
  { cbn in Hrow. destruct Hrow as [<-|[<-|[<-|[<-|[]]]]]; cbn; tauto. }
  destruct (containers_exist _ _ Hcont Hid) as (o & Ho).
  assert (Hcls : exists cls, Dom.classes (document pg) o = Some cls).
  { unfold container_of in Ho.
    destruct (Dom.getElementById (row_change_id row) (document pg)) as [h|]; [|discriminate].
    destruct (parentElement_element _ _ _ Ho) as (e & He).
    exists (el_classes e). unfold Dom.classes. now rewrite He. }
  destruct Hcls as (cls & Hcls).
  pose proof (apply_updates_classes us (document pg) (row_update out row) o cls Hnd Hs
                (In_row_update out row Hrow) Ho) as K.
  cbn [row_update cu_change_id cu_change] in K.
  assert (Hothers : forall u', In u' us -> cu_change_id u' <> row_change_id row ->
                      container_of (document pg) (cu_change_id u') <> Some o).
  { intros u' Hu' Hne E. apply Hne.
    apply (containers_inj (document pg)); [exact Hcont | | exact Hid | congruence].
    unfold us in Hu'. cbn in Hu'.
    destruct Hu' as [<-|[<-|[<-|[<-|[]]]]]; cbn; tauto. }
  specialize (K Hothers Hcls).
  set (txt := out (row_metric row) p_change) in *.
  set (cls' := Dom.add_class (if startsWith "-" txt then "negative" else "positive")
                 (Dom.remove_classes ["positive"; "negative"] cls)) in *.
  assert (Hneg : In "negative" cls' <-> startsWith "-" txt = true).
  { unfold cls'. rewrite In_add_class, In_remove_classes.
    destruct (startsWith "-" txt); split; auto; try discriminate.
    intros [H|[_ H]]; [discriminate |]. exfalso. apply H. cbn; auto. }
  assert (Hpos : In "positive" cls' <-> startsWith "-" txt = false).
  { unfold cls'. rewrite In_add_class, In_remove_classes.
    destruct (startsWith "-" txt); split; auto; try discriminate.
    intros [H|[_ H]]; [discriminate |]. exfalso. apply H. cbn; auto. }
  exists cls'. split.
  { unfold pg'. rewrite Hdoc, container_classes_classes. unfold classes_of_container.
    rewrite (container_of_same_frame _ _ _ (apply_updates_frame _ _ Hnd Hs)), Ho. exact K. }
  split; [exact Hneg |]. split; [exact Hpos |].
  intros v Hv. rewrite Hneg.
  pose proof (Hf row p_change Hrow ltac:(cbn; tauto)) as Ec. fold txt in Ec.
  rewrite formatted_series, Hv in Ec.
  assert (Hd : 0 <= row_digits row <= 100).
  { cbn in Hrow. destruct Hrow as [<-|[<-|[<-|[<-|[]]]]]; cbn; lia. }
  destruct (formatSignedValue_number host v (row_digits row) (row_percent row) Hd)
    as (body & E & _).
  rewrite E in Ec. injection Ec as <-.
  rewrite startsWith_minus_sign, negb_true_iff.
  rewrite <- not_true_iff_false, Qle_bool_iff. split.
  - apply Qnot_le_lt.
  - apply Qlt_not_le.
Qed.

End ControllerTexts.

Section ControllerBodies.

Lemma series_not_object (status : Z) (body : option jsval) (m : PropName) :
  match body with Some v => not_object v = true | None => True end ->
  In m metrics ->
  series (api_result (FetchResponse true status body)) m = fallback.
Proof.
  intros Hb Hm. destruct body as [v|]; [|reflexivity].
  cbn in Hm. destruct v; try discriminate;
    destruct Hm as [<-|[<-|[<-|[<-|[]]]]]; reflexivity.
Qed.

(** The run of the controller when every metric is the fallback. *)
Lemma controller_zero_texts (host : Host) (resp : FetchOutcome jsval) (ticker : string)
    (pg : Page) :
  (forall m, In m metrics -> series (api_result resp) m = fallback) ->
  slots_ok (document pg) = true ->
  canvases_ok (document pg) = true ->
  exists pg',
    loadPerformanceDataAndRenderCharts host resp ticker pg = (Normal tt, pg')
    /\ forall row, In row metric_table ->
         Dom.text_of (document pg') (row_value_id row) = Some (zero_text row)
         /\ Dom.text_of (document pg') (row_change_id row) = Some (zero_text row).
Proof.
  intros Hser Hslots Hcanvas.
  destruct (format_zero host) as (Z1 & Z2 & Z3).
  set (out := fun (m f : PropName) =>
                match m with
                | p_relative_performance => "+0.00%"
                | p_alpha => "+0.000"
                | _ => "+0.00"
                end).
  assert (Hf : forall row f, In row metric_table -> In f [p_value; p_change] ->
             formatted host (api_result resp) (row_metric row) f (row_digits row)
                       (row_percent row) = Normal (out (row_metric row) f)).
  { intros row f Hrow Hfld. rewrite formatted_series.
    rewrite Hser by (cbn in Hrow; destruct Hrow as [<-|[<-|[<-|[<-|[]]]]]; cbn; tauto).
    cbn in Hrow, Hfld.
    destruct Hrow as [<-|[<-|[<-|[<-|[]]]]], Hfld as [<-|[<-|[]]]; assumption. }
  destruct (controller_updates host resp ticker pg out Hf) as (Hdoc & Hnd & Hs).
  specialize (Hs Hslots).
  assert (F1 := Hf row_rp p_value ltac:(cbn; tauto) ltac:(cbn; tauto)).
  assert (F2 := Hf row_rp p_change ltac:(cbn; tauto) ltac:(cbn; tauto)).
  assert (F3 := Hf row_zscore p_value ltac:(cbn; tauto) ltac:(cbn; tauto)).
  assert (F4 := Hf row_zscore p_change ltac:(cbn; tauto) ltac:(cbn; tauto)).
  assert (F5 := Hf row_alpha p_value ltac:(cbn; tauto) ltac:(cbn; tauto)).
  assert (F6 := Hf row_alpha p_change ltac:(cbn; tauto) ltac:(cbn; tauto)).
  assert (F7 := Hf row_cumulative p_value ltac:(cbn; tauto) ltac:(cbn; tauto)).
  assert (F8 := Hf row_cumulative p_change ltac:(cbn; tauto) ltac:(cbn; tauto)).
  cbn [row_rp row_zscore row_alpha row_cumulative row_metric row_digits row_percent out]
    in F1, F2, F3, F4, F5, F6, F7, F8.
  destruct (controller_run host resp ticker pg _ _ _ _ _ _ _ _ F1 F2 F3 F4 F5 F6 F7 F8)
    as (_ & Hfst).
  destruct (loadPerformanceDataAndRenderCharts host resp ticker pg) as [c pg'] eqn:Erun.
  cbn [fst snd] in *.
  exists pg'. split.
  - rewrite Hfst; [reflexivity | |].
    + intros m Hm. rewrite (Hser m Hm). apply renderable_fallback.
    + exact (eq_trans (canvases_ok_same_frame _ _ (apply_updates_frame _ _ Hnd Hs)) Hcanvas).
  - intros row Hrow. rewrite Hdoc.
    destruct (apply_updates_text _ _ _ Hnd Hs (In_row_update out row Hrow)) as [Tv Tc].
    cbn [row_update cu_value_id cu_change_id cu_value cu_change] in Tv, Tc.
    cbn in Hrow. destruct Hrow as [<-|[<-|[<-|[<-|[]]]]]; split; assumption.
Qed.

(** X15: a successful response whose body is not JSON, or is JSON but not
    an object ([null], a number, a text, an array), is treated like a
    failed fetch: the call returns normally and every slot shows the zero
    text of its row. *)
Theorem controller_body_not_object (host : Host) (status : Z) (body : option jsval)
    (ticker : string) (pg : Page) :
  match body with Some v => not_object v = true | None => True end ->
  slots_ok (document pg) = true ->
  canvases_ok (document pg) = true ->
  exists pg',
    loadPerformanceDataAndRenderCharts host (FetchResponse true status body) ticker pg
    = (Normal tt, pg')
    /\ forall row, In row metric_table ->
         Dom.text_of (document pg') (row_value_id row) = Some (zero_text row)
         /\ Dom.text_of (document pg') (row_change_id row) = Some (zero_text row).
Proof.
  intros Hb. apply controller_zero_texts. intros m Hm. now apply series_not_object.
Qed.

End ControllerBodies.

(** ** The article cards: further properties *)

Section ArticleEdges.

Implicit Types (doc : Document) (h : nat).

Lemma fetch_json_fails {B : Type} (resp : FetchOutcome B) (pg : Page) :
  fetch_fails resp = true ->
  exists e, fetch_json resp pg = (Throw e, pg)
            /\ (e = NetworkError \/ e = SyntaxError \/ exists status, e = HttpError status).
Proof.
  destruct resp as [|[|] status [b|]]; try discriminate; intros _; eexists;
    (split; [reflexivity | eauto]).
Qed.

(** The run of [loadFmpArticles] when the fetch fails. *)
Lemma loadFmpArticles_failure_run (host : Host) (resp : FetchOutcome FmpPayload) (pg : Page)
    (h : nat) :
  fetch_fails resp = true ->
  Dom.getElementById "fmp-articles-container" (document pg) = Some h ->
  exists e,
    loadFmpArticles host resp pg
    = (Normal tt,
       mkPage (Dom.set_innerHTML h "<p>Failed to load FMP articles.</p>"
                 (Dom.set_innerHTML h "<p>Loading latest market articles...</p>" (document pg)))
              (charts pg) (currentTicker pg)
              (console pg ++ [Log "[loadFmpArticles] Fetching general FMP articles...";
                              LogException "[loadFmpArticles] Error fetching FMP articles:" e])
              (library pg))
    /\ (e = NetworkError \/ e = SyntaxError \/ exists status, e = HttpError status).
Proof.
  intros Hf Hh. unfold loadFmpArticles.
  erewrite bind_normal by reflexivity. cbv beta.
  erewrite bind_normal
    by (unfold getElementById, gets; cbn [document with_console]; rewrite Hh; reflexivity).
  cbv beta iota.
  erewrite bind_normal by reflexivity. cbv beta.
  match goal with
  | |- context [bind (try_catch ?m ?hd) ?k ?p] =>
      destruct (fetch_json_fails resp p Hf) as (e & E & He);
      assert (Et : try_catch m hd p = hd e p)
        by (unfold try_catch; rewrite (bind_throw _ _ _ _ _ E); reflexivity)
  end.
  exists e. split; [|exact He]. unfold bind at 1. rewrite Et.
  unfold bind, console_log, set_innerHTML, modify, ret, with_console, with_document.
  cbn. rewrite <- app_assoc. reflexivity.
Qed.

(** The run of [loadFmpArticles] on a successful response, with the whole
    page it leaves. *)
Lemma loadFmpArticles_success_page (host : Host) (status : Z) (payload : FmpPayload)
    (pg : Page) (h : nat) :
  Dom.getElementById "fmp-articles-container" (document pg) = Some h ->
  loadFmpArticles host (FetchResponse true status (Some payload)) pg
  = (Normal tt,
     mkPage (articles_document host payload h (document pg)) (charts pg) (currentTicker pg)
            (console pg ++ [Log "[loadFmpArticles] Fetching general FMP articles..."])
            (library pg)).
Proof.
  intros Hh. unfold loadFmpArticles.
  erewrite bind_normal by reflexivity. cbv beta.
  erewrite bind_normal
    by (unfold getElementById, gets; cbn [document with_console]; rewrite Hh; reflexivity).
  cbv beta iota.
  erewrite bind_normal by reflexivity. cbv beta.
  erewrite bind_normal by reflexivity. cbv beta iota.
  unfold articles_document.
  destruct payload as [[|first others]|].
  - reflexivity.
  - erewrite bind_normal by reflexivity. cbv beta.
    rewrite forEach_appendChild. reflexivity.
  - reflexivity.
Qed.

Lemma loadFmpArticles_missing (host : Host) (resp : FetchOutcome FmpPayload) (pg : Page) :
  Dom.getElementById "fmp-articles-container" (document pg) = None ->
  loadFmpArticles host resp pg
  = (Normal tt,
     with_console (console pg ++
                   [Log "[loadFmpArticles] Fetching general FMP articles...";
                    LogError "[loadFmpArticles] Container not found: #fmp-articles-container"])
                  pg).
Proof.
  intros Hh. unfold loadFmpArticles.
  erewrite bind_normal by reflexivity. cbv beta.
  erewrite bind_normal
    by (unfold getElementById, gets; cbn [document with_console]; rewrite Hh; reflexivity).
  cbv beta iota. destruct pg. unfold console_log, modify, with_console. cbn.
  now rewrite <- app_assoc.
Qed.

Lemma fetch_fails_cases {B : Type} (resp : FetchOutcome B) :
  fetch_fails resp = true \/ exists status b, resp = FetchResponse true status (Some b).
Proof. destruct resp as [|[|] status [b|]]; eauto. Qed.

Lemma markup_nonempty (c : ascii) (s : string) : Dom.markup (String c s) = [Markup (String c s)].
Proof. reflexivity. Qed.

(** X16: for a response whose body is not an array, or is an array of
    article records whose fields are texts or absent ([FmpPayload], the
    data model of the spec), and for every failed fetch, [loadFmpArticles]
    returns normally on every page and touches neither the registry, the
    ticker nor the library; without its container it leaves the document
    as it is, and with it the loading placeholder never remains.  A body
    that is an array with an element that is not such a record ([null], a
    record whose content is a number) is not covered: there the [forEach],
    which lies outside the [try], throws. *)
Theorem loadFmpArticles_records_return (host : Host) (resp : FetchOutcome FmpPayload)
    (pg : Page) :
  let run := loadFmpArticles host resp pg in
  fst run = Normal tt
  /\ charts (snd run) = charts pg
  /\ currentTicker (snd run) = currentTicker pg
  /\ library (snd run) = library pg
  /\ (Dom.getElementById "fmp-articles-container" (document pg) = None ->
      document (snd run) = document pg)
  /\ Dom.children_of (document (snd run)) "fmp-articles-container"
     <> Some [Markup "<p>Loading latest market articles...</p>"].
Proof.
  cbv zeta.
  destruct (Dom.getElementById "fmp-articles-container" (document pg)) as [h|] eqn:Hh.
  - set (loading := Dom.set_innerHTML h "<p>Loading latest market articles...</p>" (document pg)).
    destruct (replace_children_self _ (document pg) h
                (Dom.markup "<p>Loading latest market articles...</p>") Hh) as [Hh1 _].
    fold (Dom.set_innerHTML h "<p>Loading latest market articles...</p>" (document pg)) in Hh1.
    fold loading in Hh1.
    destruct (fetch_fails_cases resp) as [Hf | (status & payload & ->)].
    + destruct (loadFmpArticles_failure_run host resp pg h Hf Hh) as (e & -> & _).
      cbn [fst snd charts currentTicker library document]. fold loading.
      repeat (split; [reflexivity |]). split; [discriminate |].
      destruct (replace_children_self _ loading h
                  (Dom.markup "<p>Failed to load FMP articles.</p>") Hh1) as [Hh2 Hc2].
      unfold Dom.set_innerHTML. rewrite (children_of_content _ _ _ Hh2), Hc2. discriminate.
    + rewrite (loadFmpArticles_success_page host status payload pg h Hh).
      cbn [fst snd charts currentTicker library document].
      repeat (split; [reflexivity |]). split; [discriminate |].
      unfold articles_document. fold loading.
      destruct payload as [[|first others]|].
      * destruct (replace_children_self _ loading h
                    (Dom.markup "<p>No FMP articles available.</p>") Hh1) as [Hh2 Hc2].
        unfold Dom.set_innerHTML. rewrite (children_of_content _ _ _ Hh2), Hc2. discriminate.
      * destruct (replace_children_self _ loading h (Dom.markup EmptyString) Hh1)
          as [Hh2 Hc2].
        fold (Dom.set_innerHTML h EmptyString loading) in Hh2, Hc2.
        destruct (appendChildren_self _ (articleCard host) (first :: others) _ h _ Hh2 Hc2)
          as [Hh3 Hc3].
        cbv zeta in Hh3, Hc3. rewrite (children_of_content _ _ _ Hh3), Hc3. discriminate.
      * destruct (replace_children_self _ loading h
                    (Dom.markup "<p>No FMP articles available.</p>") Hh1) as [Hh2 Hc2].
        unfold Dom.set_innerHTML. rewrite (children_of_content _ _ _ Hh2), Hc2. discriminate.
  - rewrite (loadFmpArticles_missing host resp pg Hh).
    destruct pg as [doc reg tick con lib]. unfold with_console.
    cbn [fst snd document charts currentTicker console library] in *.
    repeat (split; [reflexivity |]).
    unfold Dom.children_of. now rewrite Hh.
Qed.

(** X17: when the fetch is rejected, the status is not a success or the
    body is not JSON, the container shows the failure message alone and
    the error is logged. *)
Theorem loadFmpArticles_failure (host : Host) (resp : FetchOutcome FmpPayload) (pg : Page)
    (h : nat) :
  fetch_fails resp = true ->
  Dom.getElementById "fmp-articles-container" (document pg) = Some h ->
  exists pg' e,
    loadFmpArticles host resp pg = (Normal tt, pg')
    /\ Dom.children_of (document pg') "fmp-articles-container"
       = Some [Markup "<p>Failed to load FMP articles.</p>"]
    /\ console pg'
       = (console pg ++ [Log "[loadFmpArticles] Fetching general FMP articles...";
                         LogException "[loadFmpArticles] Error fetching FMP articles:" e])%list
    /\ (e = NetworkError \/ e = SyntaxError \/ exists status, e = HttpError status).
Proof.
  intros Hf Hh.
  destruct (loadFmpArticles_failure_run host resp pg h Hf Hh) as (e & E & He).
  eexists. exists e. split; [exact E |]. cbn [document console].
  set (loading := Dom.set_innerHTML h "<p>Loading latest market articles...</p>" (document pg)).
  destruct (replace_children_self _ (document pg) h
              (Dom.markup "<p>Loading latest market articles...</p>") Hh) as [Hh1 _].
  fold (Dom.set_innerHTML h "<p>Loading latest market articles...</p>" (document pg)) in Hh1.
  fold loading in Hh1.
  destruct (replace_children_self _ loading h
              (Dom.markup "<p>Failed to load FMP articles.</p>") Hh1) as [Hh2 Hc2].
  split; [unfold Dom.set_innerHTML; now rewrite (children_of_content _ _ _ Hh2), Hc2 |].
  split; [reflexivity | exact He].
Qed.

End ArticleEdges.

Section SnippetFacts.

Lemma drop_nil (n : nat) : JsString.drop n EmptyString = EmptyString.
Proof. now destruct n. Qed.

Lemma indexOf_cases (p : string) (s : string) :
  p <> EmptyString -> (exists i, first_occurrence p s i) \/ no_occurrence p s.
Proof.
  intros Hp. induction s as [|c s IH].
  - right. intros j. rewrite drop_nil. destruct p; [contradiction | reflexivity].
  - destruct (startsWith p (String c s)) eqn:E0.
    + left. exists 0%nat. split; [exact E0 | intros j Hj; lia].
    + destruct IH as [(i & Hat & Hbefore) | Hno].
      * left. exists (S i). split; [exact Hat |].
        intros [|j] Hj; [exact E0 | apply Hbefore; lia].
      * right. intros [|j]; [exact E0 | apply Hno].
Qed.

Lemma drop_take (j n : nat) (s : string) :
  JsString.drop j (take n s) = take (n - j) (JsString.drop j s).
Proof.
  revert n s. induction j as [|j IH]; intros n s.
  - now rewrite Nat.sub_0_r.
  - destruct n as [|n], s as [|c s]; cbn; try reflexivity; try apply IH.
    all: rewrite ?drop_nil; now destruct (n - j)%nat.
Qed.

Lemma take_take (n : nat) (s : string) : take n (take n s) = take n s.
Proof.
  revert s. induction n as [|n IH]; intros [|c s]; cbn; try reflexivity. now rewrite IH.
Qed.

Lemma startsWith_take (p : string) (m : nat) (s : string) :
  startsWith p (take m s) = true -> startsWith p s = true.
Proof.
  revert m s. induction p as [|a p IH]; intros m s; [reflexivity |].
  destruct m as [|m], s as [|b s]; cbn; try discriminate.
  destruct (Ascii.eqb a b); [apply IH | discriminate].
Qed.

Lemma startsWith_take_ge (p : string) (m : nat) (s : string) :
  (String.length p <= m)%nat -> startsWith p s = true -> startsWith p (take m s) = true.
Proof.
  revert m s. induction p as [|a p IH]; intros m s Hm; [reflexivity |].
  cbn in Hm. destruct m as [|m]; [lia |]. destruct s as [|b s]; cbn; [discriminate |].
  destruct (Ascii.eqb a b); [apply IH; lia | discriminate].
Qed.

(** The first occurrence of a pattern is still the first one in the text
    cut right after it. *)
Lemma first_occurrence_take (p s : string) (i : nat) :
  first_occurrence p s i -> first_occurrence p (take (i + String.length p) s) i.
Proof.
  intros [Hat Hbefore]. split.
  - rewrite drop_take. apply startsWith_take_ge; [lia | exact Hat].
  - intros j Hj. rewrite drop_take.
    destruct (startsWith p (take _ _)) eqn:E; [|reflexivity].
    apply startsWith_take in E. now rewrite (Hbefore j Hj) in E.
Qed.

(** X18: the snippet is a prefix of the content, never longer than it,
    and taking the snippet of a snippet changes nothing. *)
Theorem snippet_prefix_idempotent (content : option string) :
  (exists rest, text_or content EmptyString = snippet content +:+ rest)
  /\ snippet (Some (snippet content)) = snippet content
  /\ (String.length (snippet content) <= String.length (text_or content EmptyString))%nat.
Proof.
  assert (Hgen : forall c : string,
            (exists rest, c = snippet (Some c) +:+ rest)
            /\ snippet (Some (snippet (Some c))) = snippet (Some c)
            /\ (String.length (snippet (Some c)) <= String.length c)%nat).
  { intros c.
    destruct (indexOf_cases "</p>" c ltac:(discriminate)) as [([|i] & Hi) | Hno].
    - rewrite (snippet_whole c) by now right.
      split; [exists EmptyString; now rewrite append_nil_r |].
      split; [apply snippet_whole; now right | lia].
    - rewrite (snippet_cut c (S i) Hi) by lia.
      split; [exists (JsString.drop (S i + 4) c); now rewrite take_drop_append |].
      split.
      + pose proof (first_occurrence_take _ _ _ Hi) as Hi'.
        change (String.length "</p>") with 4%nat in Hi'.
        rewrite (snippet_cut _ (S i) Hi') by lia.
        apply take_take.
      + rewrite length_take. lia.
    - rewrite (snippet_whole c) by now left.
      split; [exists EmptyString; now rewrite append_nil_r |].
      split; [apply snippet_whole; now left | lia]. }
  destruct content as [c|].
  - replace (text_or (Some c) EmptyString) with c
      by (unfold text_or; destruct (String.eqb_spec c EmptyString); congruence).
    apply Hgen.
  - split; [now exists EmptyString |]. split; [reflexivity | cbn; lia].
Qed.

End SnippetFacts.

(** ** The ticker news *)

Section TickerNews.

Implicit Types (doc : Document) (h : nat).

Lemma try_catch_normal {A : Type} (m : M A) (hd : jserror -> M A) (pg pg' : Page) (a : A) :
  m pg = (Normal a, pg') -> try_catch m hd pg = (Normal a, pg').
Proof. intros H. unfold try_catch. now rewrite H. Qed.

Lemma try_catch_throw {A : Type} (m : M A) (hd : jserror -> M A) (pg pg' : Page)
    (e : jserror) :
  m pg = (Throw e, pg') -> try_catch m hd pg = hd e pg'.
Proof. intros H. unfold try_catch. now rewrite H. Qed.

(** The run of [loadTickerNews] when both elements exist. *)
Lemma loadTickerNews_run (ticker : string) (resp : FetchOutcome TickerPayload) (pg : Page)
    (c t : nat) :
  Dom.getElementById "ticker-news-container" (document pg) = Some c ->
  Dom.getElementById "ticker-news-section-title" (document pg) = Some t ->
  exists logs,
    loadTickerNews ticker resp pg
    = (Normal tt,
       mkPage (news_document ticker resp c t (document pg)) (charts pg) (currentTicker pg)
              (console pg ++ logs) (library pg)).
Proof.
  intros Hc Ht. unfold loadTickerNews.
  erewrite bind_normal by reflexivity. cbv beta.
  erewrite bind_normal
    by (unfold getElementById, gets; cbn [document with_console]; rewrite Hc; reflexivity).
  cbv beta.
  erewrite bind_normal
    by (unfold getElementById, gets; cbn [document with_console]; rewrite Ht; reflexivity).
  cbv beta iota.
  erewrite bind_normal by reflexivity. cbv beta.
  unfold news_document. cbv zeta.
  destruct (fetch_fails_cases resp) as [Hf | (status & payload & ->)].
  - match goal with
    | |- context [try_catch (bind ?m1 ?k1) ?hd ?p] =>
        destruct (fetch_json_fails resp (snd (m1 p)) Hf) as (e & E & _);
        rewrite (try_catch_throw (bind m1 k1) hd p (snd (m1 p)) e)
    end.
    + eexists [_; _]. 
      replace (match resp with
               | FetchResponse true _ (Some (TickerArray (first :: others))) => _
               | FetchResponse true _ (Some _) => _
               | _ => Dom.set_innerHTML c ("<p>Failed to load news for " +:+ ticker +:+ ".</p>")
                        (Dom.set_innerHTML c "<p>Loading...</p>"
                           (Dom.set_textContent t ("News for " +:+ ticker +:+ " (last 30 days):")
                              (document pg)))
               end)
        with (Dom.set_innerHTML c ("<p>Failed to load news for " +:+ ticker +:+ ".</p>")
                (Dom.set_innerHTML c "<p>Loading...</p>"
                   (Dom.set_textContent t ("News for " +:+ ticker +:+ " (last 30 days):")
                      (document pg))))
        by (destruct resp as [|[|] status [b|]]; try discriminate; reflexivity).
      unfold bind, console_log, set_innerHTML, set_textContent, modify, ret, with_console,
        with_document. cbn. rewrite <- app_assoc. reflexivity.
    + erewrite bind_normal by reflexivity. cbv beta.
      rewrite (bind_throw _ _ _ _ _ E). reflexivity.
  - erewrite try_catch_normal.
    + exists [Log ("[loadTickerNews] Fetching news for ticker='" +:+ ticker +:+ "'...")].
      reflexivity.
    + erewrite bind_normal by reflexivity. cbv beta.
      erewrite bind_normal by reflexivity. cbv beta.
      erewrite bind_normal by reflexivity. cbv beta.
      destruct payload as [[|first others]|]; reflexivity.
Qed.

Lemma loadTickerNews_missing (ticker : string) (resp : FetchOutcome TickerPayload)
    (pg : Page) :
  Dom.getElementById "ticker-news-container" (document pg) = None
  \/ Dom.getElementById "ticker-news-section-title" (document pg) = None ->
  loadTickerNews ticker resp pg
  = (Normal tt,
     with_console (console pg ++
                   [Log ("[loadTickerNews] Fetching news for ticker='" +:+ ticker +:+ "'...");
                    LogError "[loadTickerNews] Required elements not found"])
                  pg).
Proof.
  intros H. unfold loadTickerNews, bind, getElementById, gets, console_log, modify.
  destruct pg as [doc reg tick con lib]. unfold with_console.
  cbn [document charts currentTicker console library] in *.
  destruct (Dom.getElementById "ticker-news-container" doc) as [c|],
           (Dom.getElementById "ticker-news-section-title" doc) as [t|];
    try (destruct H; discriminate); cbn; now rewrite <- app_assoc.
Qed.

Lemma appendItems_imap (ul : list Node) (index : nat) (articles : list TickerArticle) :
  appendItems ul index articles
  = (ul ++ imap (fun i => newsItem (index + i)) articles)%list.
Proof.
  revert ul index. induction articles as [|a rest IH]; intros ul index.
  - cbn. now rewrite app_nil_r.
  - cbn [appendItems]. rewrite IH, imap_cons, <- app_assoc. cbn [app].
    rewrite Nat.add_0_r. do 2 f_equal. apply imap_ext. intros i x _. cbn. f_equal. lia.
Qed.

Lemma appendItems_newsList (articles : list TickerArticle) :
  ElemNode "ul" "text-news-list" [] (appendItems [] 0 articles) = newsList articles.
Proof. unfold newsList. now rewrite appendItems_imap. Qed.

Lemma slot_update doc (id : string) h h' (f : Element -> Element) :
  Dom.keeps_skeleton f -> slot doc id h -> slot (Dom.update h' f doc) id h.
Proof. intros Hf. apply slot_same_frame. now apply same_frame_update. Qed.

Lemma content_leaf_replaced doc (id : string) h (c : list Node) :
  slot doc id h ->
  slot (Dom.replace_children h c doc) id h
  /\ Dom.content (Dom.replace_children h c doc) h = Some c
  /\ (forall x, x <> h ->
        Dom.content (Dom.replace_children h c doc) x = Dom.content doc x)
  /\ same_frame doc (Dom.replace_children h c doc).
Proof.
  intros Hs. rewrite (replace_children_leaf _ _ _ (proj2 Hs)).
  split; [apply slot_update; [apply keeps_skeleton_content | exact Hs] |].
  split.
  - destruct (getElementById_element _ _ _ (proj1 Hs)) as (e & He & _).
    rewrite content_update. destruct (decide (h = h)); [|contradiction]. now rewrite He.
  - split; [|apply same_frame_update, keeps_skeleton_content].
    intros x Hx. rewrite content_update. now destruct (decide (x = h)).
Qed.

End TickerNews.

Section TickerNewsClaims.

Implicit Types (doc : Document) (h : nat).

Lemma news_step_replace doc (cid tid : string) (c t : nat) (T C : list Node) :
  c <> t ->
  slot doc cid c /\ slot doc tid t /\ Dom.content doc t = Some T ->
  let doc' := Dom.replace_children c C doc in
  (slot doc' cid c /\ slot doc' tid t /\ Dom.content doc' t = Some T)
  /\ Dom.content doc' c = Some C.
Proof.
  intros Hne (Sc & St & Ht) doc'.
  destruct (content_leaf_replaced doc cid c C Sc) as (Sc' & Hc' & Ho & F).
  repeat split; try apply Sc'; try exact Hc'.
  - rewrite (proj1 F). apply St.
  - apply (proj1 (proj2 (proj2 F))). apply St.
  - unfold doc'. rewrite Ho by congruence. exact Ht.
Qed.

Lemma news_step_append doc (cid tid : string) (c t : nat) (T C : list Node) (n : Node) :
  c <> t ->
  slot doc cid c /\ slot doc tid t /\ Dom.content doc t = Some T ->
  Dom.content doc c = Some C ->
  let doc' := Dom.appendChild c n doc in
  (slot doc' cid c /\ slot doc' tid t /\ Dom.content doc' t = Some T)
  /\ Dom.content doc' c = Some (C ++ [n])%list.
Proof.
  intros Hne (Sc & St & Ht) Hc doc'.
  assert (K : Dom.keeps_skeleton (fun e => Dom.set_content_of (el_content e ++ [n]) e))
    by (intros e; repeat split).
  split; [split; [|split] |].
  - now apply slot_update.
  - now apply slot_update.
  - unfold doc', Dom.appendChild. rewrite content_update.
    destruct (decide (t = c)); [congruence | exact Ht].
  - exact (proj2 (appendChild_self cid doc c n C (proj1 Sc) Hc)).
Qed.

(** X19: on a page where the news container and the section title are leaf
    elements, [loadTickerNews] returns normally, the title names the
    ticker, and the container holds the failure message when the fetch
    fails, the "no news" message for an empty array or a body that is not
    an array, and otherwise one list whose k-th item is the item built for
    the k-th article, numbered k + 1. *)
Theorem loadTickerNews_outcomes (ticker : string) (resp : FetchOutcome TickerPayload)
    (pg : Page) :
  slot_ok (document pg) "ticker-news-container" = true ->
  slot_ok (document pg) "ticker-news-section-title" = true ->
  exists pg' children,
    loadTickerNews ticker resp pg = (Normal tt, pg')
    /\ Dom.text_of (document pg') "ticker-news-section-title"
       = Some ("News for " +:+ ticker +:+ " (last 30 days):")
    /\ Dom.children_of (document pg') "ticker-news-container" = Some children
    /\ (fetch_fails resp = true ->
        children = [Markup ("<p>Failed to load news for " +:+ ticker +:+ ".</p>")])
    /\ (forall status payload, resp = FetchResponse true status (Some payload) ->
        payload = TickerNotArray \/ payload = TickerArray [] ->
        children = [Markup ("<p>No news found for " +:+ ticker +:+ ".</p>")])
    /\ (forall status articles, resp = FetchResponse true status (Some (TickerArray articles)) ->
        articles <> [] ->
        children = [newsList articles]
        /\ forall k article, articles !! k = Some article ->
             exists items, children = [ElemNode "ul" "text-news-list" [] items]
                           /\ List.length items = List.length articles
                           /\ items !! k = Some (newsItem k article)).
Proof.
  intros (c & Sc)%slot_ok_slot (t & St)%slot_ok_slot.
  assert (Hne : c <> t).
  { intros ->. pose proof (getElementById_inj _ _ _ _ (proj1 Sc) (proj1 St)). discriminate. }
  destruct (loadTickerNews_run ticker resp pg c t (proj1 Sc) (proj1 St)) as (logs & E).
  set (title := "News for " +:+ ticker +:+ " (last 30 days):").
  set (titled := Dom.set_textContent t title (document pg)).
  set (loading := Dom.set_innerHTML c "<p>Loading...</p>" titled).
  assert (I0 : slot titled "ticker-news-container" c
               /\ slot titled "ticker-news-section-title" t
               /\ Dom.content titled t = Some (Dom.text_nodes title)).
  { destruct (content_leaf_replaced (document pg) _ t (Dom.text_nodes title) St)
      as (St' & Ht' & _ & F).
    split; [exact (slot_same_frame _ _ _ _ F Sc) | now split]. }
  destruct (news_step_replace titled _ _ c t _ (Dom.markup "<p>Loading...</p>") Hne I0)
    as (I1 & _).
  fold (Dom.set_innerHTML c "<p>Loading...</p>" titled) in I1. fold loading in I1.
  assert (Hfinal : forall doc' C,
            (slot doc' "ticker-news-container" c
             /\ slot doc' "ticker-news-section-title" t
             /\ Dom.content doc' t = Some (Dom.text_nodes title))
            /\ Dom.content doc' c = Some C ->
            Dom.text_of doc' "ticker-news-section-title" = Some title
            /\ Dom.children_of doc' "ticker-news-container" = Some C).
  { intros doc' C ((Sc' & St' & Ht') & Hc'). split.
    - rewrite (text_of_content _ _ t _ (proj1 St') Ht'). apply plain_text_text_nodes.
    - now rewrite (children_of_content _ _ _ (proj1 Sc')). }
  eexists. 
  destruct (fetch_fails_cases resp) as [Hf | (status & payload & ->)].
  - exists [Markup ("<p>Failed to load news for " +:+ ticker +:+ ".</p>")].
    split; [exact E |]. cbn [document].
    assert (Edoc : news_document ticker resp c t (document pg)
                   = Dom.set_innerHTML c ("<p>Failed to load news for " +:+ ticker +:+ ".</p>")
                       loading).
    { unfold news_document. destruct resp as [|[|] status [b|]]; try discriminate; reflexivity. }
    rewrite Edoc.
    destruct (Hfinal _ _ (news_step_replace loading _ _ c t _
                (Dom.markup ("<p>Failed to load news for " +:+ ticker +:+ ".</p>")) Hne I1))
      as [T1 T2].
    split; [exact T1 |]. split; [exact T2 |]. split; [reflexivity |].
    split; [intros status payload ->; discriminate | intros status articles ->; discriminate].
  - destruct (news_step_replace loading _ _ c t _ (Dom.markup EmptyString) Hne I1)
      as (I2 & C2).
    fold (Dom.set_innerHTML c EmptyString loading) in I2, C2.
    destruct payload as [[|first others]|].
    + exists [Markup ("<p>No news found for " +:+ ticker +:+ ".</p>")].
      split; [exact E |]. cbn [document]. unfold news_document. fold title titled loading.
      destruct (Hfinal _ _ (news_step_replace _ _ _ c t _
                  (Dom.markup ("<p>No news found for " +:+ ticker +:+ ".</p>")) Hne I2))
        as [T1 T2].
      split; [exact T1 |]. split; [exact T2 |]. split; [discriminate |].
      split; [reflexivity |]. intros status' articles [= _ <-] Hnil. now contradiction Hnil.
    + exists [newsList (first :: others)].
      split; [exact E |]. cbn [document]. unfold news_document. fold title titled loading.
      rewrite appendItems_newsList.
      destruct (Hfinal _ _ (news_step_append _ _ _ c t _ _ (newsList (first :: others))
                              Hne I2 C2)) as [T1 T2].
      split; [exact T1 |]. split; [exact T2 |]. split; [discriminate |].
      split; [intros status' payload [= _ <-] [Hp|Hp]; discriminate |].
      intros status' articles [= _ <-] _. split; [reflexivity |].
      intros k article Hk. eexists. split; [reflexivity |].
      split; [apply length_imap |]. rewrite list_lookup_imap, Hk. reflexivity.
    + exists [Markup ("<p>No news found for " +:+ ticker +:+ ".</p>")].
      split; [exact E |]. cbn [document]. unfold news_document. fold title titled loading.
      destruct (Hfinal _ _ (news_step_replace _ _ _ c t _
                  (Dom.markup ("<p>No news found for " +:+ ticker +:+ ".</p>")) Hne I2))
        as [T1 T2].
      split; [exact T1 |]. split; [exact T2 |]. split; [discriminate |].
      split; [reflexivity |]. intros status' articles [=].
Qed.

(** X20: [loadTickerNews] never throws and touches neither the registry,
    the ticker nor the library; when the container or the title element is
    missing it leaves the document as it is, the title included. *)
Theorem loadTickerNews_never_throws (ticker : string) (resp : FetchOutcome TickerPayload)
    (pg : Page) :
  let run := loadTickerNews ticker resp pg in
  fst run = Normal tt
  /\ charts (snd run) = charts pg
  /\ currentTicker (snd run) = currentTicker pg
  /\ library (snd run) = library pg
  /\ (Dom.getElementById "ticker-news-container" (document pg) = None
      \/ Dom.getElementById "ticker-news-section-title" (document pg) = None ->
      document (snd run) = document pg).
Proof.
  cbv zeta.
  destruct (Dom.getElementById "ticker-news-container" (document pg)) as [c|] eqn:Hc.
  - destruct (Dom.getElementById "ticker-news-section-title" (document pg)) as [t|] eqn:Ht.
    + destruct (loadTickerNews_run ticker resp pg c t Hc Ht) as (logs & ->).
      cbn. repeat (split; [reflexivity |]). intros [H|H]; discriminate.
    + rewrite (loadTickerNews_missing ticker resp pg (or_intror Ht)).
      destruct pg; cbn. repeat split; reflexivity.
  - rewrite (loadTickerNews_missing ticker resp pg (or_introl Hc)).
    destruct pg; cbn. repeat split; reflexivity.
Qed.

End TickerNewsClaims.

(** ** The loaders on leaf elements *)

Section ClosedForms.

Implicit Types (doc : Document) (h x : nat) (f g : Element -> Element).

Lemma set_content_twice (c1 c2 : list Node) (e : Element) :
  Dom.set_content_of c1 (Dom.set_content_of c2 e) = Dom.set_content_of c1 e.
Proof. reflexivity. Qed.

(** On a leaf, replacing the children is an update of the content, and a
    later replacement overrides an earlier one. *)
Lemma replace_children_twice doc h (c1 c2 : list Node) :
  Dom.is_leaf doc h ->
  Dom.replace_children h c1 (Dom.replace_children h c2 doc)
  = Dom.update h (Dom.set_content_of c1) doc.
Proof.
  intros Hl. rewrite (replace_children_leaf doc h c2 Hl).
  rewrite replace_children_leaf
    by (apply is_leaf_update; [apply keeps_skeleton_content | exact Hl]).
  rewrite update_update. now apply update_ext.
Qed.

Lemma appendChildren_update {A : Type} (f : A -> Node) (items : list A) doc h (c : list Node) :
  fold_left (fun d a => Dom.appendChild h (f a) d) items
            (Dom.update h (Dom.set_content_of c) doc)
  = Dom.update h (Dom.set_content_of (c ++ List.map f items)) doc.
Proof.
  revert c. induction items as [|a rest IH]; intros c; cbn [fold_left List.map].
  - now rewrite app_nil_r.
  - unfold Dom.appendChild at 2. rewrite update_update.
    rewrite (update_ext doc h _ (Dom.set_content_of (c ++ [f a]))) by reflexivity.
    rewrite IH. now rewrite <- app_assoc.
Qed.

End ClosedForms.

Section LeafRuns.

Implicit Types (doc : Document) (h x : nat) (f g : Element -> Element).

(** On a page where the articles container is a leaf, a run of
    [loadFmpArticles] sets the children of the container and changes
    nothing else of the document. *)
Lemma loadFmpArticles_leaf_run (host : Host) (resp : FetchOutcome FmpPayload) (pg : Page)
    (h : nat) :
  slot (document pg) "fmp-articles-container" h ->
  exists logs,
    loadFmpArticles host resp pg
    = (Normal tt,
       mkPage (Dom.update h (Dom.set_content_of (fmp_children host resp)) (document pg))
              (charts pg) (currentTicker pg) (console pg ++ logs) (library pg)).
Proof.
  intros [Hh Hl].
  destruct (fetch_fails_cases resp) as [Hf | (status & payload & ->)].
  - destruct (loadFmpArticles_failure_run host resp pg h Hf Hh) as (e & -> & _).
    eexists. f_equal. f_equal.
    unfold Dom.set_innerHTML. rewrite (replace_children_twice _ _ _ _ Hl).
    destruct resp as [|[|] status [b|]]; try discriminate; reflexivity.
  - rewrite (loadFmpArticles_success_page host status payload pg h Hh).
    eexists. f_equal. f_equal. unfold articles_document, Dom.set_innerHTML.
    destruct payload as [[|first others]|]; rewrite (replace_children_twice _ _ _ _ Hl);
      try reflexivity.
    now rewrite (appendChildren_update (articleCard host)).
Qed.

Lemma loadTickerNews_leaf_run (ticker : string) (resp : FetchOutcome TickerPayload)
    (pg : Page) (c t : nat) :
  slot (document pg) "ticker-news-container" c ->
  slot (document pg) "ticker-news-section-title" t ->
  exists logs,
    loadTickerNews ticker resp pg
    = (Normal tt,
       mkPage (Dom.update c (Dom.set_content_of (news_children ticker resp))
                 (Dom.update t (Dom.set_content_of
                                  (Dom.text_nodes ("News for " +:+ ticker
                                                   +:+ " (last 30 days):")))
                    (document pg)))
              (charts pg) (currentTicker pg) (console pg ++ logs) (library pg)).
Proof.
  intros Sc St.
  destruct (loadTickerNews_run ticker resp pg c t (proj1 Sc) (proj1 St)) as (logs & ->).
  exists logs. f_equal. f_equal. unfold news_document. cbv zeta.
  set (title := "News for " +:+ ticker +:+ " (last 30 days):").
  unfold Dom.set_textContent. rewrite (replace_children_leaf _ _ _ (proj2 St)).
  set (titled := Dom.update t (Dom.set_content_of (Dom.text_nodes title)) (document pg)).
  assert (Hl : Dom.is_leaf titled c)
    by (apply is_leaf_update; [apply keeps_skeleton_content | apply Sc]).
  assert (Hl' : forall g, Dom.keeps_skeleton g -> Dom.is_leaf (Dom.update c g titled) c)
    by (intros g Hg; now apply is_leaf_update).
  unfold Dom.set_innerHTML. rewrite (replace_children_leaf titled c _ Hl).
  destruct resp as [|[|] status [[[|first others]|]|]]; cbn [news_children];
    rewrite (replace_children_leaf _ c _ (Hl' _ (keeps_skeleton_content _))), update_update;
    try (apply update_ext; reflexivity).
  - rewrite replace_children_leaf
      by (apply is_leaf_update; [apply keeps_skeleton_content | exact Hl]).
    rewrite update_update. now apply update_ext.
  - unfold Dom.appendChild. rewrite update_update, appendItems_newsList.
    now apply update_ext.
  - rewrite replace_children_leaf
      by (apply is_leaf_update; [apply keeps_skeleton_content | exact Hl]).
    rewrite update_update. now apply update_ext.
Qed.

End LeafRuns.

(** ** What a run leaves alone, and what a later run replaces *)

Section FrameAndReload.

Implicit Types (doc : Document) (h x : nat) (f g : Element -> Element)
  (us : list CardUpdate) (u : CardUpdate).

(** The page on which the charts are rendered in a run of the controller:
    the four card updates applied, for texts that do not depend on the
    page; or no rendering at all when a text could not be formatted. *)
Lemma controller_document (host : Host) (resp : FetchOutcome jsval) (ticker : string) :
  (exists rpVal rpChg zVal zChg aVal aChg caVal caChg,
     forall pg,
       exists P,
         loadPerformanceDataAndRenderCharts host resp ticker pg
         = renderAll host (api_result resp) P
         /\ document P
            = apply_updates (performance_updates rpVal rpChg zVal zChg aVal aChg caVal caChg)
                            (document pg)
         /\ library P = library pg /\ charts P = charts pg
         /\ currentTicker P = Some ticker)
  \/ (exists e, forall pg, exists logs,
        loadPerformanceDataAndRenderCharts host resp ticker pg
        = (Throw e, with_console (console pg ++ logs) pg)).
Proof.
  destruct (controller_cases host resp ticker)
    as [(rpVal & rpChg & zVal & zChg & aVal & aChg & caVal & caChg &
         H1 & H2 & H3 & H4 & H5 & H6 & H7 & H8) | (e' & _ & _ & _ & _ & _ & E)].
  - left. exists rpVal, rpChg, zVal, zChg, aVal, aChg, caVal, caChg.
    intros pg.
    exact (controller_tail host resp ticker pg _ _ _ _ _ _ _ _ H1 H2 H3 H4 H5 H6 H7 H8).
  - right. now exists e'.
Qed.

Lemma keeps_document_renderAll (host : Host) (apiData : jsval) :
  keeps_document (renderAll host apiData).
Proof.
  unfold renderAll.
  repeat (apply keeps_document_bind; [apply keeps_document_renderSeries | intros _]).
  apply keeps_document_renderSeries.
Qed.

Lemma slots_of_updates doc (a b c d e f' g' i : string) :
  slots_of doc (value_ids ++ change_ids) ->
  slots_of doc (update_ids (performance_updates a b c d e f' g' i)).
Proof.
  apply slots_of_incl. rewrite performance_ids. unfold value_ids, change_ids. cbn. tauto.
Qed.

(** X21: on a page whose eight text slots are leaf elements, a run of
    [loadPerformanceDataAndRenderCharts] leaves every id, parent and element
    kind of the document as it was, the content of every element that is
    none of the eight slots, and the class list of every element that is
    not the container of a change slot. *)
Theorem controller_frame (host : Host) (resp : FetchOutcome jsval) (ticker : string)
    (pg : Page) :
  slots_ok (document pg) = true ->
  let doc' := document (snd (loadPerformanceDataAndRenderCharts host resp ticker pg)) in
  same_frame (document pg) doc'
  /\ (forall x, (forall id, In id (value_ids ++ change_ids) ->
                            Dom.getElementById id (document pg) <> Some x) ->
        Dom.content doc' x = Dom.content (document pg) x)
  /\ (forall o, (forall id, In id change_ids -> container_of (document pg) id <> Some o) ->
        Dom.classes doc' o = Dom.classes (document pg) o).
Proof.
  intros Hslots%slots_ok_slots_of doc'. subst doc'.
  destruct (controller_document host resp ticker)
    as [(a & b & c & d & e & f' & g' & i & Hrun) | (e & Hrun)].
  - destruct (Hrun pg) as (P & -> & HP & _).
    rewrite (keeps_document_renderAll host (api_result resp) P), HP.
    pose proof (slots_of_updates _ a b c d e f' g' i Hslots) as Hs.
    pose proof (performance_ids_NoDup a b c d e f' g' i) as Hnd.
    split; [now apply apply_updates_frame |]. split.
    + intros x Hx. apply apply_updates_content_other; try assumption.
      intros id Hin. apply Hx. rewrite performance_ids in Hin.
      unfold value_ids, change_ids. cbn in *. tauto.
    + intros o Ho. apply apply_updates_classes_other; try assumption.
      intros u Hu. apply Ho. unfold change_ids.
      cbn in Hu. destruct Hu as [<-|[<-|[<-|[<-|[]]]]]; cbn; tauto.
  - destruct (Hrun pg) as (logs & ->). destruct pg; cbn.
    split; [apply same_frame_refl | split; reflexivity].
Qed.

(** X25: a call of [loadTickerNews] that starts after an earlier call has
    completed replaces what the earlier call showed: on a page whose news
    container and news title are leaf elements, the page after the two
    calls, each run from its start to its end before the next begins, is,
    up to the console, the page after the second call alone, whatever the
    first ticker and response were.  The title precedes the container, as
    in the template: the second call looks the title up after the first
    has inserted its markup into the container.  (For a call that starts
    while the earlier one still waits for its response, see
    [loadTickerNews_overlapping].) *)
Theorem loadTickerNews_reload (ticker1 ticker2 : string)
    (news1 news2 : FetchOutcome TickerPayload) (pg : Page) :
  slot_ok (document pg) "ticker-news-container" = true ->
  slot_ok (document pg) "ticker-news-section-title" = true ->
  precedes (document pg) "ticker-news-section-title" "ticker-news-container" = true ->
  same_but_console
    (snd (loadTickerNews ticker2 news2 (snd (loadTickerNews ticker1 news1 pg))))
    (snd (loadTickerNews ticker2 news2 pg)).
Proof.
  intros (c & Sc)%slot_ok_slot (t & St)%slot_ok_slot _.
  assert (Hne : c <> t).
  { intros ->. pose proof (getElementById_inj _ _ _ _ (proj1 Sc) (proj1 St)). discriminate. }
  destruct (loadTickerNews_leaf_run ticker1 news1 pg c t Sc St) as (logs & ->).
  destruct (loadTickerNews_leaf_run ticker2 news2 pg c t Sc St) as (logs' & ->).
  cbn [fst snd].
  match goal with
  | |- context [loadTickerNews ticker2 news2 ?p] =>
      destruct (loadTickerNews_leaf_run ticker2 news2 p c t) as (l2 & ->)
  end.
  1, 2: cbn [document]; repeat apply slot_update; try apply keeps_skeleton_content;
        assumption.
  cbn [fst snd document charts currentTicker console library].
  split; [|now repeat split]. cbn [document].
  rewrite (update_comm _ t c _ _ (not_eq_sym Hne)), !update_update.
  match goal with
  | |- Dom.update c _ (Dom.update t _ ?d) = Dom.update c ?gc (Dom.update t ?gt ?d) =>
      rewrite (update_ext d t _ gt) by reflexivity; apply update_ext; reflexivity
  end.
Qed.

(** X26: a second run of [loadFmpArticles] replaces what the first one
    showed: on a page whose articles container is a leaf element, the page
    after two runs is, up to the console, the page after the second run
    alone. *)
Theorem loadFmpArticles_reload (host : Host) (articles1 articles2 : FetchOutcome FmpPayload)
    (pg : Page) :
  slot_ok (document pg) "fmp-articles-container" = true ->
  same_but_console
    (snd (loadFmpArticles host articles2 (snd (loadFmpArticles host articles1 pg))))
    (snd (loadFmpArticles host articles2 pg)).
Proof.
  intros (h & Sh)%slot_ok_slot.
  destruct (loadFmpArticles_leaf_run host articles1 pg h Sh) as (logs & ->).
  destruct (loadFmpArticles_leaf_run host articles2 pg h Sh) as (logs' & ->).
  cbn [fst snd].
  match goal with
  | |- context [loadFmpArticles host articles2 ?p] =>
      destruct (loadFmpArticles_leaf_run host articles2 p h) as (l2 & ->)
  end.
  { cbn [document]. apply slot_update; [apply keeps_skeleton_content | assumption]. }
  cbn [fst snd document charts currentTicker console library].
  split; [|now repeat split]. cbn [document].
  rewrite update_update. apply update_ext; reflexivity.
Qed.

End FrameAndReload.

(** ** The news of a ticker: calls that overlap *)

Section OverlappingCalls.

Implicit Types (doc : Document) (c t : nat).

(** A call that is not interrupted is its first part followed at once by
    its second part. *)
Lemma loadTickerNews_parts (ticker : string) (resp : FetchOutcome TickerPayload) (pg : Page) :
  loadTickerNews ticker resp pg
  = (let* started := loadTickerNews_start ticker in
     match started with
     | Some c => loadTickerNews_resume ticker resp c
     | None => ret tt
     end) pg.
Proof.
  unfold loadTickerNews, loadTickerNews_start, loadTickerNews_resume.
  unfold bind, try_catch, console_log, getElementById, gets, modify, ret,
    set_textContent, set_innerHTML.
  cbn [document with_console].
  destruct (Dom.getElementById "ticker-news-container" (document pg)) as [c|];
    [|reflexivity].
  destruct (Dom.getElementById "ticker-news-section-title" (document pg)) as [t|];
    reflexivity.
Qed.

Lemma loadTickerNews_start_leaf (ticker : string) (pg : Page) c t :
  slot (document pg) "ticker-news-container" c ->
  slot (document pg) "ticker-news-section-title" t ->
  loadTickerNews_start ticker pg
  = (Normal (Some c),
     mkPage (Dom.update c (Dom.set_content_of [Markup "<p>Loading...</p>"])
               (Dom.update t (Dom.set_content_of
                                (Dom.text_nodes ("News for " +:+ ticker
                                                 +:+ " (last 30 days):")))
                  (document pg)))
            (charts pg) (currentTicker pg)
            (console pg ++ [Log ("[loadTickerNews] Fetching news for ticker='" +:+ ticker
                                 +:+ "'...")])
            (library pg)).
Proof.
  intros [Hc Lc] [Ht Lt].
  unfold loadTickerNews_start, bind, console_log, getElementById, gets, ret,
    set_textContent, set_innerHTML, modify.
  cbn [document with_console]. rewrite Hc, Ht.
  unfold with_document, with_console. cbn [document charts currentTicker console library].
  unfold Dom.set_textContent, Dom.set_innerHTML.
  rewrite (replace_children_leaf _ t _ Lt).
  rewrite replace_children_leaf
    by (apply is_leaf_update; [apply keeps_skeleton_content | exact Lc]).
  reflexivity.
Qed.

Lemma loadTickerNews_resume_leaf (ticker : string) (resp : FetchOutcome TickerPayload)
    (pg : Page) c :
  Dom.is_leaf (document pg) c ->
  exists logs,
    loadTickerNews_resume ticker resp c pg
    = (Normal tt,
       mkPage (Dom.update c (Dom.set_content_of (news_children ticker resp)) (document pg))
              (charts pg) (currentTicker pg) (console pg ++ logs) (library pg)).
Proof.
  intros Lc.
  assert (Hl : forall g, Dom.keeps_skeleton g -> Dom.is_leaf (Dom.update c g (document pg)) c)
    by (intros g Hg; now apply is_leaf_update).
  unfold loadTickerNews_resume, try_catch, bind, fetch_json, console_log, ret,
    set_innerHTML, appendChild, throw, lift, modify, with_document, with_console.
  destruct resp as [|[|] status [[[|first others]|]|]]; cbn; unfold Dom.set_innerHTML;
    rewrite ?(replace_children_twice _ _ _ _ Lc), ?(replace_children_leaf _ _ _ Lc).
  - now eexists [_].
  - exists []. now rewrite app_nil_r.
  - exists []. rewrite app_nil_r. unfold Dom.appendChild.
    rewrite update_update.
    change (appendItems [newsItem 0 first] 1 others)
      with (appendItems [] 0 (first :: others)).
    rewrite appendItems_newsList. reflexivity.
  - exists []. now rewrite app_nil_r.
  - now eexists [_].
  - now eexists [_].
  - now eexists [_].
  - now eexists [_].
  - now eexists [_].
Qed.

End OverlappingCalls.

Section OverlappingClaims.

Implicit Types (doc : Document) (c t : nat).

Lemma element_update_is_Some doc h (f : Element -> Element) x :
  is_Some (Dom.element doc x) -> is_Some (Dom.element (Dom.update h f doc) x).
Proof.
  intros [e He]. rewrite element_update, He. destruct (decide (x = h)); cbn; eauto.
Qed.

Lemma content_set doc h (nodes : list Node) :
  is_Some (Dom.element doc h) ->
  Dom.content (Dom.update h (Dom.set_content_of nodes) doc) h = Some nodes.
Proof.
  intros [e He]. rewrite content_update, He. destruct (decide (h = h)); [reflexivity | congruence].
Qed.

Lemma content_set_other doc h x (nodes : list Node) :
  x <> h -> Dom.content (Dom.update h (Dom.set_content_of nodes) doc) x = Dom.content doc x.
Proof. intros Hne. rewrite content_update. destruct (decide (x = h)); [congruence | reflexivity]. Qed.

(** X27: two calls of [loadTickerNews] of which the second starts while
    the first still waits for its response, on a page whose news container
    and news title are leaf elements.  Both calls find the same container;
    whatever the order in which the two responses arrive, the title names
    the ticker of the second call, and the container holds what the
    response that arrives last yields.  So when the response of the first
    call arrives last, the page shows the title of the second ticker over
    the news of the first: the later response does not win. *)
Theorem loadTickerNews_overlapping (ticker1 ticker2 : string)
    (news1 news2 : FetchOutcome TickerPayload) (pg : Page) :
  slot_ok (document pg) "ticker-news-container" = true ->
  slot_ok (document pg) "ticker-news-section-title" = true ->
  exists c waiting,
    (loadTickerNews_start ticker1 ;; loadTickerNews_start ticker2) pg
    = (Normal (Some c), waiting)
    /\ fst (loadTickerNews_start ticker1 pg) = Normal (Some c)
    /\ let in_order := snd ((loadTickerNews_resume ticker1 news1 c ;;
                             loadTickerNews_resume ticker2 news2 c) waiting) in
       let reversed := snd ((loadTickerNews_resume ticker2 news2 c ;;
                             loadTickerNews_resume ticker1 news1 c) waiting) in
       Dom.text_of (document in_order) "ticker-news-section-title"
       = Some ("News for " +:+ ticker2 +:+ " (last 30 days):")
       /\ Dom.children_of (document in_order) "ticker-news-container"
          = Some (news_children ticker2 news2)
       /\ Dom.text_of (document reversed) "ticker-news-section-title"
          = Some ("News for " +:+ ticker2 +:+ " (last 30 days):")
       /\ Dom.children_of (document reversed) "ticker-news-container"
          = Some (news_children ticker1 news1).
Proof.
  intros (c & Sc)%slot_ok_slot (t & St)%slot_ok_slot.
  assert (Hne : t <> c).
  { intros ->. pose proof (getElementById_inj _ _ _ _ (proj1 Sc) (proj1 St)). discriminate. }
  pose proof (loadTickerNews_start_leaf ticker1 pg c t Sc St) as E1.
  set (title1 := Dom.set_content_of
                   (Dom.text_nodes ("News for " +:+ ticker1 +:+ " (last 30 days):"))) in *.
  set (title2 := Dom.set_content_of
                   (Dom.text_nodes ("News for " +:+ ticker2 +:+ " (last 30 days):"))).
  set (loading := Dom.set_content_of [Markup "<p>Loading...</p>"]) in *.
  assert (K1 : Dom.keeps_skeleton title1) by apply keeps_skeleton_content.
  assert (K2 : Dom.keeps_skeleton title2) by apply keeps_skeleton_content.
  assert (KL : Dom.keeps_skeleton loading) by apply keeps_skeleton_content.
  set (doc1 := Dom.update c loading (Dom.update t title1 (document pg))) in *.
  assert (Sc1 : slot doc1 "ticker-news-container" c) by (now repeat apply slot_update).
  assert (St1 : slot doc1 "ticker-news-section-title" t) by (now repeat apply slot_update).
  match type of E1 with _ = (_, ?p) => set (p1 := p) in * end.
  pose proof (loadTickerNews_start_leaf ticker2 p1 c t Sc1 St1) as E2.
  cbn [document charts currentTicker console library p1] in E2. fold title2 loading in E2.
  set (doc2 := Dom.update c loading (Dom.update t title2 doc1)) in *.
  assert (Sc2 : slot doc2 "ticker-news-container" c) by (now repeat apply slot_update).
  assert (St2 : slot doc2 "ticker-news-section-title" t) by (now repeat apply slot_update).
  match type of E2 with _ = (_, ?p) => set (p2 := p) in * end.
  exists c, p2. split; [rewrite (bind_normal _ _ _ _ _ E1); exact E2 |].
  split; [now rewrite E1 |].
  assert (Ht2 : Dom.content doc2 t
                = Some (Dom.text_nodes ("News for " +:+ ticker2 +:+ " (last 30 days):"))).
  { unfold doc2. unfold loading at 1. rewrite content_set_other by exact Hne.
    apply content_set. destruct (getElementById_element _ _ _ (proj1 St1)) as (e & -> & _).
    eauto. }
  assert (Hfinal : forall (ta tb : string) (ra rb : FetchOutcome TickerPayload),
            let final := snd ((loadTickerNews_resume ta ra c ;;
                               loadTickerNews_resume tb rb c) p2) in
            Dom.text_of (document final) "ticker-news-section-title"
            = Some ("News for " +:+ ticker2 +:+ " (last 30 days):")
            /\ Dom.children_of (document final) "ticker-news-container"
               = Some (news_children tb rb)).
  { intros ta tb ra rb.
    destruct (loadTickerNews_resume_leaf ta ra p2 c (proj2 Sc2)) as (la & Ea).
    rewrite (bind_normal _ _ _ _ _ Ea).
    match type of Ea with _ = (_, ?p) => set (pa := p) in * end.
    assert (Sca : slot (document pa) "ticker-news-container" c)
      by (cbn [document pa]; apply slot_update; [apply keeps_skeleton_content | exact Sc2]).
    destruct (loadTickerNews_resume_leaf tb rb pa c (proj2 Sca)) as (lb & ->).
    cbn [snd document pa p2].
    split.
    - rewrite (text_of_content _ _ t
                 (Dom.text_nodes ("News for " +:+ ticker2 +:+ " (last 30 days):"))).
      + apply plain_text_text_nodes.
      + rewrite !getElementById_update by apply keeps_skeleton_content. apply St2.
      + rewrite !content_set_other by exact Hne. exact Ht2.
    - rewrite (children_of_content _ _ c).
      + apply content_set. apply element_update_is_Some.
        destruct (getElementById_element _ _ _ (proj1 Sc2)) as (e & -> & _). eauto.
      + rewrite !getElementById_update by apply keeps_skeleton_content. apply Sc2. }
  cbv zeta. destruct (Hfinal ticker1 ticker2 news1 news2) as [A1 A2].
  destruct (Hfinal ticker2 ticker1 news2 news1) as [B1 B2].
  repeat split; assumption.
Qed.

End OverlappingClaims.

(** ** Instances of the further properties *)

Section FurtherInstances.

Lemma formatSignedValue_tiny_witness :
  formatSignedValue Template.host (VNum (Fin (-1 # 1000))) 2 false = Normal "-0.00".
Proof.
  exact (formatSignedValue_tiny Template.host (-1 # 1000)%Q 2 false
           ltac:(lia) ltac:(vm_compute; reflexivity)).
Defined.

Lemma formatSignedValue_no_white_space_witness :
  all_visible "-5.00%" = true /\ trim "-5.00%" = "-5.00%".
Proof.
  exact (formatSignedValue_no_white_space Template.host (VNum (Fin (-5 # 1))) 2 true "-5.00%"
           ltac:(vm_compute; reflexivity)).
Defined.

Lemma updateChartCardTextOnly_sign_class_witness :
  exists cls',
    Dom.classes
      (document (snd (updateChartCardTextOnly "rp-value" "rp-change" (VStr "+1.00%")
                        (VStr "-2.00%") Template.page))) 10
    = Some cls'
    /\ In "negative" cls' /\ ~ In "positive" cls'.
Proof.
  destruct (updateChartCardTextOnly_sign_class "rp-value" "rp-change" "+1.00%" "-2.00%"
              Template.page 10%nat ["chart-change"]
              eq_refl eq_refl ltac:(discriminate) eq_refl eq_refl)
    as (cls' & E & Hin & Hout & _).
  exists cls'. split; [exact E |]. split; [exact Hin | exact Hout].
Defined.

Lemma updateChartCardTextOnly_idempotent_witness :
  snd (updateChartCardTextOnly "rp-value" "rp-change" (VStr "+1.00%") (VStr "-2.00%")
         (snd (updateChartCardTextOnly "rp-value" "rp-change" (VStr "+1.00%") (VStr "-2.00%")
                 Template.page)))
  = snd (updateChartCardTextOnly "rp-value" "rp-change" (VStr "+1.00%") (VStr "-2.00%")
           Template.page).
Proof.
  exact (updateChartCardTextOnly_idempotent "rp-value" "rp-change" "+1.00%" "-2.00%"
           Template.page eq_refl eq_refl ltac:(discriminate)).
Defined.

Lemma renderChart_one_live_chart_witness :
  (List.length
     (live_on (library (snd (renderChart Template.host "alphaChart" (VArr [VNum (of_Z 1)])
                               (VArr [VStr "Jan"]) "#32CD32" Template.page)))
              "alphaChart") <= 1)%nat.
Proof.
  exact (proj2 (proj2 (renderChart_one_live_chart Template.host "alphaChart"
                         (VArr [VNum (of_Z 1)]) (VArr [VStr "Jan"]) "#32CD32" Template.page
                         ltac:(split; [reflexivity | split; [constructor | intros id; reflexivity]]))
                      "alphaChart")).
Defined.

Lemma controller_format_error_witness :
  exists e' logs,
    loadPerformanceDataAndRenderCharts Template.host
      (FetchResponse true 200 (Some Template.payload_null)) "IBM" Template.page
    = (Throw e', with_console (console Template.page ++ logs) Template.page).
Proof.
  exact (controller_format_error Template.host
           (FetchResponse true 200 (Some Template.payload_null)) "IBM" Template.page
           row_alpha p_value TypeError
           ltac:(cbn; tauto) ltac:(cbn; tauto) ltac:(vm_compute; reflexivity)).
Defined.

Lemma controller_one_live_chart_witness :
  (List.length
     (live_on (library (snd (loadPerformanceDataAndRenderCharts Template.host
                               (FetchResponse true 200 (Some Template.payload_alpha))
                               "IBM" Template.page)))
              "alphaChart") <= 1)%nat.
Proof.
  exact (proj2 (controller_one_live_chart Template.host
                  (FetchResponse true 200 (Some Template.payload_alpha)) "IBM" Template.page
                  ltac:(split; [reflexivity | split; [constructor | intros id; reflexivity]]))
               "alphaChart").
Defined.

Lemma controller_slot_texts_witness :
  Dom.text_of
    (document (snd (loadPerformanceDataAndRenderCharts
                      Template.host (FetchResponse true 200 (Some Template.payload_alpha))
                      "IBM" Template.page)))
    "alpha-change" = Some "-0.200".
Proof.
  refine (proj2 (controller_slot_texts Template.host
                   (FetchResponse true 200 (Some Template.payload_alpha)) "IBM" Template.page
                   Template.texts_alpha _ eq_refl row_alpha ltac:(cbn; tauto))).
  intros row f Hrow Hf. cbn in Hrow, Hf.
  destruct Hrow as [<- | [<- | [<- | [<- | []]]]];
    destruct Hf as [<- | [<- | []]]; vm_compute; reflexivity.
Defined.

Lemma controller_sign_classes_witness :
  exists cls',
    Dom.container_classes
      (document (snd (loadPerformanceDataAndRenderCharts
                        Template.host (FetchResponse true 200 (Some Template.payload_alpha))
                        "IBM" Template.page)))
      "alpha-change" = Some cls'
    /\ (In "negative" cls' <-> startsWith "-" "-0.200" = true).
Proof.
  assert (Hout : forall row f, In row metric_table -> In f [p_value; p_change] ->
            formatted Template.host
              (api_result (FetchResponse true 200 (Some Template.payload_alpha)))
              (row_metric row) f (row_digits row) (row_percent row)
            = Normal (Template.texts_alpha (row_metric row) f)).
  { intros row f Hrow Hf. cbn in Hrow, Hf.
    destruct Hrow as [<- | [<- | [<- | [<- | []]]]];
      destruct Hf as [<- | [<- | []]]; vm_compute; reflexivity. }
  destruct (controller_sign_classes Template.host
              (FetchResponse true 200 (Some Template.payload_alpha)) "IBM" Template.page
              Template.texts_alpha Hout eq_refl ltac:(vm_compute; reflexivity)
              row_alpha ltac:(cbn; tauto))
    as (cls' & E & Hneg & _).
  exists cls'. split; [exact E | exact Hneg].
Defined.

Lemma controller_body_not_object_witness :
  exists pg',
    loadPerformanceDataAndRenderCharts Template.host
      (FetchResponse true 200 (Some (VArr []))) "IBM" Template.page
    = (Normal tt, pg')
    /\ Dom.text_of (document pg') "alpha-value" = Some "+0.000".
Proof.
  destruct (controller_body_not_object Template.host 200 (Some (VArr [])) "IBM" Template.page
              eq_refl eq_refl eq_refl)
    as (pg' & E & T).
  exists pg'. split; [exact E |].
  exact (proj1 (T row_alpha ltac:(cbn; tauto))).
Defined.

Lemma loadFmpArticles_failure_witness :
  exists pg',
    loadFmpArticles Template.host (FetchResponse false 500 None) Template.page
    = (Normal tt, pg')
    /\ Dom.children_of (document pg') "fmp-articles-container"
       = Some [Markup "<p>Failed to load FMP articles.</p>"].
Proof.
  destruct (loadFmpArticles_failure Template.host (FetchResponse false 500 None)
              Template.page 1%nat eq_refl eq_refl)
    as (pg' & e & E & Hc & _).
  exists pg'. split; [exact E | exact Hc].
Defined.

Lemma loadTickerNews_outcomes_witness :
  exists pg' children,
    loadTickerNews "IBM" Template.news_sample Template.page = (Normal tt, pg')
    /\ Dom.text_of (document pg') "ticker-news-section-title"
       = Some "News for IBM (last 30 days):"
    /\ Dom.children_of (document pg') "ticker-news-container" = Some children
    /\ children = [newsList [Template.news_first; Template.news_second]].
Proof.
  destruct (loadTickerNews_outcomes "IBM" Template.news_sample Template.page
              eq_refl eq_refl)
    as (pg' & children & E & Ht & Hc & _ & _ & Hl).
  exists pg', children. split; [exact E |]. split; [exact Ht |]. split; [exact Hc |].
  exact (proj1 (Hl 200 [Template.news_first; Template.news_second] eq_refl
                   ltac:(discriminate))).
Defined.

Lemma controller_frame_witness :
  same_frame
    (document Template.page)
    (document (snd (loadPerformanceDataAndRenderCharts Template.host
                      (FetchResponse true 200 (Some Template.payload_alpha))
                      "IBM" Template.page))).
Proof.
  exact (proj1 (controller_frame Template.host
                  (FetchResponse true 200 (Some Template.payload_alpha)) "IBM"
                  Template.page eq_refl)).
Defined.

Lemma loadTickerNews_reload_witness :
  same_but_console
    (snd (loadTickerNews "IBM" Template.news_sample
            (snd (loadTickerNews "AAPL" FetchRejected Template.page))))
    (snd (loadTickerNews "IBM" Template.news_sample Template.page)).
Proof.
  exact (loadTickerNews_reload "AAPL" "IBM" FetchRejected Template.news_sample Template.page
           eq_refl eq_refl eq_refl).
Defined.

Lemma loadFmpArticles_reload_witness :
  same_but_console
    (snd (loadFmpArticles Template.host Template.articles_sample
            (snd (loadFmpArticles Template.host FetchRejected Template.page))))
    (snd (loadFmpArticles Template.host Template.articles_sample Template.page)).
Proof.
  exact (loadFmpArticles_reload Template.host FetchRejected Template.articles_sample
           Template.page eq_refl).
Defined.

Lemma loadTickerNews_overlapping_witness :
  exists c waiting,
    (loadTickerNews_start "AAPL" ;; loadTickerNews_start "IBM") Template.page
    = (Normal (Some c), waiting)
    /\ Dom.text_of
         (document (snd ((loadTickerNews_resume "IBM" FetchRejected c ;;
                          loadTickerNews_resume "AAPL" Template.news_sample c) waiting)))
         "ticker-news-section-title"
       = Some "News for IBM (last 30 days):"
    /\ Dom.children_of
         (document (snd ((loadTickerNews_resume "IBM" FetchRejected c ;;
                          loadTickerNews_resume "AAPL" Template.news_sample c) waiting)))
         "ticker-news-container"
       = Some [newsList [Template.news_first; Template.news_second]].
Proof.
  destruct (loadTickerNews_overlapping "AAPL" "IBM" Template.news_sample FetchRejected
              Template.page eq_refl eq_refl)
    as (c & waiting & E & _ & _ & _ & T & C).
  exists c, waiting. split; [exact E |]. split; [exact T | exact C].
Defined.

End FurtherInstances.
